(** * TicketKini: booking lifecycle, seat availability, pricing and payment

    A shallow embedding of the booking core of the TicketKini backend
    (backend/services/booking_service.py, backend/routes/payment.py,
    backend/routes/cancel.py, backend/routes/seat_availability.py,
    backend/database/models/coupon.py, backend/models/booking.py) and the
    properties its specification states about it, followed by the simulated
    gateways (backend/services/payment_service.py), the seat maps
    (backend/models/vehicle.py) and further properties of the code.

    Conventions of the embedding.
    - The relational store is an explicit value [DB.t]; every route or
      service method is a function from the store (and the inputs the code
      reads from its environment: the clock, the gateway's answer, the
      generated PNR) to the store the code has committed and its result.
    - A naive Python [datetime] is a point on a linear time line, counted in
      microseconds (the resolution of [datetime]); a [date] is a day number.
    - Python [float] amounts are modelled by exact rationals [Q]; amounts are
      compared with [==] on [Q], which is what Python's numeric [==] decides.
    - Formatted messages (f-strings) are constructors carrying the values
      the f-string interpolates. *)

From Stdlib Require Import ZArith QArith Qround List String Ascii Bool Lia Lqa
  Sorted.
Import ListNotations.

Open Scope string_scope.
Open Scope Z_scope.

(* ================================================================= *)
(** ** Time *)

Module Datetime.

Definition datetime := Z.
Definition date := Z.

Definition usec_per_second : Z := 1000000.
Definition usec_per_minute : Z := 60 * usec_per_second.
Definition usec_per_day : Z := 86400 * usec_per_second.

(** [datetime.date()] and SQL [func.date(...)]. *)
Definition date_of (t : datetime) : date := t / usec_per_day.

(** [datetime.strptime(s, "%Y-%m-%d")]: midnight of the day. *)
Definition midnight (d : date) : datetime := d * usec_per_day.

(** [timedelta(minutes=m)] added to a datetime. *)
Definition add_minutes (t : datetime) (m : Z) : datetime :=
  t + m * usec_per_minute.

(** [(a - b).total_seconds() / 3600]. *)
Definition hours_between (a b : datetime) : Q := (a - b) # 3600000000.

End Datetime.

Import Datetime.

(* ================================================================= *)
(** ** Strings: [str.upper()] on the ASCII range *)

Module Str.

Definition upper_ascii (c : ascii) : ascii :=
  let n := nat_of_ascii c in
  if (Nat.leb 97 n && Nat.leb n 122)%bool then ascii_of_nat (n - 32) else c.

Fixpoint upper (s : string) : string :=
  match s with
  | EmptyString => EmptyString
  | String c r => String (upper_ascii c) (upper r)
  end.

Fixpoint contains (sub s : string) : bool :=
  (String.prefix sub s ||
   match s with
   | EmptyString => false
   | String _ r => contains sub r
   end)%bool.

(** [str.strip()] for ASCII white space. *)
Definition is_space (c : ascii) : bool :=
  let n := nat_of_ascii c in
  (Nat.eqb n 32 || (Nat.leb 9 n && Nat.leb n 13))%bool.

Fixpoint lstrip (s : string) : string :=
  match s with
  | String c r => if is_space c then lstrip r else s
  | EmptyString => EmptyString
  end.

Fixpoint rstrip (s : string) : string :=
  match s with
  | String c r =>
      match rstrip r with
      | EmptyString => if is_space c then EmptyString else String c EmptyString
      | r' => String c r'
      end
  | EmptyString => EmptyString
  end.

Definition strip (s : string) : string := rstrip (lstrip s).

End Str.

(* ================================================================= *)
(** ** Data model (backend/database/models) *)

(** [BookingStatusEnum]; the column itself is a string holding one of these
    names. *)
Inductive BookingStatus :=
  CART | PENDING | CONFIRMED | CANCELLED | EXPIRED | COMPLETED.

Definition BookingStatus_eqb (a b : BookingStatus) : bool :=
  match a, b with
  | CART, CART | PENDING, PENDING | CONFIRMED, CONFIRMED
  | CANCELLED, CANCELLED | EXPIRED, EXPIRED | COMPLETED, COMPLETED => true
  | _, _ => false
  end.

(** [status.in_([...])] / [status in [...]]. *)
Definition status_in (s : BookingStatus) (l : list BookingStatus) : bool :=
  existsb (BookingStatus_eqb s) l.

(** [PaymentStatusEnum]. *)
Inductive PaymentStatus :=
  PAY_PENDING | PAY_PROCESSING | PAY_COMPLETED | PAY_FAILED | PAY_REFUNDED
| PAY_CANCELLED.

Definition PaymentStatus_eqb (a b : PaymentStatus) : bool :=
  match a, b with
  | PAY_PENDING, PAY_PENDING | PAY_PROCESSING, PAY_PROCESSING
  | PAY_COMPLETED, PAY_COMPLETED | PAY_FAILED, PAY_FAILED
  | PAY_REFUNDED, PAY_REFUNDED | PAY_CANCELLED, PAY_CANCELLED => true
  | _, _ => false
  end.

(** [PaymentMethod] of the request model. *)
Inductive PaymentMethod := CARD | BKASH | NAGAD | ROCKET | UPAY | BANK_TRANSFER.

(** [CouponType]. *)
Inductive CouponType := PERCENTAGE | FIXED_AMOUNT | FIRST_TIME | SEASONAL.

(* ================================================================= *)
(** ** Messages *)

(** The reason strings of the service; an f-string carries its arguments. *)
Inductive Message :=
| ScheduleNotFound                       (* "Schedule not found" *)
| ScheduleNotActive                      (* "Schedule is not active" *)
| CannotBookPast                         (* "Cannot book past journeys" *)
| SeatsAlreadyBooked (conflicting : list Z)
    (* f"Seats {list(conflicting_seats)} are already booked" *)
| InvalidSeatNumbers (invalid : list Z)  (* f"Invalid seat numbers: {...}" *)
| ClassNotAvailable (seat_class : string).
    (* f"Class {seat_class} not available" *)

(** The reason strings of [Coupon.is_valid], [Coupon.calculate_discount] and
    [apply_coupon]. *)
Inductive CouponMsg :=
| Valid                            (* "Valid" *)
| CouponNotActive                  (* "Coupon is not active" *)
| CouponNotYetValid                (* "Coupon is not yet valid" *)
| CouponExpired                    (* "Coupon has expired" *)
| CouponUsageLimitExceeded         (* "Coupon usage limit exceeded" *)
| MinimumOrderValue (min_order_value : Q)
    (* f"Minimum order value of ...{self.min_order_value} required" *)
| DiscountApplied                  (* "Discount applied successfully" *)
| InvalidCouponCode                (* "Invalid coupon code" *)
| MinimumBookingAmount (min_order_value : Q)
    (* f"Minimum booking amount of ...{coupon.min_order_value} required" *)
| AlreadyUsed.                     (* "You have already used this coupon" *)

(** The [detail] of the [HTTPException]s the payment route raises. *)
Inductive Detail :=
| BookingNotFound                   (* "Booking not found" *)
| AccessDenied                      (* "Access denied" *)
| CannotPayStatus (s : BookingStatus)
    (* f"Cannot pay for booking with status: {booking.status}" *)
| SeatsNoLongerAvailable (m : Message)
    (* f"Seats are no longer available: {availability['message']}.
          Please select different seats." *)
| PaymentAlreadyCompleted           (* "Payment already completed ..." *)
| PaymentAlreadyProcessing          (* "Payment is already being processed ..." *)
| BookingHasExpired                 (* "Booking has expired. ..." *)
| PassRequires (pass_type : string) (required_bookings total_bookings : Z)
    (* f"{pass_type} Pass requires {required_bookings} bookings. ..." *)
| CouponRejected (error : CouponMsg) (* detail=coupon_result["error"] *)
| PaymentFailed (gateway_response : string)
    (* f"Payment failed: {payment.gateway_response}" *)
| Unhandled.                        (* an exception no handler catches *)

Record HTTPException := mkHTTPException {
  status_code : Z;
  detail : Detail
}.

(** The text stored in [Payment.gateway_response]: a string handed over by
    the gateway, or [str(http_error.detail)] of an exception of the route. *)
Inductive ResponseText :=
| Text (s : string)
| DetailStr (d : Detail).

Module Vehicle.
Record t := mk {
  id : Z;
  total_seats : Z;
  (** JSON column: [None] is NULL, otherwise the dict in insertion order. *)
  class_prices : option (list (string * Q))
}.
End Vehicle.

Module Schedule.
Record t := mk {
  id : Z;
  vehicle_id : Z;
  (** Integer column, 1 for active and 0 for inactive. *)
  is_active : Z;
  base_price : option Q
}.
End Schedule.

Module Booking.
Record t := mk {
  id : Z;
  user_id : Z;
  transport_id : Z;
  schedule_id : option Z;
  seats : list Z;
  seat_class : string;
  total_price : Q;
  status : BookingStatus;
  pnr : option string;
  travel_date : option datetime;
  expires_at : option datetime;
  cancelled_at : option datetime;
  cancellation_reason : option string
}.

Definition set_status (s : BookingStatus) (b : t) : t :=
  mk (id b) (user_id b) (transport_id b) (schedule_id b) (seats b)
     (seat_class b) (total_price b) s (pnr b) (travel_date b)
     (expires_at b) (cancelled_at b) (cancellation_reason b).

Definition set_total_price (p : Q) (b : t) : t :=
  mk (id b) (user_id b) (transport_id b) (schedule_id b) (seats b)
     (seat_class b) p (status b) (pnr b) (travel_date b)
     (expires_at b) (cancelled_at b) (cancellation_reason b).

Definition set_pnr (p : option string) (b : t) : t :=
  mk (id b) (user_id b) (transport_id b) (schedule_id b) (seats b)
     (seat_class b) (total_price b) (status b) p (travel_date b)
     (expires_at b) (cancelled_at b) (cancellation_reason b).

Definition set_cancelled_at (c : option datetime) (b : t) : t :=
  mk (id b) (user_id b) (transport_id b) (schedule_id b) (seats b)
     (seat_class b) (total_price b) (status b) (pnr b) (travel_date b)
     (expires_at b) c (cancellation_reason b).

Definition set_cancellation_reason (r : option string) (b : t) : t :=
  mk (id b) (user_id b) (transport_id b) (schedule_id b) (seats b)
     (seat_class b) (total_price b) (status b) (pnr b) (travel_date b)
     (expires_at b) (cancelled_at b) r.
End Booking.

Module Payment.
Record t := mk {
  id : Z;
  booking_id : Z;
  user_id : Z;
  amount : Q;
  discount_amount : Q;
  final_amount : Q;
  method : PaymentMethod;
  status : PaymentStatus;
  transaction_id : option string;
  gateway_response : option ResponseText;
  coupon_code : option string;
  coupon_discount_percent : option Q;
  refund_status : option string;
  refund_amount : option Q
}.

Definition set_status (s : PaymentStatus) (p : t) : t :=
  mk (id p) (booking_id p) (user_id p) (amount p) (discount_amount p)
     (final_amount p) (method p) s (transaction_id p) (gateway_response p)
     (coupon_code p) (coupon_discount_percent p) (refund_status p)
     (refund_amount p).

Definition set_gateway_response (g : option ResponseText) (p : t) : t :=
  mk (id p) (booking_id p) (user_id p) (amount p) (discount_amount p)
     (final_amount p) (method p) (status p) (transaction_id p) g
     (coupon_code p) (coupon_discount_percent p) (refund_status p)
     (refund_amount p).

Definition set_transaction_id (x : option string) (p : t) : t :=
  mk (id p) (booking_id p) (user_id p) (amount p) (discount_amount p)
     (final_amount p) (method p) (status p) x (gateway_response p)
     (coupon_code p) (coupon_discount_percent p) (refund_status p)
     (refund_amount p).
End Payment.


(** A Python value or the [TypeError] raised by arithmetic on [None]. *)
Inductive PyResult (A : Type) :=
| Value (a : A)
| TypeError.
Arguments Value {A} a.
Arguments TypeError {A}.

Module Coupon.
Record t := mk {
  code : string;
  coupon_type : CouponType;
  discount_percent : option Q;
  discount_amount : option Q;
  min_order_value : Q;
  max_discount : option Q;
  usage_limit : option Z;
  usage_count : Z;
  user_usage_limit : option Z;
  is_active : bool;
  valid_from : option datetime;
  valid_until : option datetime
}.

(** Truthiness of an optional number: [None] and zero are false. *)
Definition truthy_Z (x : option Z) : bool :=
  match x with Some n => negb (n =? 0) | None => false end.

Definition truthy_Q (x : option Q) : bool :=
  match x with Some q => negb (Qeq_bool q 0) | None => false end.

(** The property [is_valid]; [now] is [datetime.utcnow()]. *)
Definition is_valid (self : t) (now : datetime) : bool * CouponMsg :=
  if negb (is_active self) then (false, CouponNotActive)
  else if match valid_from self with Some f => now <? f | None => false end
  then (false, CouponNotYetValid)
  else if match valid_until self with Some u => u <? now | None => false end
  then (false, CouponExpired)
  else if match usage_limit self with
          | Some l => negb (l =? 0) && (l <=? usage_count self)
          | None => false
          end
  then (false, CouponUsageLimitExceeded)
  else (true, Valid).

(** [(order_amount * self.discount_percent) / 100]. *)
Definition percent_of (self : t) (order_amount : Q) : PyResult (option Q) :=
  match discount_percent self with
  | Some p => Value (Some (order_amount * p / 100)%Q)
  | None => TypeError
  end.

Definition calculate_discount (self : t) (now : datetime) (order_amount : Q)
  : PyResult (option Q * CouponMsg) :=
  if negb (fst (is_valid self now)) then
    Value (Some 0%Q, snd (is_valid self now))
  else if Qlt_le_dec order_amount (min_order_value self) then
    Value (Some 0%Q, MinimumOrderValue (min_order_value self))
  else
    match (match coupon_type self with
           | PERCENTAGE => percent_of self order_amount
           | FIXED_AMOUNT => Value (discount_amount self)
           | FIRST_TIME => percent_of self order_amount
           | SEASONAL => percent_of self order_amount
           end) with
    | TypeError => TypeError
    | Value discount =>
        match max_discount self with
        | Some m =>
            if Qeq_bool m 0 then Value (discount, DiscountApplied)
            else
              match discount with
              | None => TypeError
              | Some d =>
                  if Qlt_le_dec m d then Value (Some m, DiscountApplied)
                  else Value (Some d, DiscountApplied)
              end
        | None => Value (discount, DiscountApplied)
        end
    end.
End Coupon.

(** The relational store: one list of rows per table. *)
Module DB.
Record t := mk {
  vehicles : list Vehicle.t;
  schedules : list Schedule.t;
  bookings : list Booking.t;
  payments : list Payment.t;
  coupons : list Coupon.t
}.

Definition set_bookings (bs : list Booking.t) (d : t) : t :=
  mk (vehicles d) (schedules d) bs (payments d) (coupons d).

Definition set_payments (ps : list Payment.t) (d : t) : t :=
  mk (vehicles d) (schedules d) (bookings d) ps (coupons d).

Definition set_coupons (cs : list Coupon.t) (d : t) : t :=
  mk (vehicles d) (schedules d) (bookings d) (payments d) cs.

(** [select(Booking).where(Booking.id == i)] then [scalar_one_or_none()]. *)
Definition get_booking (d : t) (i : Z) : option Booking.t :=
  find (fun b => Booking.id b =? i) (bookings d).

(** A mutated ORM row written back by [commit()]. *)
Definition update_booking (b : Booking.t) (d : t) : t :=
  set_bookings
    (map (fun x => if Booking.id x =? Booking.id b then b else x)
         (bookings d)) d.

Definition update_payment (p : Payment.t) (d : t) : t :=
  set_payments
    (map (fun x => if Payment.id x =? Payment.id p then p else x)
         (payments d)) d.

(** [select(Schedule, Vehicle).join(Vehicle).where(Schedule.id == i)] then
    [first()]. *)
Definition get_schedule_vehicle (d : t) (i : Z)
  : option (Schedule.t * Vehicle.t) :=
  match find (fun s => Schedule.id s =? i) (schedules d) with
  | None => None
  | Some s =>
      match find (fun v => Vehicle.id v =? Schedule.vehicle_id s)
                 (vehicles d) with
      | None => None
      | Some v => Some (s, v)
      end
  end.

(** The primary key an autoincrement column gives the next row. *)
Definition next_id (ids : list Z) : Z := 1 + fold_right Z.max 0 ids.
End DB.


(* ================================================================= *)
(** ** Small list utilities standing for Python built-ins *)

Module Py.

(** [x in l] for integers. *)
Definition mem (x : Z) (l : list Z) : bool := existsb (Z.eqb x) l.


(** [len(l)] as an integer. *)
Definition len {A : Type} (l : list A) : Z := Z.of_nat (List.length l).

Fixpoint insert_sorted (x : Z) (l : list Z) : list Z :=
  match l with
  | [] => [x]
  | y :: r => if x <=? y then x :: l else y :: insert_sorted x r
  end.

(** [sorted(l)]. *)
Definition sorted (l : list Z) : list Z := fold_right insert_sorted [] l.

(** The elements of [set(a) & set(b)], one occurrence each. *)
Definition set_inter (a b : list Z) : list Z :=
  nodup Z.eq_dec (filter (fun x => mem x b) a).

(** [round(x, 2)] on an exact amount: nearest hundredth, ties to even. *)
Definition round_half_even (x : Q) : Z :=
  let f := Qfloor x in
  let r := (x - inject_Z f)%Q in
  match (r ?= 1 # 2)%Q with
  | Lt => f
  | Gt => f + 1
  | Eq => if Z.even f then f else f + 1
  end.

Definition round2 (x : Q) : Q := round_half_even (x * 100)%Q # 100.

(** [max(0.0, x)]. *)
Definition max0 (x : Q) : Q := if Qle_bool 0 x then x else 0%Q.

End Py.

(* ================================================================= *)
(** ** backend/services/booking_service.py *)


(** The dict [check_availability] returns. *)
Inductive Availability :=
| Unavailable (message : Message)
| Available (price_per_seat total_price : Q) (vehicle_id : Z).

Definition available (a : Availability) : bool :=
  match a with Available _ _ _ => true | Unavailable _ => false end.

(** [log_booking_event] calls, in order. *)
Inductive BookingEvent :=
| BOOKING_CREATED (booking_id user_id : Z)
| BOOKING_EXPIRED (booking_id user_id : Z).

(** The body of a [BookingCreate] request after validation. *)
Module BookingCreate.
Record t := mk {
  schedule_id : Z;
  seats : list Z;
  seat_class : string;
  travel_date : date
}.
End BookingCreate.

Inductive CreateResult :=
| CreateFailed (message : Message)
| CreateOk (booking_id : Z) (expiry_time : datetime) (total_price : Q).

Module BookingService.

(** [settings.BOOKING_EXPIRY_MINUTES] (backend/config.py). *)
Definition BOOKING_EXPIRY_MINUTES : Z := 30000.

(** [d[k]] when [k in d]. *)
Fixpoint dict_get (k : string) (d : list (string * Q)) : option Q :=
  match d with
  | [] => None
  | (k', v) :: r => if (k' =? k)%string then Some v else dict_get k r
  end.

(** The loop over [class_prices.items()] comparing upper-cased names. *)
Fixpoint dict_get_upper (k : string) (d : list (string * Q)) : option Q :=
  match d with
  | [] => None
  | (k', v) :: r =>
      if (Str.upper k' =? k)%string then Some v else dict_get_upper k r
  end.

(** The economy fallback written twice in [_get_price_for_class]. *)
Definition economy_fallback (normalized : string)
  (schedule : option Schedule.t) : option Q :=
  match schedule with
  | Some s =>
      if (normalized =? "ECONOMY")%string then Schedule.base_price s else None
  | None => None
  end.

Definition _get_price_for_class (vehicle : Vehicle.t) (seat_class : string)
  (schedule : option Schedule.t) : option Q :=
  let normalized := Str.upper seat_class in
  match Vehicle.class_prices vehicle with
  | None | Some [] => economy_fallback normalized schedule
  | Some d =>
      match dict_get normalized d with
      | Some p => Some p
      | None =>
          match dict_get_upper normalized d with
          | Some p => Some p
          | None => economy_fallback normalized schedule
          end
      end
  end.

(** The WHERE clause of [booked_seats_query]: same schedule, status
    CONFIRMED or PENDING and, when a travel date is given, the same day. *)
Definition blocks_seats (schedule_id : Z) (travel_date : option date)
  (b : Booking.t) : bool :=
  (match Booking.schedule_id b with
   | Some s => s =? schedule_id
   | None => false
   end
   && status_in (Booking.status b) [CONFIRMED; PENDING]
   && match travel_date with
      | None => true
      | Some d =>
          match Booking.travel_date b with
          | Some t => date_of t =? d
          | None => false
          end
      end)%bool.

Definition booked_seats_query (db : DB.t) (schedule_id : Z)
  (travel_date : option date) : list Booking.t :=
  filter (blocks_seats schedule_id travel_date) (DB.bookings db).

(** The flattening loop: [if seat_list: booked_seats.extend(seat_list)]. *)
Definition flatten_seats (rows : list (list Z)) : list Z :=
  flat_map (fun seat_list =>
              match seat_list with [] => [] | _ => seat_list end) rows.

Definition booked_seats (db : DB.t) (schedule_id : Z)
  (travel_date : option date) : list Z :=
  flatten_seats (map Booking.seats (booked_seats_query db schedule_id travel_date)).

Definition check_availability (db : DB.t) (now : datetime) (schedule_id : Z)
  (seats : list Z) (seat_class : string) (travel_date : option date)
  : Availability :=
  match DB.get_schedule_vehicle db schedule_id with
  | None => Unavailable ScheduleNotFound
  | Some (schedule, vehicle) =>
      if Schedule.is_active schedule =? 0 then Unavailable ScheduleNotActive
      else if match travel_date with
              | Some d => d <? date_of now
              | None => false
              end
      then Unavailable CannotBookPast
      else
        let conflicting_seats :=
          Py.set_inter seats (booked_seats db schedule_id travel_date) in
        match conflicting_seats with
        | _ :: _ => Unavailable (SeatsAlreadyBooked conflicting_seats)
        | [] =>
            let max_seat := Vehicle.total_seats vehicle in
            let invalid_seats :=
              filter (fun seat => (seat <? 1) || (max_seat <? seat))%bool seats in
            match invalid_seats with
            | _ :: _ => Unavailable (InvalidSeatNumbers invalid_seats)
            | [] =>
                match _get_price_for_class vehicle seat_class (Some schedule) with
                | None => Unavailable (ClassNotAvailable seat_class)
                | Some price_per_seat =>
                    Available price_per_seat
                      (price_per_seat * inject_Z (Py.len seats))%Q
                      (Vehicle.id vehicle)
                end
            end
        end
  end.

Definition create_booking (db : DB.t) (now : datetime) (user_id : Z)
  (booking_data : BookingCreate.t)
  : DB.t * list BookingEvent * CreateResult :=
  match check_availability db now
          (BookingCreate.schedule_id booking_data)
          (BookingCreate.seats booking_data)
          (BookingCreate.seat_class booking_data)
          (Some (BookingCreate.travel_date booking_data)) with
  | Unavailable m => (db, [], CreateFailed m)
  | Available _ total_price vehicle_id =>
      let expiry_time := add_minutes now BOOKING_EXPIRY_MINUTES in
      let new_id := DB.next_id (map Booking.id (DB.bookings db)) in
      let new_booking :=
        Booking.mk new_id user_id vehicle_id
          (Some (BookingCreate.schedule_id booking_data))
          (BookingCreate.seats booking_data)
          (BookingCreate.seat_class booking_data)
          total_price CART None
          (Some (midnight (BookingCreate.travel_date booking_data)))
          (Some expiry_time) None None in
      (DB.set_bookings (DB.bookings db ++ [new_booking])%list db,
       [BOOKING_CREATED new_id user_id],
       CreateOk new_id expiry_time total_price)
  end.

(** The WHERE clause of the expiry sweep. *)
Definition expired_row (current_time : datetime) (b : Booking.t) : bool :=
  (status_in (Booking.status b) [PENDING; CART]
   && match Booking.expires_at b with
      | Some e => e <? current_time
      | None => false
      end)%bool.

(** The three assignments of the sweep's loop body. *)
Definition expire (current_time : datetime) (b : Booking.t) : Booking.t :=
  Booking.set_cancellation_reason (Some "Auto-expired due to payment timeout")
    (Booking.set_cancelled_at (Some current_time)
       (Booking.set_status EXPIRED b)).

Definition auto_cancel_expired_bookings (db : DB.t) (current_time : datetime)
  : DB.t * list BookingEvent * Z :=
  let expired_bookings := filter (expired_row current_time) (DB.bookings db) in
  (DB.set_bookings
     (map (fun b => if expired_row current_time b
                    then expire current_time b else b) (DB.bookings db)) db,
   map (fun b => BOOKING_EXPIRED (Booking.id b) (Booking.user_id b))
       expired_bookings,
   Py.len expired_bookings).

End BookingService.

(* ================================================================= *)
(** ** backend/routes/seat_availability.py *)

Module SeatAvailability.

(** The [seat_availability] part of the response. *)
Record t := mk {
  total_seats : Z;
  available_seats : Z;
  booked_seats : Z;
  available_seat_numbers : list Z;
  booked_seat_numbers : list Z
}.



End SeatAvailability.


(* ================================================================= *)
(** ** Handlers as store transformers that may raise *)

Module Handler.

Definition M (A : Type) : Type := DB.t -> DB.t * (HTTPException + A).

Definition ret {A : Type} (a : A) : M A := fun db => (db, inr a).

Definition bind {A B : Type} (m : M A) (k : A -> M B) : M B :=
  fun db =>
    match m db with
    | (db', inl e) => (db', inl e)
    | (db', inr a) => k a db'
    end.

(** [raise HTTPException(status_code=..., detail=...)]. *)
Definition raise {A : Type} (code : Z) (d : Detail) : M A :=
  fun db => (db, inl (mkHTTPException code d)).

(** A query: reads the store. *)
Definition query {A : Type} (f : DB.t -> A) : M A := fun db => (db, inr (f db)).

(** A committed write. *)
Definition commit (f : DB.t -> DB.t) : M unit := fun db => (f db, inr tt).

(** [try: body / except HTTPException as e: handler(e)]. *)
Definition try_except {A : Type} (body : M A) (handler : HTTPException -> M A)
  : M A :=
  fun db =>
    match body db with
    | (db', inl e) => handler e db'
    | (db', inr a) => (db', inr a)
    end.

End Handler.

Notation "x <- m ;; k" := (Handler.bind m (fun x => k))
  (at level 61, m at next level, right associativity).
Notation "m ;;; k" := (Handler.bind m (fun _ => k))
  (at level 61, right associativity).

(* ================================================================= *)
(** ** backend/routes/payment.py *)

(** The answer of the payment gateway ([process_payment]), an external
    collaborator. *)
Module Gateway.
Record result := mk {
  success : bool;
  transaction_id : option string;
  gateway_response : option string;
  error : option string
}.

(** [payment_result.get("error", "Payment processing failed")]. *)
Definition failure_text (r : result) : string :=
  match error r with
  | Some e => e
  | None => "Payment processing failed"
  end.
End Gateway.

(** The fields of [PaymentCreate] the route reads. *)
Module PaymentCreate.
Record t := mk {
  booking_id : Z;
  payment_method : PaymentMethod;
  coupon_code : option string;
  apply_coupon : option bool
}.
End PaymentCreate.

(** What the handler reads from its environment. *)
Module Env.
Record t := mk {
  now : datetime;        (* datetime.now() *)
  utcnow : datetime;     (* datetime.utcnow() *)
  server_now : datetime; (* func.now() of the database server *)
  gateway : Gateway.result;
  pnr : string           (* generate_pnr() *)
}.
End Env.

Inductive CouponResult :=
| CouponInvalid (error : CouponMsg)
| CouponValid (discount_amount : Q) (coupon_type : CouponType).

Module AutoDiscount.
Record t := mk {
  percent : Q;
  code : option string;
  amount : Q;
  reason : option string;
  bookings : Z
}.
End AutoDiscount.

Record PaymentResponse := mkPaymentResponse {
  response_id : Z;
  response_transaction_id : option string
}.

Module PaymentRoute.

Import Handler.

Definition _compute_user_total_bookings (db : DB.t) (user_id : Z) : Z :=
  Py.len (filter (fun b => (Booking.user_id b =? user_id)
                           && status_in (Booking.status b) [CONFIRMED; COMPLETED])%bool
                 (DB.bookings db)).


Definition usec_per_days (n : Z) : Z := n * usec_per_day.

Definition find_coupon (db : DB.t) (key : string) : option Coupon.t :=
  find (fun c => (Coupon.code c =? key)%string) (DB.coupons db).

(** The three coupons [_seed_default_coupon_if_known] knows. *)
Definition default_coupon (env : Env.t) (key : string) : option Coupon.t :=
  if (key =? "WELCOME10")%string then
    Some (Coupon.mk "WELCOME10" FIRST_TIME (Some 10%Q) None 500%Q
            (Some 200%Q) (Some 1000) 0 (Some 1) true
            (Some (Env.server_now env))
            (Some (Env.utcnow env + usec_per_days 365)))
  else if (key =? "SUMMER25")%string then
    Some (Coupon.mk "SUMMER25" SEASONAL (Some 25%Q) None 1000%Q
            (Some 500%Q) (Some 500) 0 (Some 1) true
            (Some (Env.server_now env))
            (Some (Env.utcnow env + usec_per_days 90)))
  else if (key =? "FIXED100")%string then
    Some (Coupon.mk "FIXED100" FIXED_AMOUNT None (Some 100%Q) 1000%Q
            None (Some 200) 0 (Some 1) true
            (Some (Env.server_now env))
            (Some (Env.utcnow env + usec_per_days 30)))
  else None.

Definition _seed_default_coupon_if_known (env : Env.t) (code : string)
  : M bool :=
  let key := Str.upper (Str.strip code) in
  existing <- query (fun db => find_coupon db key) ;;
  match existing with
  | Some _ => ret false
  | None =>
      match default_coupon env key with
      | None => ret false
      | Some coupon =>
          commit (fun db => DB.set_coupons (DB.coupons db ++ [coupon])%list db) ;;;
          ret true
      end
  end.

(** Completed payments of the user that carry the coupon's code. *)
Definition user_usage_count (db : DB.t) (user_id : Z) (code : string) : Z :=
  Py.len (filter (fun p => (Payment.user_id p =? user_id)
                           && match Payment.coupon_code p with
                              | Some c => (c =? code)%string
                              | None => false
                              end
                           && PaymentStatus_eqb (Payment.status p) PAY_COMPLETED)%bool
                 (DB.payments db)).

(** The checks of [apply_coupon] once the coupon row is at hand. *)
Definition validate_coupon (db : DB.t) (env : Env.t) (coupon : Coupon.t)
  (booking_amount : Q) (user_id : Z) : PyResult CouponResult :=
  let '(is_valid, reason) := Coupon.is_valid coupon (Env.utcnow env) in
  if negb is_valid then Value (CouponInvalid reason)
  else if (negb (Qeq_bool (Coupon.min_order_value coupon) 0)
           && if Qlt_le_dec booking_amount (Coupon.min_order_value coupon)
              then true else false)%bool
  then Value (CouponInvalid (MinimumBookingAmount (Coupon.min_order_value coupon)))
  else if (Coupon.truthy_Z (Coupon.user_usage_limit coupon)
           && match Coupon.user_usage_limit coupon with
              | Some l => l <=? user_usage_count db user_id (Coupon.code coupon)
              | None => false
              end)%bool
  then Value (CouponInvalid AlreadyUsed)
  else
    match Coupon.calculate_discount coupon (Env.utcnow env) booking_amount with
    | TypeError => TypeError
    | Value (None, _) => TypeError
    | Value (Some discount_amount, msg) =>
        if Qle_bool discount_amount 0 then Value (CouponInvalid msg)
        else Value (CouponValid discount_amount (Coupon.coupon_type coupon))
    end.

Definition apply_coupon (env : Env.t) (coupon_code : string)
  (booking_amount : Q) (user_id : Z) : M (PyResult CouponResult) :=
  let key := Str.upper coupon_code in
  found <- query (fun db => find_coupon db key) ;;
  coupon <- match found with
            | Some c => ret (Some c)
            | None =>
                seeded <- _seed_default_coupon_if_known env coupon_code ;;
                if seeded : bool then query (fun db => find_coupon db key)
                else ret None
            end ;;
  match coupon with
  | None => ret (Value (CouponInvalid InvalidCouponCode))
  | Some c =>
      query (fun db => validate_coupon db env c booking_amount user_id)
  end.

(** [calculate_refund_amount] of the refund route. *)
Definition calculate_refund_amount (original_amount : Q)
  (booking_date cancellation_date : datetime) : Q :=
  let hours_before := hours_between booking_date cancellation_date in
  let refund_percentage :=
    if Qle_bool 48 hours_before then (90 # 100)%Q
    else if Qle_bool 24 hours_before then (75 # 100)%Q
    else if Qle_bool 12 hours_before then (50 # 100)%Q
    else if Qle_bool 4 hours_before then (25 # 100)%Q
    else 0%Q in
  let refund_amount := (original_amount * refund_percentage)%Q in
  let min_refund := 50%Q in
  let refund_amount :=
    if (negb (Qle_bool refund_amount 0)
        && negb (Qle_bool min_refund refund_amount))%bool
    then 0%Q else refund_amount in
  Py.round2 refund_amount.

(** What the discount step of [process_booking_payment] leaves in its local
    variables. *)
Record Discount := mkDiscount {
  discount_amount : Q;
  final_amount : Q;
  coupon_applied : option string;
  coupon_percent : option Q
}.

Definition is_silver_code (c : string) : bool :=
  ((c =? "SILVER20") || (c =? "SILVERPASS"))%string.

Definition is_gold_code (c : string) : bool :=
  ((c =? "GOLD40") || (c =? "GOLDPASS"))%string.

(** [payment_request.coupon_code and getattr(payment_request,
    "apply_coupon", True)]. *)
Definition coupon_requested (payment_request : PaymentCreate.t)
  : option string :=
  match PaymentCreate.coupon_code payment_request with
  | Some c =>
      if (c =? "")%string then None
      else match PaymentCreate.apply_coupon payment_request with
           | Some true => Some c
           | _ => None
           end
  | None => None
  end.

Definition pass_discount (original_amount pct : Q) (code : string) : Discount :=
  let d := Py.round2 (original_amount * pct / 100)%Q in
  mkDiscount d (Py.max0 (original_amount - d)%Q) (Some code) (Some pct).

Definition resolve_discount (env : Env.t) (user_id : Z) (original_amount : Q)
  (payment_request : PaymentCreate.t) : M Discount :=
  match coupon_requested payment_request with
  | None => ret (mkDiscount 0%Q original_amount None None)
  | Some code =>
      let coupon_upper := Str.upper code in
      total_bookings <- query (fun db => _compute_user_total_bookings db user_id) ;;
      if (is_silver_code coupon_upper && (20 <=? total_bookings))%bool then
        ret (pass_discount original_amount 5%Q code)
      else if (is_gold_code coupon_upper && (40 <=? total_bookings))%bool then
        ret (pass_discount original_amount 8%Q code)
      else if (is_silver_code coupon_upper || is_gold_code coupon_upper)%bool then
        let silver := Str.contains "SILVER" coupon_upper in
        raise 400 (PassRequires (if silver then "Silver" else "Gold")
                                (if silver then 20 else 40) total_bookings)
      else
        coupon_result <- apply_coupon env code original_amount user_id ;;
        match coupon_result with
        | TypeError => raise 500 Unhandled
        | Value (CouponValid d _) =>
            ret (mkDiscount d (Py.max0 (original_amount - d)%Q) (Some code) None)
        | Value (CouponInvalid error) => raise 400 (CouponRejected error)
        end
  end.

Definition find_payment (db : DB.t) (booking_id : Z) : option Payment.t :=
  find (fun p => Payment.booking_id p =? booking_id) (DB.payments db).

Definition delete_payment (payment_id : Z) (db : DB.t) : DB.t :=
  DB.set_payments
    (filter (fun p => negb (Payment.id p =? payment_id)) (DB.payments db)) db.

(** [update(Payment).where(Payment.id == payment_id).values(status=FAILED,
    gateway_response=str(http_error.detail))]. *)
Definition mark_failed (payment_id : Z) (e : HTTPException) (db : DB.t) : DB.t :=
  DB.set_payments
    (map (fun p => if Payment.id p =? payment_id
                   then Payment.set_gateway_response (Some (DetailStr (detail e)))
                          (Payment.set_status PAY_FAILED p)
                   else p) (DB.payments db)) db.

(** The CART branch: the seats are checked again before they are blocked. *)
Definition recheck_cart (env : Env.t) (booking : Booking.t) : M Booking.t :=
  if BookingStatus_eqb (Booking.status booking) CART then
    match Booking.schedule_id booking with
    | None =>
        (* [Schedule.id == None] matches no row *)
        commit (DB.update_booking (Booking.set_status CART booking)) ;;;
        raise 400 (SeatsNoLongerAvailable ScheduleNotFound)
    | Some schedule_id =>
        availability <-
          query (fun db =>
                   BookingService.check_availability db (Env.now env)
                     schedule_id (Booking.seats booking)
                     (Booking.seat_class booking)
                     (option_map date_of (Booking.travel_date booking))) ;;
        match availability with
        | Unavailable m =>
            commit (DB.update_booking (Booking.set_status CART booking)) ;;;
            raise 400 (SeatsNoLongerAvailable m)
        | Available _ total_price _ =>
            ret (Booking.set_total_price total_price
                   (Booking.set_status PENDING booking))
        end
    end
  else ret booking.

(** The body of the [try] block: the gateway is asked and its answer
    recorded. *)
Definition settle (env : Env.t) (booking : Booking.t) (payment : Payment.t)
  : M PaymentResponse :=
  let payment_result := Env.gateway env in
  if Gateway.success payment_result then
    let payment :=
      Payment.set_gateway_response
        (Some (Text match Gateway.gateway_response payment_result with
                    | Some g => g
                    | None => ""
                    end))
        (Payment.set_transaction_id (Gateway.transaction_id payment_result)
           (Payment.set_status PAY_COMPLETED payment)) in
    let booking :=
      Booking.set_pnr (Some (Env.pnr env)) (Booking.set_status CONFIRMED booking) in
    commit (fun db => DB.update_payment payment (DB.update_booking booking db)) ;;;
    ret (mkPaymentResponse (Payment.id payment) (Payment.transaction_id payment))
  else
    let failed_msg := Gateway.failure_text payment_result in
    let payment :=
      Payment.set_gateway_response (Some (Text failed_msg))
        (Payment.set_status PAY_FAILED payment) in
    commit (DB.update_payment payment) ;;;
    raise 400 (PaymentFailed failed_msg).

(** "Check if payment already exists for this booking". *)
Definition reject_existing_payment (booking : Booking.t) : M unit :=
  existing_payment <- query (fun db => find_payment db (Booking.id booking)) ;;
  match existing_payment with
  | Some p =>
      match Payment.status p with
      | PAY_COMPLETED => raise 400 PaymentAlreadyCompleted
      | PAY_PENDING => raise 400 PaymentAlreadyProcessing
      | PAY_FAILED => commit (delete_payment (Payment.id p))
      | _ => ret tt
      end
  | None => ret tt
  end.

(** "Check if booking has expired". *)
Definition reject_expired (env : Env.t) (booking : Booking.t) : M unit :=
  if match Booking.expires_at booking with
     | Some e => e <? Env.now env
     | None => false
     end
  then
    commit (DB.update_booking
              (Booking.set_cancelled_at (Some (Env.now env))
                 (Booking.set_status EXPIRED booking))) ;;;
    raise 400 BookingHasExpired
  else ret tt.

(** "Create payment record": [db.add(payment); await db.flush()].  The
    column [booking_id] is unique, so a row left for the booking makes the
    flush fail with an error no handler of the route catches. *)
Definition create_payment_record (user_id : Z)
  (payment_request : PaymentCreate.t) (booking : Booking.t) (d : Discount)
  : M Payment.t :=
  clash <- query (fun db => find_payment db (Booking.id booking)) ;;
  match clash with
  | Some _ => raise 500 Unhandled
  | None =>
      payment_id <- query (fun db => DB.next_id (map Payment.id (DB.payments db))) ;;
      let payment :=
        Payment.mk payment_id (Booking.id booking) user_id
          (Booking.total_price booking) (discount_amount d) (final_amount d)
          (PaymentCreate.payment_method payment_request) PAY_PENDING
          None None (coupon_applied d) (coupon_percent d) None None in
      commit (fun db => DB.set_payments (DB.payments db ++ [payment])%list db) ;;;
      ret payment
  end.

(** Everything the handler does before the [try] block: the checks, the
    seat re-validation, the discount and the PENDING payment row. *)
Definition prepare_payment (env : Env.t) (user_id : Z)
  (payment_request : PaymentCreate.t) : M (Booking.t * Payment.t) :=
  found <- query (fun db => DB.get_booking db (PaymentCreate.booking_id payment_request)) ;;
  match found with
  | None => raise 404 BookingNotFound
  | Some booking =>
      if negb (Booking.user_id booking =? user_id) then raise 403 AccessDenied
      else if negb (status_in (Booking.status booking) [CART; PENDING]) then
        raise 400 (CannotPayStatus (Booking.status booking))
      else
        booking <- recheck_cart env booking ;;
        commit (DB.update_booking booking) ;;;
        reject_existing_payment booking ;;;
        reject_expired env booking ;;;
        d <- resolve_discount env user_id (Booking.total_price booking)
               payment_request ;;
        payment <- create_payment_record user_id payment_request booking d ;;
        ret (booking, payment)
  end.

(** [except HTTPException as http_error]: best-effort FAILED mark, then the
    exception is raised again. *)
Definition on_http_error (payment_id : Z) (http_error : HTTPException)
  : M PaymentResponse :=
  commit (mark_failed payment_id http_error) ;;;
  raise (status_code http_error) (detail http_error).

Definition process_booking_payment (env : Env.t) (user_id : Z)
  (payment_request : PaymentCreate.t) : M PaymentResponse :=
  prepared <- prepare_payment env user_id payment_request ;;
  let '(booking, payment) := prepared in
  try_except (settle env booking payment) (on_http_error (Payment.id payment)).

End PaymentRoute.

(* ================================================================= *)
(** ** backend/routes/cancel.py *)

Module CancelRoute.

(** The refund the cancellation route records: the hours before departure
    are the constant the source calls a placeholder. *)
Definition calculate_refund_amount (booking : Booking.t) (payment : Payment.t)
  : Q :=
  let hours_before_departure := 25 in
  let refund_percentage :=
    if 24 <? hours_before_departure then (90 # 100)%Q
    else if 12 <? hours_before_departure then (50 # 100)%Q
    else (10 # 100)%Q in
  Py.round2 (Payment.amount payment * refund_percentage)%Q.

(** The sweep of the cancellation router; [current_time] is
    [datetime.utcnow()].  The loop body repeats its last three statements,
    so every expired booking is counted twice. *)
Definition auto_cancel_expired_bookings (db : DB.t) (current_time : datetime)
  : DB.t * Z :=
  let expired_bookings :=
    filter (BookingService.expired_row current_time) (DB.bookings db) in
  let expire_twice b :=
    Booking.set_cancellation_reason (Some "Auto-expired due to payment timeout")
      (Booking.set_cancelled_at (Some current_time)
         (BookingService.expire current_time b)) in
  (DB.set_bookings
     (map (fun b => if BookingService.expired_row current_time b
                    then expire_twice b else b) (DB.bookings db)) db,
   2 * Py.len expired_bookings).

End CancelRoute.

(* ================================================================= *)
(** ** backend/models/booking.py and the creation route *)

Module PassengerDetails.
Record t := mk {
  name : string;
  age : Z;
  gender : string;
  seat_number : Z;
  phone : option string
}.
End PassengerDetails.

(** The JSON body of a creation request, before validation. *)
Module BookingRequest.
Record t := mk {
  schedule_id : Z;
  seats : list Z;
  seat_class : option string;
  passenger_details : list PassengerDetails.t;
  (** [datetime.strptime(v, "%Y-%m-%d").date()]; [None] when it raises. *)
  travel_date : option date
}.
End BookingRequest.

Inductive ValidationError :=
| SeatsMinItems            (* seats: ensure this value has at least 1 items *)
| SeatsMaxItems            (* seats: ensure this value has at most 6 items *)
| DuplicateSeats           (* "Duplicate seats are not allowed" *)
| PassengerInvalid (index : nat)
| PassengersMinItems
| PassengersMaxItems
| PassengersSeatsMismatch  (* "Number of passengers must match ..." *)
| TravelDateInPast
| TravelDateTooFar
| InvalidDateFormat.

Inductive RouteResult :=
| UnprocessableEntity (errors : list ValidationError)   (* 422 *)
| BadRequest (message : Message)                        (* 400 *)
| Created (booking_id : Z).                             (* 201 *)

Module Validation.

Definition str_len (s : string) : Z := Z.of_nat (String.length s).

(** [len(v) != len(set(v))]. *)
Definition has_duplicates (v : list Z) : bool :=
  negb (Nat.eqb (List.length v) (List.length (nodup Z.eq_dec v))).

(** The field [seats]: [min_items=1, max_items=6], then
    [validate_unique_seats]. *)
Definition validate_seats (v : list Z) : list ValidationError + list Z :=
  if Py.len v <? 1 then inl [SeatsMinItems]
  else if 6 <? Py.len v then inl [SeatsMaxItems]
  else if has_duplicates v then inl [DuplicateSeats]
  else inr v.

(** [normalize_seat_class]. *)
Definition normalize_seat_class (v : option string) : string :=
  match v with
  | None => "ECONOMY"
  | Some s =>
      if (Str.strip s =? "")%string then "ECONOMY"
      else Str.upper (Str.strip s)
  end.

Definition valid_passenger (p : PassengerDetails.t) : bool :=
  ((2 <=? str_len (PassengerDetails.name p))
   && (str_len (PassengerDetails.name p) <=? 100)
   && negb (Str.strip (PassengerDetails.name p) =? "")%string
   && (1 <=? PassengerDetails.age p) && (PassengerDetails.age p <=? 120)
   && existsb (String.eqb (PassengerDetails.gender p)) ["Male"; "Female"; "Other"]
   && (1 <=? PassengerDetails.seat_number p)
   && match PassengerDetails.phone p with
      | Some ph => str_len ph <=? 15
      | None => true
      end)%bool.

Fixpoint invalid_passengers (i : nat) (v : list PassengerDetails.t)
  : list ValidationError :=
  match v with
  | [] => []
  | p :: r =>
      if valid_passenger p then invalid_passengers (S i) r
      else PassengerInvalid i :: invalid_passengers (S i) r
  end.

(** The field [passenger_details]; [seats_value] is [values.get('seats')],
    absent when [seats] did not validate. *)
Definition validate_passenger_details (seats_value : option (list Z))
  (v : list PassengerDetails.t) : list ValidationError :=
  match invalid_passengers 0 v with
  | (_ :: _) as errs => errs
  | [] =>
      if Py.len v <? 1 then [PassengersMinItems]
      else if 6 <? Py.len v then [PassengersMaxItems]
      else
        match seats_value with
        | Some seats =>
            if negb (Nat.eqb (List.length v) (List.length seats))
            then [PassengersSeatsMismatch] else []
        | None => []
        end
  end.

(** [validate_travel_date]; [max_advance_date] is
    [current_date.replace(year=current_date.year + 1)], [None] when that
    raises. *)
Definition validate_travel_date (today : date) (max_advance_date : option date)
  (v : option date) : list ValidationError :=
  match v with
  | None => [InvalidDateFormat]
  | Some travel_date =>
      if travel_date <? today then [TravelDateInPast]
      else
        match max_advance_date with
        | None => [InvalidDateFormat]
        | Some m => if m <? travel_date then [TravelDateTooFar] else []
        end
  end.

(** Validation of the whole [BookingCreate] body: the errors of all fields
    are collected, and the model is built when there is none. *)
Definition validate (today : date) (max_advance_date : option date)
  (body : BookingRequest.t) : list ValidationError + BookingCreate.t :=
  let seats_result := validate_seats (BookingRequest.seats body) in
  let seats_errors := match seats_result with inl e => e | inr _ => [] end in
  let seats_value := match seats_result with inl _ => None | inr v => Some v end in
  let errors :=
    (seats_errors
     ++ validate_passenger_details seats_value (BookingRequest.passenger_details body)
     ++ validate_travel_date today max_advance_date (BookingRequest.travel_date body))%list in
  match errors, seats_value, BookingRequest.travel_date body with
  | [], Some seats, Some travel_date =>
      inr (BookingCreate.mk (BookingRequest.schedule_id body) seats
             (normalize_seat_class (BookingRequest.seat_class body)) travel_date)
  | _, _, _ => inl errors
  end.

(** [POST /bookings/]: the body is validated before the handler runs. *)
Definition create_booking_route (db : DB.t) (now : datetime)
  (max_advance_date : option date) (current_user_id : Z)
  (body : BookingRequest.t) : DB.t * list BookingEvent * RouteResult :=
  match validate (date_of now) max_advance_date body with
  | inl errors => (db, [], UnprocessableEntity errors)
  | inr booking_data =>
      match BookingService.create_booking db now current_user_id booking_data with
      | (db', events, CreateFailed m) => (db', events, BadRequest m)
      | (db', events, CreateOk booking_id _ _) => (db', events, Created booking_id)
      end
  end.

End Validation.

(* ================================================================= *)
(** ** backend/services/booking_service.py: prices and confirmation *)

(** The reason strings of [confirm_booking]. *)
Inductive ConfirmMsg :=
| ConfirmBookingNotFound     (* "Booking not found" *)
| BookingNotPending.         (* "Booking is not in pending status" *)

(** The [log_booking_event] call of [confirm_booking]. *)
Inductive ConfirmEvent :=
| BOOKING_CONFIRMED (booking_id user_id : Z) (pnr : string) (payment_id : Z).

Inductive ConfirmResult :=
| ConfirmFailed (message : ConfirmMsg)
| ConfirmOk (pnr : string).

Module BookingConfirmation.

(** [compute_price]: the total for [seat_count] seats of a class, [0.0]
    when the schedule or a price for the class is missing. *)
Definition compute_price (db : DB.t) (schedule_id : Z) (seat_class : string)
  (seat_count : Z) : Q :=
  match DB.get_schedule_vehicle db schedule_id with
  | None => 0%Q
  | Some (schedule, vehicle) =>
      match BookingService._get_price_for_class vehicle seat_class
              (Some schedule) with
      | None => 0%Q
      | Some price_per_seat => (price_per_seat * inject_Z seat_count)%Q
      end
  end.

(** [confirm_booking]; [pnr] is what [_generate_pnr()] draws. *)
Definition confirm_booking (db : DB.t) (pnr : string)
  (booking_id payment_id : Z) : DB.t * list ConfirmEvent * ConfirmResult :=
  match DB.get_booking db booking_id with
  | None => (db, [], ConfirmFailed ConfirmBookingNotFound)
  | Some booking =>
      if negb (BookingStatus_eqb (Booking.status booking) PENDING) then
        (db, [], ConfirmFailed BookingNotPending)
      else
        (DB.update_booking
           (Booking.set_pnr (Some pnr) (Booking.set_status CONFIRMED booking)) db,
         [BOOKING_CONFIRMED booking_id (Booking.user_id booking) pnr payment_id],
         ConfirmOk pnr)
  end.

End BookingConfirmation.

(* ================================================================= *)
(** ** backend/routes/seat_availability.py: checking given seats *)

Module SeatCheck.

(** One entry of [conflicts]. *)
Record conflict := mkConflict {
  conflict_seats : list Z;
  conflict_booking_id : Z;
  conflict_status : BookingStatus
}.

Inductive result :=
| CheckScheduleNotFound                        (* 404 "Schedule not found" *)
| CheckInvalidSeats (invalid : list Z) (total_seats : Z)
    (* 400 f"Invalid seat numbers: {invalid_seats}. Valid range: 1-{...}" *)
| Checked (requested_seats : list Z) (available : bool)
    (conflicts : list conflict).

(** The loop over the booked rows: a row with a non-empty seat list that
    shares a seat with the request adds one conflict. *)
Definition collect_conflicts (seat_numbers : list Z) (rows : list Booking.t)
  : list conflict :=
  flat_map (fun b =>
              match Booking.seats b with
              | [] => []
              | seat_list =>
                  match Py.set_inter seat_numbers seat_list with
                  | [] => []
                  | conflicting_seats =>
                      [mkConflict conflicting_seats (Booking.id b) (Booking.status b)]
                  end
              end) rows.

(** [check_specific_seats] once the comma-separated [seats] parameter has
    been parsed into [seat_numbers] and [travel_date] into a day. *)
Definition check_specific_seats (db : DB.t) (schedule_id : Z)
  (seat_numbers : list Z) (travel_date : option date) : result :=
  match DB.get_schedule_vehicle db schedule_id with
  | None => CheckScheduleNotFound
  | Some (_, vehicle) =>
      let invalid_seats :=
        filter (fun seat => (seat <? 1) || (Vehicle.total_seats vehicle <? seat))%bool
               seat_numbers in
      match invalid_seats with
      | _ :: _ => CheckInvalidSeats invalid_seats (Vehicle.total_seats vehicle)
      | [] =>
          let conflicts :=
            collect_conflicts seat_numbers
              (filter (BookingService.blocks_seats schedule_id travel_date)
                      (DB.bookings db)) in
          Checked seat_numbers (Py.len conflicts =? 0) conflicts
      end
  end.

End SeatCheck.

(* ================================================================= *)
(** ** backend/routes/cancel.py: cancelling a booking by hand *)

Module CancelBooking.

Inductive Error :=
| CancelBookingNotFound            (* 404 "Booking not found" *)
| NotAuthorizedToCancel            (* 403 "Not authorized to cancel this booking" *)
| CannotCancelStatus (s : BookingStatus).
    (* 400 f"Cannot cancel booking with status: {booking.status}" *)

Definition status_code (e : Error) : Z :=
  match e with
  | CancelBookingNotFound => 404
  | NotAuthorizedToCancel => 403
  | CannotCancelStatus _ => 400
  end.






End CancelBooking.

(* ================================================================= *)
(** ** backend/routes/payment.py: refunds *)

(** The answer of [process_refund_gateway], an external collaborator. *)
Module RefundGateway.
Record result := mk {
  success : bool;
  refund_transaction_id : option string;
  error : option string
}.
End RefundGateway.

Module RefundRoute.

Inductive Error :=
| PaymentNotFound              (* 404 "Payment not found" *)
| RefundAccessDenied           (* 403 "Access denied" *)
| OnlyCompletedRefundable      (* 400 "Only completed payments can be refunded" *)
| BookingMustBeCancelled       (* 400 "Booking must be cancelled to process refund" *)
| NoRefundDue                  (* 400 "No refund amount due based on ..." *)
| RefundProcessingFailed (error : option string)
    (* 500 f"Refund processing failed: {refund_result.get('error')}" *)
| RefundUnhandled.             (* 500: an exception no handler catches *)

Definition status_code (e : Error) : Z :=
  match e with
  | PaymentNotFound => 404
  | RefundAccessDenied => 403
  | OnlyCompletedRefundable | BookingMustBeCancelled | NoRefundDue => 400
  | RefundProcessingFailed _ | RefundUnhandled => 500
  end.





End RefundRoute.

(* ================================================================= *)
(** ** backend/routes/payment.py: quoting a coupon and the pass status *)

Module CouponQuote.

Import Handler.





End CouponQuote.

Module PassStatus.

(** ["next_tier"]. *)
Record NextTier := mkNextTier {
  name : option string;
  current_progress : Z;
  target : Z;
  percentage : Q;
  remaining : Z
}.

(** One entry of the constant ["tier_benefits"]. *)
Record Benefit := mkBenefit {
  tier : string;
  discount : string;
  description : string;
  coupon_codes : list string
}.

Record t := mk {
  current_tier : string;
  total_bookings : Z;
  discount_rate : string;
  available_coupon_codes : list string;
  next_tier : NextTier;
  tier_benefits : list Benefit
}.

(** [round(x, 1)]. *)
Definition round1 (x : Q) : Q := Py.round_half_even (x * 10)%Q # 10.

(** [GET /user-pass-status]. *)
Definition get_user_pass_status (db : DB.t) (current_user_id : Z) : t :=
  let total_bookings :=
    PaymentRoute._compute_user_total_bookings db current_user_id in
  let '(current_tier, discount_rate, coupon_codes) :=
    if 40 <=? total_bookings then ("Gold", "8%", ["GOLD40"; "GOLDPASS"])
    else if 20 <=? total_bookings then ("Silver", "5%", ["SILVER20"; "SILVERPASS"])
    else ("Standard", "0%", []) in
  let '(next_tier, progress_current, progress_target, progress_percentage) :=
    if total_bookings <? 20 then
      (Some "Silver", total_bookings, 20,
       (inject_Z total_bookings / 20 * 100)%Q)
    else if total_bookings <? 40 then
      (Some "Gold", total_bookings, 40,
       (inject_Z total_bookings / 40 * 100)%Q)
    else (None, total_bookings, total_bookings, 100%Q) in
  mk current_tier total_bookings discount_rate coupon_codes
    (mkNextTier next_tier progress_current progress_target
       (round1 progress_percentage)
       match next_tier with
       | Some _ => Z.max 0 (progress_target - progress_current)
       | None => 0
       end)
    [mkBenefit "Standard" "0%" "Basic booking privileges" [];
     mkBenefit "Silver" "5%"
       "5% discount on all bookings (20+ bookings required)"
       ["SILVER20"; "SILVERPASS"];
     mkBenefit "Gold" "8%"
       "8% discount on all bookings (40+ bookings required)"
       ["GOLD40"; "GOLDPASS"]].

End PassStatus.

(* ================================================================= *)
(** ** backend/services/payment_service.py: the simulated gateways *)

Module PaymentService.

(** The dict a gateway function returns; [gateway_response] is its
    ["code"] and ["message"]. *)
Record result := mk {
  success : bool;
  error : option string;
  transaction_id : option string;
  gateway_transaction_id : option string;
  gateway_response : option (string * string)
}.

(** [all(field in details for field in required_fields)]; [details] are
    the keys of the dict. *)
Definition has_fields (required_fields details : list string) : bool :=
  forallb (fun field => existsb (String.eqb field) details) required_fields.

Definition validate_payment_details (payment_method : PaymentMethod)
  (details : list string) : bool :=
  match payment_method with
  | CARD => has_fields ["card_number"; "expiry"; "cvv"; "card_holder"] details
  | BKASH | NAGAD | ROCKET => has_fields ["phone_number"; "pin"] details
  | _ => false
  end.

Definition failed (error : string) (code message : string) : result :=
  mk false (Some error) None None (Some (code, message)).

Definition approved (prefix reference_id suffix message : string) : result :=
  let transaction_id := (prefix ++ "-" ++ reference_id ++ "-" ++ suffix)%string in
  mk true None (Some transaction_id) (Some ("GW-" ++ transaction_id)%string)
     (Some ("SUCCESS", message)).

(** [draw] is [random.random()], [suffix] what [generate_random_string]
    returns. *)
Definition process_card_payment (reference_id : string) (draw : Q)
  (suffix : string) : result :=
  if Qlt_le_dec draw (1 # 10) then failed "Card declined" "DECLINED" "Insufficient funds"
  else approved "CARD" reference_id suffix "Payment approved".

Definition process_bkash_payment (reference_id : string) (draw : Q)
  (suffix : string) : result :=
  if Qlt_le_dec draw (5 # 100) then failed "bKash payment failed" "FAILED" "Invalid PIN"
  else approved "BKASH" reference_id suffix "Payment completed".

Definition process_nagad_payment (reference_id : string) (suffix : string)
  : result :=
  approved "NAGAD" reference_id suffix "Payment completed".

Definition process_rocket_payment (reference_id : string) (draw : Q)
  (suffix : string) : result :=
  if Qlt_le_dec draw (7 # 100) then
    failed "Rocket payment failed" "FAILED" "Transaction timeout"
  else approved "ROCKET" reference_id suffix "Payment completed".

Definition process_payment (payment_method : PaymentMethod)
  (payment_details : list string) (reference_id : string) (draw : Q)
  (suffix : string) : result :=
  if negb (validate_payment_details payment_method payment_details) then
    mk false (Some "Invalid payment details") None None None
  else
    match payment_method with
    | CARD => process_card_payment reference_id draw suffix
    | BKASH => process_bkash_payment reference_id draw suffix
    | NAGAD => process_nagad_payment reference_id suffix
    | ROCKET => process_rocket_payment reference_id draw suffix
    | _ => mk false (Some "Payment method not supported") None None None
    end.

End PaymentService.

(* ================================================================= *)
(** ** backend/models/vehicle.py: seat maps *)

Module ClassPricing.
Record t := mk {
  class_name : string;
  base_price : Q
}.
End ClassPricing.

Module SeatMap.

(** A [Dict[str, List[int]]], in insertion order. *)
Definition classes_dict := list (string * list Z).

(** [d[k] = v]: an existing key keeps its place. *)
Fixpoint dict_set (k : string) (v : list Z) (d : classes_dict) : classes_dict :=
  match d with
  | [] => [(k, v)]
  | (k', v') :: r =>
      if (k' =? k)%string then (k', v) :: r else (k', v') :: dict_set k v r
  end.

(** [l[a:b]] for [0 <= a] and [0 <= b]. *)
Definition slice (a b : nat) (l : list Z) : list Z := firstn (b - a) (skipn a l).

(** The database format of a seat map. *)
Record t := mk {
  total_seats : nat;
  layout : string;
  classes : classes_dict
}.

Definition seats_per_row (layout : string) : nat :=
  if (layout =? "2-2")%string then 4%nat
  else if (layout =? "2-1")%string then 3%nat
  else if (layout =? "3-3")%string then 6%nat
  else if (layout =? "2-3-2")%string then 7%nat
  else if (layout =? "compartment")%string then 4%nat
  else 4%nat.

(** [for i in range(i, len(all_seats), seats_per_row)]: the rows from index
    [i] on; [fuel] bounds the number of iterations. *)
Fixpoint rows_from (fuel i seats_per_row : nat) (all_seats : list Z)
  : list (list Z) :=
  match fuel with
  | O => []
  | S fuel' =>
      if (i <? List.length all_seats)%nat then
        match slice i (i + seats_per_row) all_seats with
        | [] => rows_from fuel' (i + seats_per_row) seats_per_row all_seats
        | row => row :: rows_from fuel' (i + seats_per_row) seats_per_row all_seats
        end
      else []
  end.

(** [total_seats] is not read. *)
Definition convert_1d_to_2d_seat_map (seat_classes : classes_dict)
  (total_seats : Z) (layout : string) : list (list Z) :=
  let all_seats := Py.sorted (flat_map snd seat_classes) in
  rows_from (List.length all_seats) 0 (seats_per_row layout) all_seats.

(** The loop over [enumerate(class_prices)], from class number [i] on. *)
Fixpoint distribute (class_prices : list ClassPricing.t) (i n : nat)
  (seat_index seats_per_class total_seats : nat) (all_seats : list Z)
  (classes : classes_dict) : classes_dict :=
  match class_prices with
  | [] => classes
  | class_info :: rest =>
      let end_index :=
        if (i <? n - 1)%nat
        then Nat.min (seat_index + seats_per_class) total_seats
        else total_seats in
      distribute rest (S i) n end_index seats_per_class total_seats all_seats
        (dict_set (ClassPricing.class_name class_info)
           (slice seat_index end_index all_seats) classes)
  end.

Definition convert_2d_to_1d_seat_map (seat_map_2d : list (list Z))
  (class_prices : list ClassPricing.t) : t :=
  let all_seats := Py.sorted (nodup Z.eq_dec (List.concat seat_map_2d)) in
  let total_seats := List.length all_seats in
  match class_prices with
  | [] => mk total_seats "2-2" [("ECONOMY", all_seats)]
  | _ =>
      let seats_per_class :=
        (total_seats / Nat.max 1 (List.length class_prices))%nat in
      mk total_seats "2-2"
        (distribute class_prices 0 (List.length class_prices) 0
           seats_per_class total_seats all_seats [])
  end.

End SeatMap.

(* ================================================================= *)
(** * Statements of the specification *)

Section Occupancy.

Variables (db : DB.t) (schedule_id : Z) (travel_date : date).


End Occupancy.






(** *** A small store used in the examples

    One bus of 40 seats with the class prices of the seed data
    (backend/database/init_db.py), one schedule with base price 500, and
    bookings in several states for day 20000. *)
Module Example.

Definition day : date := 20000.

Definition bus : Vehicle.t :=
  Vehicle.mk 7 40 (Some [("economy", 800%Q); ("business", 1200%Q)]).

Definition trip : Schedule.t := Schedule.mk 3 7 1 (Some 500%Q).

Definition booking (id user : Z) (seats : list Z) (st : BookingStatus)
  : Booking.t :=
  Booking.mk id user 7 (Some 3) seats "ECONOMY" 800%Q st None
    (Some (midnight day)) None None None.

Definition store : DB.t :=
  DB.mk [bus] [trip]
    [booking 1 11 [1; 2] CONFIRMED; booking 2 12 [2; 3] CART;
     booking 3 13 [4] CANCELLED; booking 4 14 [5] PENDING;
     booking 5 15 [6] EXPIRED]
    [] [].


End Example.


(** A store in which user 11 has [n] CONFIRMED bookings. *)
Definition store_with_confirmed (n : nat) : DB.t :=
  DB.mk [Example.bus] [Example.trip]
    (map (fun i => Example.booking (Z.of_nat i) 11 [Z.of_nat i] CONFIRMED) (seq 1 n))
    [] [].

(** A well-formed creation request for seats 1 and 2 of the example trip. *)
Definition example_request : BookingRequest.t :=
  BookingRequest.mk 3 [1; 2] (Some "economy")
    [PassengerDetails.mk "Rahim Uddin" 30 "Male" 1 None;
     PassengerDetails.mk "Karim Uddin" 28 "Male" 2 None]
    (Some Example.day).

(** The same request asking for seven seats. *)
Definition oversized_request : BookingRequest.t :=
  BookingRequest.mk 3 [1; 2; 3; 4; 5; 6; 7] (Some "economy")
    (BookingRequest.passenger_details example_request) (Some Example.day).

(** What the sweep does to one row at time [t]. *)
Definition swept (t : datetime) (b : Booking.t) : Booking.t :=
  if BookingService.expired_row t b then BookingService.expire t b else b.

(** The example trip with two unpaid bookings whose deadline is day 19000. *)
Definition overdue_store : DB.t :=
  DB.mk [Example.bus] [Example.trip]
    [Booking.mk 1 11 7 (Some 3) [1; 2] "ECONOMY" 800%Q PENDING None
       (Some (midnight Example.day)) (Some (midnight 19000)) None None;
     Booking.mk 2 12 7 (Some 3) [3] "ECONOMY" 800%Q CART None
       (Some (midnight Example.day)) (Some (midnight 19000)) None None]
    [] [].

Section Welcome10.

Variables (db : DB.t) (env : Env.t).

(** The row [apply_coupon] validates for the code WELCOME10: the stored
    one, or the default that is seeded when none is stored. *)
Definition welcome10_in_force (c : Coupon.t) : Prop :=
  PaymentRoute.find_coupon db "WELCOME10" = Some c
  \/ (PaymentRoute.find_coupon db "WELCOME10" = None
      /\ PaymentRoute.default_coupon env "WELCOME10" = Some c).

(** The terms the specification quotes: 10% off, minimum order 500, discount
    capped at 200. *)
Definition welcome10_terms (c : Coupon.t) : Prop :=
  Coupon.code c = "WELCOME10"
  /\ Coupon.coupon_type c <> FIXED_AMOUNT
  /\ Coupon.discount_percent c = Some 10%Q
  /\ Coupon.min_order_value c = 500%Q
  /\ Coupon.max_discount c = Some 200%Q.

(** The user has completed fewer payments with the coupon than its per-user
    limit allows (no limit, or a limit of zero, allows any number). *)
Definition within_user_limit (user_id : Z) (c : Coupon.t) : Prop :=
  match Coupon.user_usage_limit c with
  | Some l => l = 0 \/ PaymentRoute.user_usage_count db user_id (Coupon.code c) < l
  | None => True
  end.

End Welcome10.

(** The environment of the examples: all clocks at midnight of the example
    day, a gateway that accepts. *)
Definition example_env : Env.t :=
  Env.mk (midnight Example.day) (midnight Example.day) (midnight Example.day)
    (Gateway.mk true (Some "CARD-TicketKini-1-1") (Some "SUCCESS") None)
    "A1B2C3".

(** The example store after user 11 has paid booking 1 with WELCOME10. *)
Definition redeemed_store : DB.t :=
  DB.mk [Example.bus] [Example.trip] (DB.bookings Example.store)
    [Payment.mk 1 1 11 800%Q 80%Q 720%Q CARD PAY_COMPLETED
       (Some "CARD-TicketKini-1-1") (Some (Text "SUCCESS"))
       (Some "WELCOME10") None None None]
    [Coupon.mk "WELCOME10" FIRST_TIME (Some 10%Q) None 500%Q (Some 200%Q)
       (Some 1000) 1 (Some 1) true (Some (midnight 19000))
       (Some (midnight 21000))].

(** *** Specifications of handlers *)

(** A handler started in a store satisfying [P] ends, when it returns [a],
    in a store satisfying [Q a] and, when it raises [e], in one satisfying
    [E e]. *)
Definition hoare {A : Type} (P : DB.t -> Prop) (m : Handler.M A)
  (Q : A -> DB.t -> Prop) (E : HTTPException -> DB.t -> Prop) : Prop :=
  forall db, P db ->
    match m db with
    | (db', inr a) => Q a db'
    | (db', inl e) => E e db'
    end.

(** Every store a handler leaves is related by [R] to the one it started
    in. *)
Definition preserves {A : Type} (R : DB.t -> DB.t -> Prop) (m : Handler.M A)
  : Prop :=
  forall db, R db (fst (m db)).

(** The second store differs from the first in its coupons at most. *)
Definition same_but_coupons (db db' : DB.t) : Prop :=
  DB.vehicles db' = DB.vehicles db
  /\ DB.schedules db' = DB.schedules db
  /\ DB.bookings db' = DB.bookings db
  /\ DB.payments db' = DB.payments db.

(** The second store has the catalog and the bookings of the first;
    payments and coupons may differ. *)
Definition same_catalog_bookings (db db' : DB.t) : Prop :=
  DB.vehicles db' = DB.vehicles db
  /\ DB.schedules db' = DB.schedules db
  /\ DB.bookings db' = DB.bookings db.

(** Row [b'] is row [b] up to what a payment may write: status, price, PNR
    and the cancellation stamps. *)
Definition same_trip (b b' : Booking.t) : Prop :=
  Booking.id b' = Booking.id b
  /\ Booking.user_id b' = Booking.user_id b
  /\ Booking.schedule_id b' = Booking.schedule_id b
  /\ Booking.seats b' = Booking.seats b
  /\ Booking.seat_class b' = Booking.seat_class b
  /\ Booking.travel_date b' = Booking.travel_date b
  /\ Booking.expires_at b' = Booking.expires_at b.

(** What [DB.update_booking b'] does to one row. *)
Definition replace_row (b' x : Booking.t) : Booking.t :=
  if Booking.id x =? Booking.id b' then b' else x.

(** Store [db] has the catalog of [db0] and its bookings with the row of
    [bk] written back. *)
Definition booking_rewritten (db0 : DB.t) (bk : Booking.t) (db : DB.t) : Prop :=
  DB.vehicles db = DB.vehicles db0
  /\ DB.schedules db = DB.schedules db0
  /\ DB.bookings db = map (replace_row bk) (DB.bookings db0).

(** What a payment attempt for booking [target] may have done to the store
    [db0]: catalog untouched, and the bookings either untouched or the
    target's row rewritten in place. *)
Definition payment_frame (db0 : DB.t) (target : Z) (db : DB.t) : Prop :=
  DB.vehicles db = DB.vehicles db0
  /\ DB.schedules db = DB.schedules db0
  /\ (DB.bookings db = DB.bookings db0
      \/ exists b0 b',
           DB.get_booking db0 target = Some b0
           /\ same_trip b0 b'
           /\ DB.bookings db = map (replace_row b') (DB.bookings db0)).

(** The store and local variables at the point where the gateway is
    called. *)
Definition prepared (db0 : DB.t) (b0 : Booking.t)
  (r : Booking.t * Payment.t) (db : DB.t) : Prop :=
  same_trip b0 (fst r)
  /\ Booking.status (fst r) = PENDING
  /\ (Booking.status b0 = PENDING -> fst r = b0)
  /\ DB.vehicles db = DB.vehicles db0
  /\ DB.schedules db = DB.schedules db0
  /\ DB.bookings db = map (replace_row (fst r)) (DB.bookings db0)
  /\ exists ps,
       DB.payments db = (ps ++ [snd r])%list
       /\ find (fun x => Payment.booking_id x =? Booking.id (fst r)) ps = None
       /\ Payment.id (snd r) = DB.next_id (map Payment.id ps)
       /\ Payment.booking_id (snd r) = Booking.id (fst r)
       /\ Payment.status (snd r) = PAY_PENDING.

(** The example environment with a gateway that declines the card. *)
Definition declined_env : Env.t :=
  Env.mk (midnight Example.day) (midnight Example.day) (midnight Example.day)
    (Gateway.mk false None None (Some "Card declined")) "A1B2C3".

(** The example trip before anyone has booked. *)
Definition open_store : DB.t := DB.mk [Example.bus] [Example.trip] [] [] [].

(* ================================================================= *)
(** * Properties *)

(** ** Lists and time *)


Lemma BookingStatus_eqb_eq (a b : BookingStatus) :
  BookingStatus_eqb a b = true <-> a = b.
Proof. destruct a, b; simpl; split; congruence. Qed.

Lemma status_in_In (s : BookingStatus) (l : list BookingStatus) :
  status_in s l = true <-> In s l.
Proof.
  unfold status_in. rewrite existsb_exists. split.
  - intros [x [Hx He]]. apply BookingStatus_eqb_eq in He. now subst.
  - intros H. exists s. split; [assumption | now apply BookingStatus_eqb_eq].
Qed.

Lemma mem_In (x : Z) (l : list Z) : Py.mem x l = true <-> In x l.
Proof.
  unfold Py.mem. rewrite existsb_exists. split.
  - intros [y [Hy He]]. apply Z.eqb_eq in He. now subst.
  - intros H. exists x. split; [assumption | apply Z.eqb_refl].
Qed.


Lemma insert_sorted_In (x y : Z) (l : list Z) :
  In y (Py.insert_sorted x l) <-> y = x \/ In y l.
Proof.
  induction l as [|z r IH]; simpl.
  - intuition.
  - destruct (x <=? z); simpl; [intuition | rewrite IH; intuition].
Qed.

Lemma sorted_In (x : Z) (l : list Z) : In x (Py.sorted l) <-> In x l.
Proof.
  induction l as [|y r IH]; simpl; [tauto|].
  rewrite insert_sorted_In, IH. intuition.
Qed.

Lemma set_inter_In (x : Z) (a b : list Z) :
  In x (Py.set_inter a b) <-> In x a /\ In x b.
Proof.
  unfold Py.set_inter. rewrite nodup_In, filter_In, mem_In. tauto.
Qed.

Lemma find_app_none {A : Type} (f : A -> bool) (l r : list A) :
  find f l = None -> find f (l ++ r) = find f r.
Proof.
  induction l as [|x l' IH]; simpl; [reflexivity|].
  destruct (f x); [discriminate | exact IH].
Qed.

(** ** Seat occupancy *)

Lemma flatten_seats_In (seat : Z) (rows : list (list Z)) :
  In seat (BookingService.flatten_seats rows)
  <-> exists seat_list, In seat_list rows /\ In seat seat_list.
Proof.
  unfold BookingService.flatten_seats. rewrite in_flat_map. split.
  - intros [l [Hl Hs]]. exists l. split; [assumption|].
    destruct l; [contradiction | assumption].
  - intros [l [Hl Hs]]. exists l. split; [assumption|].
    destruct l; [contradiction | assumption].
Qed.


Lemma blocks_seats_status (schedule_id : Z) (td : option date) (b : Booking.t) :
  BookingService.blocks_seats schedule_id td b = true ->
  Booking.status b = PENDING \/ Booking.status b = CONFIRMED.
Proof.
  unfold BookingService.blocks_seats.
  rewrite !andb_true_iff, status_in_In. simpl. intuition.
Qed.

Lemma booked_seats_In (db : DB.t) (schedule_id : Z) (td : option date) (seat : Z) :
  In seat (BookingService.booked_seats db schedule_id td)
  <-> exists b, In b (BookingService.booked_seats_query db schedule_id td)
                /\ In seat (Booking.seats b).
Proof.
  unfold BookingService.booked_seats. rewrite flatten_seats_In. split.
  - intros [l [Hl Hs]]. apply in_map_iff in Hl. destruct Hl as [b [Hb Hin]].
    subst l. now exists b.
  - intros [b [Hb Hs]]. exists (Booking.seats b). split; [|assumption].
    now apply in_map.
Qed.





(** ** The seat availability response *)





(** ** Pricing *)

(** C4. The specification makes the schedule's base price the ECONOMY
    price whatever the vehicle's own economy entry says; the trip search
    does so, but [_get_price_for_class], which prices bookings, looks the
    class up in [class_prices] first. With the seed data's bus
    ([{"economy": 800, ...}]) and a schedule of base price 500 it answers
    800, and so does [check_availability]. *)
Theorem economy_price_from_class_prices :
  Schedule.base_price Example.trip = Some 500%Q
  /\ BookingService._get_price_for_class Example.bus "ECONOMY" (Some Example.trip)
     = Some 800%Q
  /\ BookingService._get_price_for_class Example.bus "economy" (Some Example.trip)
     = Some 800%Q
  /\ BookingService.check_availability
       (DB.mk [Example.bus] [Example.trip] [] [] []) (midnight Example.day)
       3 [1] "ECONOMY" (Some Example.day)
     = Available 800%Q (800 * inject_Z 1)%Q 7
  /\ ~ (800 == 500)%Q.
Proof.
  repeat split; try reflexivity. intros H. discriminate H.
Qed.

(** ** Refunds *)






(** ** Loyalty discounts *)

Lemma confirmed_bookings_counted (n : nat) :
  PaymentRoute._compute_user_total_bookings (store_with_confirmed n) 11
  = Z.of_nat n.
Proof.
  unfold PaymentRoute._compute_user_total_bookings, store_with_confirmed, Py.len.
  simpl. f_equal. rewrite <- (length_seq n 1) at 2.
  rewrite <- (length_map (fun i => Example.booking (Z.of_nat i) 11 [Z.of_nat i] CONFIRMED)).
  f_equal. apply forallb_filter_id. apply forallb_forall.
  intros b Hb. apply in_map_iff in Hb. destruct Hb as [i [<- _]]. reflexivity.
Qed.



Lemma silver_code_is_silver (c : string) :
  PaymentRoute.is_silver_code c = true ->
  PaymentRoute.is_gold_code c = false /\ Str.contains "SILVER" c = true.
Proof.
  unfold PaymentRoute.is_silver_code. rewrite orb_true_iff, !String.eqb_eq.
  intros [-> | ->]; split; reflexivity.
Qed.

Lemma gold_code_is_gold (c : string) :
  PaymentRoute.is_gold_code c = true ->
  PaymentRoute.is_silver_code c = false /\ Str.contains "SILVER" c = false.
Proof.
  unfold PaymentRoute.is_gold_code. rewrite orb_true_iff, !String.eqb_eq.
  intros [-> | ->]; split; reflexivity.
Qed.

(** At checkout the pass codes follow the same thresholds: a Silver code is
    honoured with 5% from 20 bookings on and refused below, a Gold code with
    8% from 40 bookings on and refused below; one code, one percentage. *)
Lemma pass_code_by_booking_count (env : Env.t) (user_id : Z) (amount : Q)
  (req : PaymentCreate.t) (code : string) (db : DB.t) :
  PaymentRoute.coupon_requested req = Some code ->
  let n := PaymentRoute._compute_user_total_bookings db user_id in
  let r := PaymentRoute.resolve_discount env user_id amount req db in
  (PaymentRoute.is_silver_code (Str.upper code) = true ->
   (20 <= n -> r = (db, inr (PaymentRoute.pass_discount amount 5 code)))
   /\ (n < 20 ->
       r = (db, inl (mkHTTPException 400 (PassRequires "Silver" 20 n)))))
  /\ (PaymentRoute.is_gold_code (Str.upper code) = true ->
      (40 <= n -> r = (db, inr (PaymentRoute.pass_discount amount 8 code)))
      /\ (n < 40 ->
          r = (db, inl (mkHTTPException 400 (PassRequires "Gold" 40 n))))).
Proof.
  intros Hreq n r. subst r. unfold PaymentRoute.resolve_discount.
  rewrite Hreq. unfold Handler.bind, Handler.query. fold n. split.
  - intros Hs. destruct (silver_code_is_silver _ Hs) as [Hg Hc].
    rewrite Hs, Hg, Hc. simpl. split; intros Hn.
    + now replace (20 <=? n) with true by (symmetry; apply Z.leb_le; lia).
    + now replace (20 <=? n) with false by (symmetry; apply Z.leb_gt; lia).
  - intros Hg. destruct (gold_code_is_gold _ Hg) as [Hs Hc].
    rewrite Hs, Hg, Hc. simpl. split; intros Hn.
    + now replace (40 <=? n) with true by (symmetry; apply Z.leb_le; lia).
    + now replace (40 <=? n) with false by (symmetry; apply Z.leb_gt; lia).
Qed.

(** ** Request validation *)

Lemma nodup_length_le (l : list Z) :
  (List.length (nodup Z.eq_dec l) <= List.length l)%nat.
Proof.
  induction l as [|x r IH]; simpl; [lia|].
  destruct (in_dec Z.eq_dec x r); simpl; lia.
Qed.

Lemma has_duplicates_NoDup (l : list Z) :
  Validation.has_duplicates l = false -> NoDup l.
Proof.
  unfold Validation.has_duplicates. rewrite negb_false_iff, Nat.eqb_eq.
  induction l as [|x r IH]; simpl; intros H; [constructor|].
  destruct (in_dec Z.eq_dec x r) as [Hin | Hnin].
  - pose proof (nodup_length_le r). lia.
  - simpl in H. constructor; [assumption | apply IH; lia].
Qed.

Lemma validate_rejects (today : date) (m : option date) (body : BookingRequest.t)
  (e : ValidationError) :
  In e (match Validation.validate_seats (BookingRequest.seats body) with
        | inl errs => errs
        | inr _ => []
        end)
  \/ In e (Validation.validate_passenger_details
             (match Validation.validate_seats (BookingRequest.seats body) with
              | inl _ => None
              | inr v => Some v
              end) (BookingRequest.passenger_details body)) ->
  exists errors, Validation.validate today m body = inl errors /\ In e errors.
Proof.
  intros H. unfold Validation.validate.
  set (se := match Validation.validate_seats (BookingRequest.seats body) with
             | inl errs => errs | inr _ => [] end) in *.
  set (sv := match Validation.validate_seats (BookingRequest.seats body) with
             | inl _ => None | inr v => Some v end) in *.
  set (errors := (se ++ Validation.validate_passenger_details sv
                          (BookingRequest.passenger_details body)
                     ++ Validation.validate_travel_date today m
                          (BookingRequest.travel_date body))%list).
  assert (Hin : In e errors).
  { unfold errors. rewrite !in_app_iff. tauto. }
  exists errors. split; [|assumption].
  destruct errors as [|x xs]; [contradiction|]. reflexivity.
Qed.

(** C10. A creation request whose seat list is empty or longer than 6, or
    whose passenger list is empty or longer than 6, is rejected by the
    validation of the request body: the route answers 422 and neither the
    store nor the event log changes. A request that validates has 1 to 6
    pairwise distinct seats and as many passengers. *)
Theorem seat_list_between_one_and_six
  (db : DB.t) (now : datetime) (max_advance_date : option date)
  (current_user_id : Z) (body : BookingRequest.t) :
  let n := Py.len (BookingRequest.seats body) in
  let m := Py.len (BookingRequest.passenger_details body) in
  (n < 1 \/ 6 < n \/ m < 1 \/ 6 < m ->
   exists errors,
     Validation.create_booking_route db now max_advance_date current_user_id body
     = (db, [], UnprocessableEntity errors)
     /\ errors <> []
     /\ (n < 1 -> In SeatsMinItems errors)
     /\ (6 < n -> In SeatsMaxItems errors))
  /\ (forall data,
        Validation.validate (date_of now) max_advance_date body = inr data ->
        1 <= n <= 6 /\ 1 <= m <= 6 /\ m = n
        /\ BookingCreate.seats data = BookingRequest.seats body
        /\ NoDup (BookingRequest.seats body)).
Proof.
  intros n m. split.
  - intros Hbad.
    assert (Hrej : exists e,
               (n < 1 -> e = SeatsMinItems) /\ (1 <= n -> 6 < n -> e = SeatsMaxItems)
               /\ (In e (match Validation.validate_seats (BookingRequest.seats body) with
                         | inl errs => errs | inr _ => [] end)
                   \/ In e (Validation.validate_passenger_details
                              (match Validation.validate_seats (BookingRequest.seats body) with
                               | inl _ => None | inr v => Some v end)
                              (BookingRequest.passenger_details body)))).
    { unfold Validation.validate_seats. fold n.
      destruct (n <? 1) eqn:E1; [apply Z.ltb_lt in E1 | apply Z.ltb_ge in E1].
      { exists SeatsMinItems. repeat split; [lia | left; now left]. }
      destruct (6 <? n) eqn:E6; [apply Z.ltb_lt in E6 | apply Z.ltb_ge in E6].
      { exists SeatsMaxItems. repeat split; [lia | left; now left]. }
      assert (Hm : m < 1 \/ 6 < m) by lia.
      unfold Validation.validate_passenger_details. fold m.
      destruct (Validation.invalid_passengers 0 (BookingRequest.passenger_details body))
        as [|x xs].
      - destruct (m <? 1) eqn:M1; [apply Z.ltb_lt in M1 | apply Z.ltb_ge in M1].
        { exists PassengersMinItems. repeat split; try lia. right. now left. }
        destruct (6 <? m) eqn:M6; [apply Z.ltb_lt in M6 | apply Z.ltb_ge in M6].
        { exists PassengersMaxItems. repeat split; try lia. right. now left. }
        lia.
      - exists x. repeat split; try lia. right. now left. }
    destruct Hrej as [e [Hmin [Hmax Hin]]].
    destruct (validate_rejects (date_of now) max_advance_date body e Hin)
      as [errors [Hv He]].
    exists errors. unfold Validation.create_booking_route. rewrite Hv.
    repeat split.
    + intros ->. contradiction.
    + intros H. now rewrite <- (Hmin H).
    + intros H. destruct (Z.lt_ge_cases n 1) as [Hlt | Hge].
      * lia.
      * now rewrite <- (Hmax Hge H).
  - intros data Hv. unfold Validation.validate in Hv.
    unfold Validation.validate_seats in Hv. fold n in Hv.
    destruct (n <? 1) eqn:E1; [discriminate Hv | apply Z.ltb_ge in E1].
    destruct (6 <? n) eqn:E6; [discriminate Hv | apply Z.ltb_ge in E6].
    destruct (Validation.has_duplicates (BookingRequest.seats body)) eqn:Ed;
      [discriminate Hv|].
    simpl in Hv. unfold Validation.validate_passenger_details in Hv. fold m in Hv.
    destruct (Validation.invalid_passengers 0 (BookingRequest.passenger_details body));
      [|discriminate Hv].
    destruct (m <? 1) eqn:M1; [discriminate Hv | apply Z.ltb_ge in M1].
    destruct (6 <? m) eqn:M6; [discriminate Hv | apply Z.ltb_ge in M6].
    destruct (Nat.eqb (List.length (BookingRequest.passenger_details body))
                      (List.length (BookingRequest.seats body))) eqn:El;
      [apply Nat.eqb_eq in El | discriminate Hv].
    simpl in Hv.
    destruct (Validation.validate_travel_date (date_of now) max_advance_date
                (BookingRequest.travel_date body)); [|discriminate Hv].
    destruct (BookingRequest.travel_date body); [|discriminate Hv].
    injection Hv as <-. simpl.
    repeat split; try lia.
    + unfold m, n, Py.len. now rewrite El.
    + now apply has_duplicates_NoDup.
Qed.

Lemma seat_list_between_one_and_six_witness :
  exists errors,
    Validation.create_booking_route Example.store (midnight Example.day)
      (Some (Example.day + 365)) 11 oversized_request
    = (Example.store, [], UnprocessableEntity errors)
    /\ errors <> []
    /\ (Py.len (BookingRequest.seats oversized_request) < 1 -> In SeatsMinItems errors)
    /\ (6 < Py.len (BookingRequest.seats oversized_request) -> In SeatsMaxItems errors).
Proof.
  apply (seat_list_between_one_and_six Example.store (midnight Example.day)
           (Some (Example.day + 365)) 11 oversized_request).
  right. left. reflexivity.
Defined.

(** ** The expiry sweep *)

Lemma sweep_bookings (db : DB.t) (t : datetime) :
  DB.bookings (fst (fst (BookingService.auto_cancel_expired_bookings db t)))
  = map (swept t) (DB.bookings db).
Proof. reflexivity. Qed.

Lemma expired_row_needs_open_status (t : datetime) (b : Booking.t) :
  status_in (Booking.status b) [PENDING; CART] = false ->
  BookingService.expired_row t b = false.
Proof. unfold BookingService.expired_row. now intros ->. Qed.

Lemma expire_closes (t : datetime) (b : Booking.t) :
  status_in (Booking.status (BookingService.expire t b)) [PENDING; CART] = false.
Proof. reflexivity. Qed.

Lemma swept_id (t : datetime) (b : Booking.t) :
  Booking.id (swept t b) = Booking.id b.
Proof. unfold swept. now destruct (BookingService.expired_row t b). Qed.

Lemma NoDup_map_injective {A B : Type} (f : A -> B) (l : list A) (x y : A) :
  NoDup (map f l) -> In x l -> In y l -> f x = f y -> x = y.
Proof.
  induction l as [|a r IH]; simpl; intros Hnd Hx Hy Hf; [contradiction|].
  inversion Hnd as [|? ? Hnotin Hnd']; subst.
  destruct Hx as [-> | Hx], Hy as [-> | Hy].
  - reflexivity.
  - exfalso. apply Hnotin. rewrite Hf. now apply in_map.
  - exfalso. apply Hnotin. rewrite <- Hf. now apply in_map.
  - now apply IH.
Qed.

Lemma sweep_at_same_time (db : DB.t) (t : datetime) :
  BookingService.auto_cancel_expired_bookings
    (fst (fst (BookingService.auto_cancel_expired_bookings db t))) t
  = (fst (fst (BookingService.auto_cancel_expired_bookings db t)), [], 0).
Proof.
  unfold BookingService.auto_cancel_expired_bookings. simpl.
  fold (swept t).
  assert (Hnone : filter (BookingService.expired_row t)
                    (map (swept t) (DB.bookings db)) = []).
  { induction (DB.bookings db) as [|b r IH]; simpl; [reflexivity|].
    unfold swept at 1.
    destruct (BookingService.expired_row t b) eqn:E.
    - rewrite (expired_row_needs_open_status t _ (expire_closes t b)). exact IH.
    - rewrite E. exact IH. }
  assert (Hsame : map (swept t) (map (swept t) (DB.bookings db))
                  = map (swept t) (DB.bookings db)).
  { rewrite map_map. apply map_ext. intros b. unfold swept.
    destruct (BookingService.expired_row t b) eqn:E.
    - now rewrite (expired_row_needs_open_status t _ (expire_closes t b)).
    - now rewrite E. }
  rewrite Hnone. simpl.
  change (fun b : Booking.t =>
            if BookingService.expired_row t b
            then BookingService.expire t b else b) with (swept t).
  rewrite Hsame. destruct db; reflexivity.
Qed.

(** C8. Run the expiry sweep at a time [t1] and again at a time [t2]. A
    booking that the first run expires is EXPIRED with [cancelled_at = t1]
    and the expiry reason, is not selected by the second run, and keeps its
    whole row: status, [cancelled_at] and [cancellation_reason] are
    unchanged, and (primary keys being unique) its BOOKING_EXPIRED event is
    logged by the first run and not by the second. More generally the
    second run leaves every row alone whose status is neither CART nor
    PENDING, no row is expired by both runs, and a second run at the same
    time changes nothing at all; the sweep of the cancellation router
    writes the same rows. *)
Theorem expiry_sweep_idempotent
  (db : DB.t) (t1 t2 : datetime) (i : nat) (b : Booking.t) :
  nth_error (DB.bookings db) i = Some b ->
  let run1 := BookingService.auto_cancel_expired_bookings db t1 in
  let db1 := fst (fst run1) in
  let run2 := BookingService.auto_cancel_expired_bookings db1 t2 in
  let db2 := fst (fst run2) in
  let b1 := swept t1 b in
  nth_error (DB.bookings db1) i = Some b1
  /\ (status_in (Booking.status b1) [PENDING; CART] = false ->
      nth_error (DB.bookings db2) i = Some b1)
  /\ (BookingService.expired_row t1 b = true ->
      Booking.status b1 = EXPIRED
      /\ Booking.cancelled_at b1 = Some t1
      /\ Booking.cancellation_reason b1 = Some "Auto-expired due to payment timeout"
      /\ BookingService.expired_row t2 b1 = false
      /\ nth_error (DB.bookings db2) i = Some b1
      /\ (NoDup (map Booking.id (DB.bookings db)) ->
          In (BOOKING_EXPIRED (Booking.id b) (Booking.user_id b)) (snd (fst run1))
          /\ ~ In (BOOKING_EXPIRED (Booking.id b) (Booking.user_id b))
                  (snd (fst run2))))
  /\ ~ (BookingService.expired_row t1 b = true
        /\ BookingService.expired_row t2 b1 = true)
  /\ BookingService.auto_cancel_expired_bookings db1 t1 = (db1, [], 0)
  /\ fst (CancelRoute.auto_cancel_expired_bookings db t1) = db1.
Proof.
  intros Hb run1 db1 run2 db2 b1.
  assert (H1 : nth_error (DB.bookings db1) i = Some b1).
  { unfold db1, run1. rewrite sweep_bookings.
    now rewrite nth_error_map, Hb. }
  assert (Hkeep : BookingService.expired_row t2 b1 = false ->
                  nth_error (DB.bookings db2) i = Some b1).
  { intros E. unfold db2, run2. rewrite sweep_bookings.
    rewrite nth_error_map, H1. simpl. unfold swept at 1. now rewrite E. }
  split; [exact H1|]. split.
  { intros Hst. apply Hkeep. now apply expired_row_needs_open_status. }
  split.
  { intros E. assert (Eb1 : b1 = BookingService.expire t1 b).
    { unfold b1, swept. now rewrite E. }
    assert (E2 : BookingService.expired_row t2 b1 = false).
    { rewrite Eb1. apply expired_row_needs_open_status, expire_closes. }
    rewrite Eb1 at 1 2 3. repeat split; try reflexivity; try assumption.
    - now apply Hkeep.
    - unfold run1, BookingService.auto_cancel_expired_bookings. simpl.
      apply in_map_iff. exists b. split; [reflexivity|].
      apply filter_In. split; [|assumption]. eapply nth_error_In; eassumption.
    - intros Hin. unfold run2, BookingService.auto_cancel_expired_bookings in Hin.
      simpl in Hin. apply in_map_iff in Hin. destruct Hin as [b' [He Hb']].
      apply filter_In in Hb'. destruct Hb' as [Hb' Hexp].
      assert (Hid : Booking.id b' = Booking.id b1).
      { injection He as Hid _. rewrite Hid. unfold b1. now rewrite swept_id. }
      assert (Hnd : NoDup (map Booking.id (DB.bookings db1))).
      { unfold db1, run1. rewrite sweep_bookings, map_map.
        erewrite map_ext; [eassumption|]. intros x. apply swept_id. }
      assert (Hsame : b' = b1).
      { apply (NoDup_map_injective Booking.id (DB.bookings db1)); try assumption.
        eapply nth_error_In; eassumption. }
      subst b'. congruence. }
  split.
  { intros [E E2]. assert (Eb1 : b1 = BookingService.expire t1 b).
    { unfold b1, swept. now rewrite E. }
    rewrite Eb1 in E2.
    rewrite (expired_row_needs_open_status t2 _ (expire_closes t1 b)) in E2.
    discriminate. }
  split.
  { apply sweep_at_same_time. }
  unfold CancelRoute.auto_cancel_expired_bookings, db1, run1,
    BookingService.auto_cancel_expired_bookings. simpl. reflexivity.
Qed.

Lemma expiry_sweep_idempotent_witness :
  Booking.status (swept (midnight Example.day)
                    (Booking.mk 1 11 7 (Some 3) [1; 2] "ECONOMY" 800%Q PENDING None
                       (Some (midnight Example.day)) (Some (midnight 19000))
                       None None))
  = EXPIRED.
Proof.
  pose proof (expiry_sweep_idempotent overdue_store (midnight Example.day)
                (midnight Example.day + 1) 0 _ eq_refl) as H.
  destruct H as [_ [_ [H _]]].
  exact (proj1 (H eq_refl)).
Defined.

(** ** Coupons *)

Lemma is_valid_true (c : Coupon.t) (now : datetime) :
  fst (Coupon.is_valid c now) = true -> Coupon.is_valid c now = (true, Valid).
Proof.
  unfold Coupon.is_valid.
  repeat match goal with
         | |- context [if ?b then _ else _] => destruct b; simpl
         end; congruence.
Qed.

Lemma apply_coupon_welcome10 (db : DB.t) (env : Env.t) (c : Coupon.t)
  (booking_amount : Q) (user_id : Z) :
  welcome10_in_force db env c ->
  Coupon.code c = "WELCOME10" ->
  snd (PaymentRoute.apply_coupon env "WELCOME10" booking_amount user_id db)
  = inr (PaymentRoute.validate_coupon db env c booking_amount user_id).
Proof.
  intros [Hstored | [Hnone Hdefault]] Hcode;
    unfold PaymentRoute.apply_coupon, PaymentRoute._seed_default_coupon_if_known,
      Handler.bind, Handler.query, Handler.ret, Handler.commit;
    change (Str.upper "WELCOME10") with "WELCOME10";
    change (Str.upper (Str.strip "WELCOME10")) with "WELCOME10".
  - now rewrite Hstored.
  - rewrite Hnone, Hdefault. simpl.
    unfold PaymentRoute.find_coupon in *. simpl.
    rewrite Hnone. simpl.
    rewrite (find_app_none _ _ _ Hnone). simpl. rewrite Hcode. simpl. reflexivity.
Qed.

(** C7, as the code has it. Let WELCOME10 be in force with the terms 10%,
    minimum order 500, cap 200, and valid now (active, inside its window,
    under its global limit). Applied to an order of 400 it is rejected for
    every user with the minimum-amount error and no discount. Applied to an
    order of 1000 it yields a discount of 100 for a user who has completed
    fewer payments with it than its per-user limit; a user who has reached
    that limit is told the coupon was already used and gets no discount. *)
Theorem welcome10_discount
  (db : DB.t) (env : Env.t) (c : Coupon.t) (user_id : Z) :
  welcome10_in_force db env c ->
  welcome10_terms c ->
  fst (Coupon.is_valid c (Env.utcnow env)) = true ->
  snd (PaymentRoute.apply_coupon env "WELCOME10" 400 user_id db)
  = inr (Value (CouponInvalid (MinimumBookingAmount 500)))
  /\ (within_user_limit db user_id c ->
      exists d,
        snd (PaymentRoute.apply_coupon env "WELCOME10" 1000 user_id db)
        = inr (Value (CouponValid d (Coupon.coupon_type c)))
        /\ (d == 100)%Q)
  /\ (~ within_user_limit db user_id c ->
      snd (PaymentRoute.apply_coupon env "WELCOME10" 1000 user_id db)
      = inr (Value (CouponInvalid AlreadyUsed))).
Proof.
  intros Hforce [Hcode [Hty [Hpct [Hmin Hmax]]]] Hvalid.
  rewrite !(apply_coupon_welcome10 db env c _ user_id Hforce Hcode).
  unfold PaymentRoute.validate_coupon, Coupon.calculate_discount, within_user_limit.
  rewrite (is_valid_true _ _ Hvalid), Hmin, Hmax. simpl.
  split; [reflexivity|].
  unfold Coupon.truthy_Z, Coupon.percent_of. rewrite Hpct.
  destruct (Coupon.user_usage_limit c) as [l|].
  - destruct (l =? 0) eqn:E0; simpl.
    + apply Z.eqb_eq in E0. split.
      * intros _. destruct (Coupon.coupon_type c); try congruence;
          (eexists; split; [reflexivity | reflexivity]).
      * intros H. exfalso. apply H. now left.
    + apply Z.eqb_neq in E0.
      destruct (l <=? PaymentRoute.user_usage_count db user_id (Coupon.code c)) eqn:El;
        [apply Z.leb_le in El | apply Z.leb_gt in El].
      * split; [|reflexivity]. intros [H | H]; lia.
      * split.
        -- intros _. destruct (Coupon.coupon_type c); try congruence;
             (eexists; split; [reflexivity | reflexivity]).
        -- intros H. exfalso. apply H. now right.
  - simpl. split.
    + intros _. destruct (Coupon.coupon_type c); try congruence;
        (eexists; split; [reflexivity | reflexivity]).
    + intros H. exfalso. now apply H.
Qed.

Lemma welcome10_discount_witness :
  exists d,
    snd (PaymentRoute.apply_coupon example_env "WELCOME10" 1000 12 Example.store)
    = inr (Value (CouponValid d FIRST_TIME))
    /\ (d == 100)%Q.
Proof.
  refine (proj1 (proj2 (welcome10_discount Example.store example_env
                          _ 12 (or_intror (conj eq_refl eq_refl)) _ eq_refl)) _).
  - repeat split; try reflexivity. discriminate.
  - right. reflexivity.
Defined.

(** C7 as the specification states it holds "for every user"; user 11 of
    this store has already completed a payment with WELCOME10, whose
    per-user limit is 1, and is refused on an order of 1000. *)
Lemma welcome10_already_used :
  snd (PaymentRoute.apply_coupon example_env "WELCOME10" 1000 11 redeemed_store)
  = inr (Value (CouponInvalid AlreadyUsed))
  /\ ~ (exists d ty,
          snd (PaymentRoute.apply_coupon example_env "WELCOME10" 1000 11 redeemed_store)
          = inr (Value (CouponValid d ty)) /\ (d == 100)%Q).
Proof.
  split; [reflexivity|]. intros [d [ty [H _]]]. discriminate H.
Qed.

(** ** Handlers *)

Section HandlerRules.

Context {A B : Type}.
Variable R : DB.t -> DB.t -> Prop.
Hypothesis R_refl : forall db, R db db.
Hypothesis R_trans : forall a b c, R a b -> R b c -> R a c.

Lemma preserves_ret (a : A) : preserves R (Handler.ret a).
Proof. intros db. apply R_refl. Qed.

Lemma preserves_raise (code : Z) (d : Detail) :
  preserves R (@Handler.raise A code d).
Proof. intros db. apply R_refl. Qed.

Lemma preserves_query (f : DB.t -> A) : preserves R (Handler.query f).
Proof. intros db. apply R_refl. Qed.

Lemma preserves_commit (f : DB.t -> DB.t) :
  (forall db, R db (f db)) -> preserves R (Handler.commit f).
Proof. intros H db. apply H. Qed.

Lemma preserves_bind (m : Handler.M A) (k : A -> Handler.M B) :
  preserves R m -> (forall a, preserves R (k a)) -> preserves R (Handler.bind m k).
Proof.
  intros Hm Hk db. unfold Handler.bind. specialize (Hm db).
  destruct (m db) as [db' [e | a]]; simpl in *; [assumption|].
  eapply R_trans; [eassumption | apply Hk].
Qed.

End HandlerRules.

Lemma same_but_coupons_refl (db : DB.t) : same_but_coupons db db.
Proof. repeat split. Qed.

Lemma same_but_coupons_trans (a b c : DB.t) :
  same_but_coupons a b -> same_but_coupons b c -> same_but_coupons a c.
Proof. unfold same_but_coupons. intuition congruence. Qed.

Lemma coupons_only_bind {A B : Type} (m : Handler.M A) (k : A -> Handler.M B) :
  preserves same_but_coupons m ->
  (forall a, preserves same_but_coupons (k a)) ->
  preserves same_but_coupons (Handler.bind m k).
Proof.
  intros Hm Hk.
  exact (preserves_bind same_but_coupons same_but_coupons_trans m k Hm Hk).
Qed.

Create HintDb handlers.
#[local] Hint Resolve same_but_coupons_refl : handlers.
#[local] Hint Resolve preserves_ret preserves_raise preserves_query : handlers.

Lemma seed_touches_coupons_only (env : Env.t) (code : string) :
  preserves same_but_coupons (PaymentRoute._seed_default_coupon_if_known env code).
Proof.
  unfold PaymentRoute._seed_default_coupon_if_known.
  apply coupons_only_bind; auto with handlers.
  intros [c|]; auto with handlers.
  destruct (PaymentRoute.default_coupon env (Str.upper (Str.strip code)));
    auto with handlers.
  apply coupons_only_bind; auto with handlers.
  apply preserves_commit. intros db. repeat split.
Qed.

Lemma apply_coupon_touches_coupons_only (env : Env.t) (code : string)
  (amount : Q) (user_id : Z) :
  preserves same_but_coupons (PaymentRoute.apply_coupon env code amount user_id).
Proof.
  unfold PaymentRoute.apply_coupon.
  apply coupons_only_bind; auto with handlers. intros found.
  apply coupons_only_bind; auto with handlers.
  - destruct found; auto with handlers.
    apply coupons_only_bind; auto with handlers.
    + apply seed_touches_coupons_only.
    + intros [|]; auto with handlers.
  - intros [c|]; auto with handlers.
Qed.

Lemma resolve_discount_touches_coupons_only (env : Env.t) (user_id : Z)
  (amount : Q) (req : PaymentCreate.t) :
  preserves same_but_coupons (PaymentRoute.resolve_discount env user_id amount req).
Proof.
  unfold PaymentRoute.resolve_discount.
  destruct (PaymentRoute.coupon_requested req) as [code|]; auto with handlers.
  apply coupons_only_bind; auto with handlers. intros total.
  repeat match goal with
         | |- preserves _ (if ?b then _ else _) => destruct b; auto with handlers
         end.
  apply coupons_only_bind; auto with handlers.
  - apply apply_coupon_touches_coupons_only.
  - intros [[e | d ty]|]; auto with handlers.
Qed.

(** ** The payment handler *)

Lemma update_booking_bookings (b : Booking.t) (db : DB.t) :
  DB.bookings (DB.update_booking b db) = map (replace_row b) (DB.bookings db).
Proof. reflexivity. Qed.

Lemma replace_row_twice (b' b'' : Booking.t) (l : list Booking.t) :
  Booking.id b'' = Booking.id b' ->
  map (replace_row b'') (map (replace_row b') l) = map (replace_row b'') l.
Proof.
  intros Hid. rewrite map_map. apply map_ext. intros x. unfold replace_row.
  rewrite Hid. destruct (Booking.id x =? Booking.id b') eqn:E; [|now rewrite E].
  now rewrite Z.eqb_refl.
Qed.

Lemma get_booking_id (db : DB.t) (i : Z) (b : Booking.t) :
  DB.get_booking db i = Some b -> Booking.id b = i.
Proof.
  unfold DB.get_booking. intros H. apply find_some in H.
  now apply Z.eqb_eq.
Qed.

Lemma find_replace_row (i : Z) (b0 b' : Booking.t) (l : list Booking.t) :
  find (fun b => Booking.id b =? i) l = Some b0 ->
  Booking.id b' = i ->
  find (fun b => Booking.id b =? i) (map (replace_row b') l) = Some b'.
Proof.
  intros Hf Hid. induction l as [|x r IH]; [discriminate|].
  simpl in Hf. simpl.
  assert (Hx : replace_row b' x = if Booking.id x =? i then b' else x).
  { unfold replace_row. now rewrite Hid. }
  rewrite Hx. destruct (Booking.id x =? i) eqn:E.
  - rewrite Hid, Z.eqb_refl. reflexivity.
  - rewrite E. apply IH. exact Hf.
Qed.

Lemma same_trip_refl (b : Booking.t) : same_trip b b.
Proof. repeat split. Qed.

Lemma same_trip_trans (a b c : Booking.t) :
  same_trip a b -> same_trip b c -> same_trip a c.
Proof. unfold same_trip. intuition congruence. Qed.

Lemma recheck_cart_spec (env : Env.t) (b0 : Booking.t) (db0 : DB.t) :
  status_in (Booking.status b0) [CART; PENDING] = true ->
  hoare (eq db0) (PaymentRoute.recheck_cart env b0)
    (fun bk db => db = db0 /\ same_trip b0 bk /\ Booking.status bk = PENDING
                  /\ (Booking.status b0 = PENDING -> bk = b0))
    (fun _ db => db = DB.update_booking (Booking.set_status CART b0) db0).
Proof.
  intros Hst db <-. unfold PaymentRoute.recheck_cart.
  destruct (Booking.status b0) eqn:Es; try discriminate Hst; simpl.
  - destruct (Booking.schedule_id b0) as [sid|]; simpl.
    + unfold Handler.bind, Handler.query.
      destruct (BookingService.check_availability _ _ _ _ _ _); simpl.
      * reflexivity.
      * repeat split. discriminate.
    + reflexivity.
  - repeat split; auto.
Qed.

Section HoareRules.
Context {A B : Type}.

Lemma hoare_bind (P : DB.t -> Prop) (m : Handler.M A) (k : A -> Handler.M B)
  (Mid : A -> DB.t -> Prop) (Q : B -> DB.t -> Prop)
  (E : HTTPException -> DB.t -> Prop) :
  hoare P m Mid E -> (forall a, hoare (Mid a) (k a) Q E) ->
  hoare P (Handler.bind m k) Q E.
Proof.
  intros Hm Hk db HP. unfold Handler.bind. specialize (Hm db HP).
  destruct (m db) as [db' [e | a]]; [assumption|]. now apply Hk.
Qed.

Lemma hoare_weaken (P P' : DB.t -> Prop) (m : Handler.M A)
  (Q Q' : A -> DB.t -> Prop) (E E' : HTTPException -> DB.t -> Prop) :
  hoare P' m Q' E' ->
  (forall db, P db -> P' db) ->
  (forall a db, Q' a db -> Q a db) ->
  (forall e db, E' e db -> E e db) ->
  hoare P m Q E.
Proof.
  intros H HP HQ HE db Hdb. specialize (H db (HP db Hdb)).
  destruct (m db) as [db' [e | a]]; auto.
Qed.

Lemma hoare_ret (P : DB.t -> Prop) (a : A) (Q : A -> DB.t -> Prop)
  (E : HTTPException -> DB.t -> Prop) :
  (forall db, P db -> Q a db) -> hoare P (Handler.ret a) Q E.
Proof. intros H db HP. now apply H. Qed.

Lemma hoare_preserves (R : DB.t -> DB.t -> Prop) (I : DB.t -> Prop)
  (m : Handler.M A) :
  preserves R m -> (forall d d', I d -> R d d' -> I d') ->
  hoare I m (fun _ => I) (fun _ => I).
Proof.
  intros Hm HI db Hdb. specialize (Hm db).
  destruct (m db) as [db' [e | a]]; simpl in Hm; eauto.
Qed.

End HoareRules.

Lemma same_catalog_bookings_refl (db : DB.t) : same_catalog_bookings db db.
Proof. repeat split. Qed.

Lemma same_catalog_bookings_trans (a b c : DB.t) :
  same_catalog_bookings a b -> same_catalog_bookings b c ->
  same_catalog_bookings a c.
Proof. unfold same_catalog_bookings. intuition congruence. Qed.

Lemma coupons_only_keeps_bookings (db db' : DB.t) :
  same_but_coupons db db' -> same_catalog_bookings db db'.
Proof. unfold same_but_coupons, same_catalog_bookings. tauto. Qed.

Lemma reject_existing_payment_keeps_bookings (booking : Booking.t) :
  preserves same_catalog_bookings (PaymentRoute.reject_existing_payment booking).
Proof.
  intros db. unfold PaymentRoute.reject_existing_payment, Handler.bind, Handler.query.
  destruct (PaymentRoute.find_payment db (Booking.id booking)) as [p|];
    [|apply same_catalog_bookings_refl].
  destruct (Payment.status p); simpl; repeat split.
Qed.

Lemma create_payment_record_spec (user_id : Z) (req : PaymentCreate.t)
  (bk : Booking.t) (d : PaymentRoute.Discount) (I : DB.t -> Prop) :
  (forall db db', I db -> same_catalog_bookings db db' -> I db') ->
  hoare I (PaymentRoute.create_payment_record user_id req bk d)
    (fun p db =>
       I db
       /\ exists ps,
           DB.payments db = (ps ++ [p])%list
           /\ find (fun x => Payment.booking_id x =? Booking.id bk) ps = None
           /\ Payment.id p = DB.next_id (map Payment.id ps)
           /\ Payment.booking_id p = Booking.id bk
           /\ Payment.status p = PAY_PENDING)
    (fun _ => I).
Proof.
  intros HI db Hdb. unfold PaymentRoute.create_payment_record, Handler.bind, Handler.query.
  destruct (PaymentRoute.find_payment db (Booking.id bk)) eqn:Hclash; [exact Hdb|].
  simpl. split.
  - apply (HI db); [assumption | repeat split].
  - exists (DB.payments db). repeat split. exact Hclash.
Qed.

Lemma same_trip_id (b b' : Booking.t) : same_trip b b' -> Booking.id b' = Booking.id b.
Proof. now intros [H _]. Qed.

Lemma rewritten_frame (db0 db : DB.t) (target : Z) (b0 bk : Booking.t) :
  DB.get_booking db0 target = Some b0 -> same_trip b0 bk ->
  booking_rewritten db0 bk db -> payment_frame db0 target db.
Proof.
  intros Hget Htrip [Hv [Hs Hb]]. repeat split; try assumption.
  right. now exists b0, bk.
Qed.

Lemma rewritten_again (db0 db : DB.t) (bk bk' : Booking.t) :
  Booking.id bk' = Booking.id bk ->
  booking_rewritten db0 bk db ->
  booking_rewritten db0 bk' (DB.update_booking bk' db).
Proof.
  intros Hid [Hv [Hs Hb]]. repeat split; try assumption.
  rewrite update_booking_bookings, Hb. now apply replace_row_twice.
Qed.

Lemma rewritten_ext (db0 db db' : DB.t) (bk : Booking.t) :
  booking_rewritten db0 bk db -> same_catalog_bookings db db' ->
  booking_rewritten db0 bk db'.
Proof.
  unfold booking_rewritten, same_catalog_bookings. intuition congruence.
Qed.

Lemma reject_expired_spec (env : Env.t) (db0 : DB.t) (target : Z) (b0 bk : Booking.t) :
  DB.get_booking db0 target = Some b0 -> same_trip b0 bk ->
  hoare (booking_rewritten db0 bk) (PaymentRoute.reject_expired env bk)
    (fun _ => booking_rewritten db0 bk)
    (fun _ => payment_frame db0 target).
Proof.
  intros Hget Htrip db Hdb. unfold PaymentRoute.reject_expired.
  destruct (match Booking.expires_at bk with
            | Some e => e <? Env.now env | None => false end); simpl; [|exact Hdb].
  set (bk' := Booking.set_cancelled_at (Some (Env.now env))
                (Booking.set_status EXPIRED bk)).
  apply (rewritten_frame db0 _ target b0 bk' Hget).
  - destruct Htrip as [? [? [? [? [? [? ?]]]]]]. repeat split; assumption.
  - apply (rewritten_again db0 db bk bk'); [reflexivity | exact Hdb].
Qed.

Lemma prepare_payment_spec (env : Env.t) (user_id : Z) (req : PaymentCreate.t)
  (db0 : DB.t) :
  hoare (eq db0) (PaymentRoute.prepare_payment env user_id req)
    (fun r db =>
       exists b0,
         DB.get_booking db0 (PaymentCreate.booking_id req) = Some b0
         /\ Booking.user_id b0 = user_id
         /\ prepared db0 b0 r db)
    (fun _ => payment_frame db0 (PaymentCreate.booking_id req)).
Proof.
  assert (Hrefl : payment_frame db0 (PaymentCreate.booking_id req) db0).
  { repeat split. now left. }
  intros db <-. unfold PaymentRoute.prepare_payment.
  unfold Handler.bind at 1, Handler.query at 1.
  destruct (DB.get_booking db0 (PaymentCreate.booking_id req)) as [b0|] eqn:Hget;
    [|exact Hrefl].
  destruct (negb (Booking.user_id b0 =? user_id)) eqn:Hu; [exact Hrefl|].
  destruct (negb (status_in (Booking.status b0) [CART; PENDING])) eqn:Hst;
    [exact Hrefl|].
  apply negb_false_iff in Hu, Hst. apply Z.eqb_eq in Hu.
  unfold Handler.bind at 1.
  pose proof (recheck_cart_spec env b0 db0 Hst db0 eq_refl) as Hre.
  destruct (PaymentRoute.recheck_cart env b0 db0) as [db1 [e | bk]].
  { subst db1. eapply rewritten_frame; [eassumption | | repeat split].
    repeat split. }
  destruct Hre as [Hdb1 [Ht [Hp Hs]]]. subst db1.
  assert (Hframe : forall d, booking_rewritten db0 bk d ->
                             payment_frame db0 (PaymentCreate.booking_id req) d).
  { intros d. now apply rewritten_frame with (b0 := b0). }
  assert (Hrest : hoare (booking_rewritten db0 bk)
            (PaymentRoute.reject_existing_payment bk ;;;
             PaymentRoute.reject_expired env bk ;;;
             d <- PaymentRoute.resolve_discount env user_id
                    (Booking.total_price bk) req ;;
             payment <- PaymentRoute.create_payment_record user_id req bk d ;;
             Handler.ret (bk, payment))
            (fun r db => prepared db0 b0 r db)
            (fun _ db => payment_frame db0 (PaymentCreate.booking_id req) db)).
  { eapply hoare_bind.
    { eapply hoare_weaken with (Q' := fun _ => booking_rewritten db0 bk).
      - apply (hoare_preserves same_catalog_bookings).
        + apply reject_existing_payment_keeps_bookings.
        + intros d d'. apply rewritten_ext.
      - auto.
      - intros a d H. exact H.
      - intros e. exact Hframe. }
    intros u1. eapply hoare_bind.
    { apply (reject_expired_spec env db0 _ b0 bk Hget Ht). }
    intros u2. eapply hoare_bind.
    { eapply hoare_weaken with (Q' := fun _ => booking_rewritten db0 bk).
      - apply (hoare_preserves same_catalog_bookings).
        + intros d. apply coupons_only_keeps_bookings,
            resolve_discount_touches_coupons_only.
        + intros d d'. apply rewritten_ext.
      - auto.
      - intros a d H. exact H.
      - intros e. exact Hframe. }
    intros d. eapply hoare_bind.
    { eapply hoare_weaken.
      - apply (create_payment_record_spec user_id req bk d (booking_rewritten db0 bk)).
        intros x y. apply rewritten_ext.
      - auto.
      - intros a x H. exact H.
      - intros e. exact Hframe. }
    intros p. apply hoare_ret. intros x [[Hv [Hsch Hb]] Hps].
    unfold prepared. simpl. repeat split; try assumption; apply Ht. }
  unfold Handler.bind at 1, Handler.commit at 1.
  assert (Hrw : booking_rewritten db0 bk (DB.update_booking bk db0)).
  { repeat split. }
  specialize (Hrest _ Hrw). cbv beta in *.
  match type of Hrest with
  | match ?t with _ => _ end => destruct t as [db' [e | r]]
  end.
  - exact Hrest.
  - exists b0. split; [reflexivity | split; [assumption | exact Hrest]].
Qed.

Lemma next_id_fresh (ids : list Z) (x : Z) : In x ids -> x < DB.next_id ids.
Proof.
  unfold DB.next_id. induction ids as [|y r IH]; [contradiction|].
  cbn [fold_right In]. intros [H | H]; [lia|]. specialize (IH H). lia.
Qed.

Lemma map_other_ids (f : Payment.t -> Payment.t) (i : Z) (ps : list Payment.t) :
  (forall x, In x ps -> Payment.id x <> i) ->
  map (fun x => if Payment.id x =? i then f x else x) ps = ps.
Proof.
  intros H. induction ps as [|x r IH]; simpl; [reflexivity|].
  destruct (Payment.id x =? i) eqn:E.
  - apply Z.eqb_eq in E. exfalso. apply (H x); [now left | assumption].
  - f_equal. apply IH. intros y Hy. apply H. now right.
Qed.

Lemma new_payment_fresh (ps : list Payment.t) (p : Payment.t) :
  Payment.id p = DB.next_id (map Payment.id ps) ->
  forall x, In x ps -> Payment.id x <> Payment.id p.
Proof.
  intros Hid x Hx. rewrite Hid.
  pose proof (next_id_fresh (map Payment.id ps) (Payment.id x) (in_map _ _ _ Hx)).
  lia.
Qed.



Lemma process_payment_frame (env : Env.t) (user_id : Z) (req : PaymentCreate.t)
  (db0 : DB.t) :
  payment_frame db0 (PaymentCreate.booking_id req)
    (fst (PaymentRoute.process_booking_payment env user_id req db0)).
Proof.
  unfold PaymentRoute.process_booking_payment, Handler.bind.
  pose proof (prepare_payment_spec env user_id req db0 db0 eq_refl) as H.
  destruct (PaymentRoute.prepare_payment env user_id req db0)
    as [db1 [e | [bk p]]]; [exact H|].
  destruct H as [b0 [Hget [_ Hp]]].
  destruct Hp as [Ht [_ [_ [Hv [Hs [Hb _]]]]]]. simpl in Ht, Hb.
  assert (Hrw : booking_rewritten db0 bk db1) by (repeat split; assumption).
  unfold Handler.try_except, PaymentRoute.settle.
  destruct (Gateway.success (Env.gateway env)); simpl.
  - set (bk' := Booking.set_pnr (Some (Env.pnr env)) (Booking.set_status CONFIRMED bk)).
    apply (rewritten_frame db0 _ _ b0 bk' Hget).
    + destruct Ht as [? [? [? [? [? [? ?]]]]]]. repeat split; assumption.
    + apply (rewritten_ext db0 (DB.update_booking bk' db1)).
      * apply (rewritten_again db0 db1 bk bk'); [reflexivity | exact Hrw].
      * repeat split.
  - apply (rewritten_frame db0 _ _ b0 bk Hget Ht).
    apply (rewritten_ext db0 db1); [exact Hrw | repeat split].
Qed.














(* ================================================================= *)
(** * Further properties of the code *)

(** ** Availability and creation *)

(** X1. When [check_availability] answers that the seats are available, the
    schedule exists with its vehicle and is active, a given travel date is
    not before today, every requested seat is a seat of the vehicle (from 1
    to [total_seats]) and is held by no PENDING or CONFIRMED booking of the
    schedule and date, the class has a price, and the total is that price
    times the number of requested seats. *)
Theorem available_answer_is_sound
  (db : DB.t) (now : datetime) (sid : Z) (seats : list Z) (cls : string)
  (td : option date) (pps tot : Q) (vid : Z) :
  BookingService.check_availability db now sid seats cls td = Available pps tot vid ->
  exists s v,
    DB.get_schedule_vehicle db sid = Some (s, v)
    /\ Vehicle.id v = vid
    /\ Schedule.is_active s <> 0
    /\ (forall d, td = Some d -> date_of now <= d)
    /\ (forall seat, In seat seats ->
          1 <= seat <= Vehicle.total_seats v
          /\ ~ In seat (BookingService.booked_seats db sid td))
    /\ BookingService._get_price_for_class v cls (Some s) = Some pps
    /\ tot = (pps * inject_Z (Z.of_nat (List.length seats)))%Q.
Proof.
  unfold BookingService.check_availability.
  destruct (DB.get_schedule_vehicle db sid) as [[s v]|]; [|discriminate].
  destruct (Schedule.is_active s =? 0) eqn:Ea; [discriminate|].
  destruct (match td with Some d => d <? date_of now | None => false end) eqn:Ed;
    [discriminate|].
  destruct (Py.set_inter seats (BookingService.booked_seats db sid td)) eqn:Ei;
    [|discriminate].
  destruct (filter (fun seat => (seat <? 1) || (Vehicle.total_seats v <? seat))%bool
                   seats) eqn:Ef; [|discriminate].
  destruct (BookingService._get_price_for_class v cls (Some s)) as [p|] eqn:Ep;
    [|discriminate].
  intros H. injection H as <- <- <-.
  exists s, v.
  split; [reflexivity|]. split; [reflexivity|].
  split; [now apply Z.eqb_neq|].
  split; [intros d ->; now apply Z.ltb_ge|].
  split; [|split; [exact Ep | reflexivity]].
  intros seat Hseat. split; [split|].
  - destruct (seat <? 1) eqn:E1; [|now apply Z.ltb_ge].
    assert (Hin : In seat []).
    { rewrite <- Ef. apply filter_In. split; [assumption|]. now rewrite E1. }
    contradiction.
  - destruct (Vehicle.total_seats v <? seat) eqn:E2; [|now apply Z.ltb_ge].
    assert (Hin : In seat []).
    { rewrite <- Ef. apply filter_In. split; [assumption|].
      rewrite E2. apply orb_true_r. }
    contradiction.
  - intros Hb. assert (Hin : In seat []).
    { rewrite <- Ei. apply set_inter_In. now split. }
    contradiction.
Qed.

Lemma available_answer_is_sound_witness :
  exists s v,
    DB.get_schedule_vehicle open_store 3 = Some (s, v)
    /\ Vehicle.id v = 7
    /\ Schedule.is_active s <> 0
    /\ (forall d, Some Example.day = Some d -> date_of (midnight Example.day) <= d)
    /\ (forall seat, In seat [1; 2] ->
          1 <= seat <= Vehicle.total_seats v
          /\ ~ In seat (BookingService.booked_seats open_store 3 (Some Example.day)))
    /\ BookingService._get_price_for_class v "ECONOMY" (Some s) = Some 800%Q
    /\ (800 * inject_Z 2)%Q = (800 * inject_Z (Z.of_nat (List.length [1; 2])))%Q.
Proof.
  exact (available_answer_is_sound open_store (midnight Example.day) 3 [1; 2]
           "ECONOMY" (Some Example.day) 800%Q (800 * inject_Z 2)%Q 7 eq_refl).
Defined.

(** X2. [create_booking] never touches vehicles, schedules, payments or
    coupons. When it fails, the store is unchanged and nothing is logged.
    When it succeeds, the deadline is [BOOKING_EXPIRY_MINUTES] after now and
    exactly one row is appended: a CART booking of the caller without PNR,
    with the requested seats, schedule and travel date, the quoted total and
    that deadline; its id is larger than every id in use, so unique ids stay
    unique. *)
Theorem create_booking_adds_one_cart_row
  (db : DB.t) (now : datetime) (user_id : Z) (booking_data : BookingCreate.t) :
  let out := BookingService.create_booking db now user_id booking_data in
  let db' := fst (fst out) in
  DB.vehicles db' = DB.vehicles db
  /\ DB.schedules db' = DB.schedules db
  /\ DB.payments db' = DB.payments db
  /\ DB.coupons db' = DB.coupons db
  /\ (forall m, snd out = CreateFailed m -> db' = db /\ snd (fst out) = [])
  /\ (forall id exp tot,
        snd out = CreateOk id exp tot ->
        exp = add_minutes now BookingService.BOOKING_EXPIRY_MINUTES
        /\ (forall x, In x (DB.bookings db) -> Booking.id x < id)
        /\ (NoDup (map Booking.id (DB.bookings db)) ->
            NoDup (map Booking.id (DB.bookings db')))
        /\ exists b,
            DB.bookings db' = (DB.bookings db ++ [b])%list
            /\ Booking.id b = id /\ Booking.user_id b = user_id
            /\ Booking.status b = CART /\ Booking.pnr b = None
            /\ Booking.seats b = BookingCreate.seats booking_data
            /\ Booking.schedule_id b = Some (BookingCreate.schedule_id booking_data)
            /\ Booking.travel_date b
               = Some (midnight (BookingCreate.travel_date booking_data))
            /\ Booking.expires_at b = Some exp
            /\ Booking.total_price b = tot).
Proof.
  intros out db'. subst db' out. unfold BookingService.create_booking.
  destruct (BookingService.check_availability db now _ _ _ _) as [m | pps tot vid];
    cbn [fst snd].
  - split; [reflexivity|]. split; [reflexivity|]. split; [reflexivity|].
    split; [reflexivity|]. split; [intros m' _; split; reflexivity|].
    intros i exp tot H. discriminate H.
  - split; [reflexivity|]. split; [reflexivity|]. split; [reflexivity|].
    split; [reflexivity|]. split; [intros m H; discriminate H|].
    intros i exp tot' H. injection H as <- <- <-.
    assert (Hfresh : forall x, In x (DB.bookings db) ->
                       Booking.id x < DB.next_id (map Booking.id (DB.bookings db))).
    { intros x Hx. apply next_id_fresh. now apply in_map. }
    split; [reflexivity|]. split; [exact Hfresh|]. split.
    + intros Hnd. cbn [DB.bookings DB.set_bookings]. rewrite map_app. cbn [map].
      apply NoDup_app; [assumption | repeat constructor; intros [] |].
      intros i Hi [<- | []]. apply in_map_iff in Hi. destruct Hi as [x [Hid Hx]].
      specialize (Hfresh x Hx). cbn [Booking.id] in Hid. lia.
    + eexists. split; [reflexivity|]. repeat split.
Qed.

Lemma create_booking_adds_one_cart_row_witness :
  exists b,
    DB.bookings (fst (fst (BookingService.create_booking open_store
                             (midnight Example.day) 11
                             (BookingCreate.mk 3 [1; 2] "ECONOMY" Example.day))))
    = (DB.bookings open_store ++ [b])%list
    /\ Booking.status b = CART.
Proof.
  pose proof (create_booking_adds_one_cart_row open_store (midnight Example.day) 11
                (BookingCreate.mk 3 [1; 2] "ECONOMY" Example.day)) as H.
  cbv zeta in H. destruct H as [_ [_ [_ [_ [_ H]]]]].
  destruct (H _ _ _ eq_refl) as [_ [_ [_ [b [Hb [_ [_ [Hs _]]]]]]]].
  exists b. split; assumption.
Defined.


(** ** More on the payment handler *)

Lemma update_booking_same (db : DB.t) (i : Z) (b : Booking.t) :
  NoDup (map Booking.id (DB.bookings db)) ->
  DB.get_booking db i = Some b ->
  DB.update_booking b db = db.
Proof.
  intros Hnd Hget. unfold DB.get_booking in Hget. apply find_some in Hget.
  destruct Hget as [Hin _].
  assert (Hmap : map (fun x => if Booking.id x =? Booking.id b then b else x)
                     (DB.bookings db) = DB.bookings db).
  { rewrite <- (map_id (DB.bookings db)) at 2. apply map_ext_in.
    intros x Hx. destruct (Booking.id x =? Booking.id b) eqn:E; [|reflexivity].
    apply Z.eqb_eq in E. symmetry.
    now apply (NoDup_map_injective Booking.id (DB.bookings db)). }
  unfold DB.update_booking. rewrite Hmap. destruct db; reflexivity.
Qed.

Lemma prepare_pending (env : Env.t) (user_id : Z) (req : PaymentCreate.t)
  (db : DB.t) (b : Booking.t) :
  NoDup (map Booking.id (DB.bookings db)) ->
  DB.get_booking db (PaymentCreate.booking_id req) = Some b ->
  Booking.user_id b = user_id ->
  Booking.status b = PENDING ->
  PaymentRoute.prepare_payment env user_id req db
  = (PaymentRoute.reject_existing_payment b ;;;
     PaymentRoute.reject_expired env b ;;;
     d <- PaymentRoute.resolve_discount env user_id (Booking.total_price b) req ;;
     payment <- PaymentRoute.create_payment_record user_id req b d ;;
     Handler.ret (b, payment)) db.
Proof.
  intros Hnd Hget Hu Hst. unfold PaymentRoute.prepare_payment.
  unfold Handler.bind at 1. unfold Handler.query at 1. rewrite Hget.
  rewrite Hu, Z.eqb_refl, Hst. cbn [negb status_in existsb BookingStatus_eqb orb].
  unfold Handler.bind at 1. unfold PaymentRoute.recheck_cart. rewrite Hst.
  cbn [BookingStatus_eqb]. unfold Handler.ret at 1.
  unfold Handler.bind at 1. unfold Handler.commit at 1.
  now rewrite (update_booking_same db _ b Hnd Hget).
Qed.

(** X4. A payment request for an unknown booking is answered 404, one for
    somebody else's booking 403, one for the caller's booking that is neither
    CART nor PENDING 400 with its status; a PENDING booking (ids unique)
    whose payment row is COMPLETED or still PENDING is answered 400, payment
    already completed or already being processed. None of these refusals
    changes the store. *)
Theorem payment_refused_without_a_write
  (env : Env.t) (user_id : Z) (req : PaymentCreate.t) (db : DB.t) :
  let out := PaymentRoute.process_booking_payment env user_id req db in
  (DB.get_booking db (PaymentCreate.booking_id req) = None ->
   out = (db, inl (mkHTTPException 404 BookingNotFound)))
  /\ (forall b,
        DB.get_booking db (PaymentCreate.booking_id req) = Some b ->
        Booking.user_id b <> user_id ->
        out = (db, inl (mkHTTPException 403 AccessDenied)))
  /\ (forall b,
        DB.get_booking db (PaymentCreate.booking_id req) = Some b ->
        Booking.user_id b = user_id ->
        Booking.status b <> CART -> Booking.status b <> PENDING ->
        out = (db, inl (mkHTTPException 400 (CannotPayStatus (Booking.status b)))))
  /\ (forall b p,
        NoDup (map Booking.id (DB.bookings db)) ->
        DB.get_booking db (PaymentCreate.booking_id req) = Some b ->
        Booking.user_id b = user_id ->
        Booking.status b = PENDING ->
        PaymentRoute.find_payment db (Booking.id b) = Some p ->
        (Payment.status p = PAY_COMPLETED ->
         out = (db, inl (mkHTTPException 400 PaymentAlreadyCompleted)))
        /\ (Payment.status p = PAY_PENDING ->
            out = (db, inl (mkHTTPException 400 PaymentAlreadyProcessing)))).
Proof.
  intros out. subst out.
  unfold PaymentRoute.process_booking_payment.
  split; [|split; [|split]].
  - intros Hget. unfold PaymentRoute.prepare_payment, Handler.bind, Handler.query.
    now rewrite Hget.
  - intros b Hget Hu. unfold PaymentRoute.prepare_payment, Handler.bind, Handler.query.
    rewrite Hget. apply Z.eqb_neq in Hu. now rewrite Hu.
  - intros b Hget Hu Hc Hp.
    unfold PaymentRoute.prepare_payment, Handler.bind, Handler.query.
    rewrite Hget, Hu, Z.eqb_refl. destruct (Booking.status b); try reflexivity;
      contradiction.
  - intros b p Hnd Hget Hu Hst Hpay.
    split; intros Hs; unfold Handler.bind at 1;
      rewrite (prepare_pending env user_id req db b Hnd Hget Hu Hst);
      unfold Handler.bind at 1; unfold PaymentRoute.reject_existing_payment;
      unfold Handler.bind at 1; unfold Handler.query at 1; rewrite Hpay, Hs;
      reflexivity.
Qed.

Lemma payment_refused_without_a_write_witness :
  PaymentRoute.process_booking_payment example_env 99
    (PaymentCreate.mk 4 CARD None (Some true)) Example.store
  = (Example.store, inl (mkHTTPException 403 AccessDenied)).
Proof.
  apply (payment_refused_without_a_write example_env 99
           (PaymentCreate.mk 4 CARD None (Some true)) Example.store)
    with (b := Example.booking 4 14 [5] PENDING).
  - reflexivity.
  - discriminate.
Defined.

(** X5. Whatever a payment attempt does, it leaves vehicles and schedules
    alone, keeps the number of bookings, leaves every booking with another
    id exactly as it was, and the booking it is for keeps its id, owner,
    schedule, seats, class, travel date and deadline. *)
Theorem payment_touches_one_booking
  (env : Env.t) (user_id : Z) (req : PaymentCreate.t) (db : DB.t) :
  let db' := fst (PaymentRoute.process_booking_payment env user_id req db) in
  DB.vehicles db' = DB.vehicles db
  /\ DB.schedules db' = DB.schedules db
  /\ List.length (DB.bookings db') = List.length (DB.bookings db)
  /\ (forall i x,
        nth_error (DB.bookings db) i = Some x ->
        Booking.id x <> PaymentCreate.booking_id req ->
        nth_error (DB.bookings db') i = Some x)
  /\ (forall b,
        DB.get_booking db (PaymentCreate.booking_id req) = Some b ->
        exists b',
          DB.get_booking db' (PaymentCreate.booking_id req) = Some b'
          /\ same_trip b b').
Proof.
  intros db'. pose proof (process_payment_frame env user_id req db) as H.
  fold db' in H. destruct H as [Hv [Hs Hb]].
  split; [exact Hv|]. split; [exact Hs|].
  destruct Hb as [Hsame | [b0 [b' [Hget [Htrip Hmap]]]]].
  - rewrite Hsame. split; [reflexivity|]. split; [auto|].
    intros b Hb. exists b. split; [|apply same_trip_refl].
    unfold DB.get_booking. now rewrite Hsame.
  - pose proof (same_trip_id _ _ Htrip) as Hid.
    pose proof (get_booking_id _ _ _ Hget) as Hid0.
    rewrite Hmap. split; [apply length_map|]. split.
    + intros i x Hx Hne. rewrite nth_error_map, Hx. cbn [option_map].
      unfold replace_row. rewrite Hid, Hid0.
      apply Z.eqb_neq in Hne. now rewrite Hne.
    + intros b Hb. rewrite Hb in Hget. injection Hget as <-.
      exists b'. split; [|exact Htrip].
      unfold DB.get_booking. rewrite Hmap.
      apply (find_replace_row _ b b'); [exact Hb | congruence].
Qed.

(** X6. When a payment attempt gets as far as the gateway and the gateway
    accepts, the response carries the payment's id and the gateway's
    transaction id; the booking (the caller's own) is stored CONFIRMED with
    the generated PNR and otherwise as the attempt prepared it; its payment
    row is COMPLETED with the transaction id and the gateway's response; and
    every seat of the booking is among the booked seats of its schedule and
    travel date. *)
Theorem accepted_payment_confirms_booking
  (env : Env.t) (user_id : Z) (req : PaymentCreate.t) (db db1 : DB.t)
  (bk : Booking.t) (p : Payment.t) :
  PaymentRoute.prepare_payment env user_id req db = (db1, inr (bk, p)) ->
  Gateway.success (Env.gateway env) = true ->
  let out := PaymentRoute.process_booking_payment env user_id req db in
  let confirmed :=
    Booking.set_pnr (Some (Env.pnr env)) (Booking.set_status CONFIRMED bk) in
  let paid :=
    Payment.set_gateway_response
      (Some (Text match Gateway.gateway_response (Env.gateway env) with
                  | Some g => g
                  | None => ""
                  end))
      (Payment.set_transaction_id (Gateway.transaction_id (Env.gateway env))
         (Payment.set_status PAY_COMPLETED p)) in
  snd out = inr (mkPaymentResponse (Payment.id p)
                   (Gateway.transaction_id (Env.gateway env)))
  /\ DB.get_booking (fst out) (PaymentCreate.booking_id req) = Some confirmed
  /\ (exists b,
        DB.get_booking db (PaymentCreate.booking_id req) = Some b
        /\ Booking.user_id b = user_id
        /\ same_trip b confirmed)
  /\ PaymentRoute.find_payment (fst out) (PaymentCreate.booking_id req) = Some paid
  /\ (forall sid seat,
        Booking.schedule_id bk = Some sid ->
        In seat (Booking.seats bk) ->
        In seat (BookingService.booked_seats (fst out) sid
                   (option_map date_of (Booking.travel_date bk)))).
Proof.
  intros Hprep Hgw out confirmed paid.
  pose proof (prepare_payment_spec env user_id req db db eq_refl) as Hspec.
  rewrite Hprep in Hspec. destruct Hspec as [b [Hget [Hu Hp]]].
  destruct Hp as [Htrip [_ [_ [_ [_ [Hbk [ps [Hps [Hnone [Hid [Hbid _]]]]]]]]]]].
  cbn [fst snd] in *.
  pose proof (get_booking_id _ _ _ Hget) as Hidb.
  pose proof (same_trip_id _ _ Htrip) as Hidbk.
  assert (Hout : out = (DB.update_payment paid (DB.update_booking confirmed db1),
                        inr (mkPaymentResponse (Payment.id p)
                               (Gateway.transaction_id (Env.gateway env))))).
  { unfold out, PaymentRoute.process_booking_payment, Handler.bind.
    rewrite Hprep. unfold Handler.try_except, PaymentRoute.settle.
    rewrite Hgw. reflexivity. }
  assert (Hrows : DB.bookings (fst out) = map (replace_row confirmed) (DB.bookings db)).
  { rewrite Hout. cbn [fst].
    change (DB.bookings (DB.update_payment paid (DB.update_booking confirmed db1)))
      with (DB.bookings (DB.update_booking confirmed db1)).
    rewrite update_booking_bookings, Hbk. now apply replace_row_twice. }
  assert (Hconf : DB.get_booking (fst out) (PaymentCreate.booking_id req)
                  = Some confirmed).
  { unfold DB.get_booking. rewrite Hrows.
    apply find_replace_row with (b0 := b); [exact Hget|].
    change (Booking.id confirmed) with (Booking.id bk). congruence. }
  split; [now rewrite Hout|]. split; [exact Hconf|]. split; [|split].
  - exists b. split; [exact Hget|]. split; [exact Hu|].
    destruct Htrip as [? [? [? [? [? [? ?]]]]]]. repeat split; assumption.
  - rewrite Hout. cbn [fst]. unfold PaymentRoute.find_payment.
    change (DB.payments (DB.update_payment paid (DB.update_booking confirmed db1)))
      with (map (fun x => if Payment.id x =? Payment.id paid then paid else x)
                (DB.payments db1)).
    change (Payment.id paid) with (Payment.id p).
    rewrite Hps, map_app. cbn [map]. rewrite Z.eqb_refl.
    rewrite (map_other_ids (fun _ => paid) (Payment.id p) ps
               (new_payment_fresh ps p Hid)).
    rewrite <- Hidb, <- Hidbk.
    rewrite (find_app_none _ _ _ Hnone). cbn [find].
    change (Payment.booking_id paid) with (Payment.booking_id p).
    now rewrite Hbid, Z.eqb_refl.
  - intros sid seat Hsid Hseat. apply booked_seats_In. exists confirmed.
    split; [|exact Hseat].
    unfold BookingService.booked_seats_query. apply filter_In. split.
    + unfold DB.get_booking in Hconf. apply find_some in Hconf. apply Hconf.
    + unfold BookingService.blocks_seats.
      change (Booking.schedule_id confirmed) with (Booking.schedule_id bk).
      change (Booking.travel_date confirmed) with (Booking.travel_date bk).
      rewrite Hsid, Z.eqb_refl. cbn.
      destruct (Booking.travel_date bk); cbn; [apply Z.eqb_refl | reflexivity].
Qed.

Lemma accepted_payment_confirms_booking_witness :
  DB.get_booking
    (fst (PaymentRoute.process_booking_payment example_env 14
            (PaymentCreate.mk 4 CARD None (Some true)) Example.store)) 4
  = Some (Booking.set_pnr (Some "A1B2C3")
            (Booking.set_status CONFIRMED (Example.booking 4 14 [5] PENDING))).
Proof.
  exact (proj1 (proj2
           (accepted_payment_confirms_booking example_env 14
              (PaymentCreate.mk 4 CARD None (Some true)) Example.store
              _ _ _ eq_refl eq_refl))).
Defined.

Lemma bind_inr {A B : Type} (m : Handler.M A) (k : A -> Handler.M B)
  (db db' : DB.t) (r : B) :
  Handler.bind m k db = (db', inr r) ->
  exists a db1, m db = (db1, inr a) /\ k a db1 = (db', inr r).
Proof.
  unfold Handler.bind. destruct (m db) as [db1 [e | a]]; [discriminate|].
  intros H. now exists a, db1.
Qed.

Lemma prepare_payment_inv (env : Env.t) (user_id : Z) (req : PaymentCreate.t)
  (db db1 : DB.t) (bk : Booking.t) (p : Payment.t) :
  PaymentRoute.prepare_payment env user_id req db = (db1, inr (bk, p)) ->
  exists b d db2 db3,
    DB.get_booking db (PaymentCreate.booking_id req) = Some b
    /\ Booking.user_id b = user_id
    /\ (Booking.status b = CART \/ Booking.status b = PENDING)
    /\ PaymentRoute.recheck_cart env b db = (db, inr bk)
    /\ PaymentRoute.resolve_discount env user_id (Booking.total_price bk) req db2
       = (db3, inr d)
    /\ p = Payment.mk (Payment.id p) (Booking.id bk) user_id
             (Booking.total_price bk) (PaymentRoute.discount_amount d)
             (PaymentRoute.final_amount d)
             (PaymentCreate.payment_method req) PAY_PENDING None None
             (PaymentRoute.coupon_applied d) (PaymentRoute.coupon_percent d)
             None None.
Proof.
  unfold PaymentRoute.prepare_payment. intros H.
  apply bind_inr in H. destruct H as [found [d0 [Hq H]]].
  unfold Handler.query in Hq. injection Hq as <- <-.
  destruct (DB.get_booking db (PaymentCreate.booking_id req)) as [b|] eqn:Hget;
    [|discriminate].
  destruct (negb (Booking.user_id b =? user_id)) eqn:Hu; [discriminate|].
  destruct (negb (status_in (Booking.status b) [CART; PENDING])) eqn:Hst;
    [discriminate|].
  apply negb_false_iff in Hu, Hst. apply Z.eqb_eq in Hu.
  apply bind_inr in H. destruct H as [bk0 [d1 [Hre H]]].
  pose proof (recheck_cart_spec env b db Hst db eq_refl) as Hspec.
  rewrite Hre in Hspec. destruct Hspec as [-> _].
  apply bind_inr in H. destruct H as [u1 [d2 [_ H]]].
  apply bind_inr in H. destruct H as [u2 [d3 [_ H]]].
  apply bind_inr in H. destruct H as [u3 [d4 [_ H]]].
  apply bind_inr in H. destruct H as [d [d5 [Hres H]]].
  apply bind_inr in H. destruct H as [pay [d6 [Hcr H]]].
  unfold Handler.ret in H. injection H as -> <- <-.
  exists b, d, d4, d5. split; [reflexivity|]. split; [exact Hu|]. split.
  { apply status_in_In in Hst. simpl in Hst. intuition. }
  split; [exact Hre|]. split; [exact Hres|].
  unfold PaymentRoute.create_payment_record in Hcr.
  apply bind_inr in Hcr. destruct Hcr as [clash [d7 [_ Hcr]]].
  destruct clash; [discriminate|].
  apply bind_inr in Hcr. destruct Hcr as [pid [d8 [_ Hcr]]].
  apply bind_inr in Hcr. destruct Hcr as [u4 [d9 [_ Hcr]]].
  unfold Handler.ret in Hcr. injection Hcr as _ <-. reflexivity.
Qed.

Lemma max0_nonneg (x : Q) : (0 <= Py.max0 x)%Q.
Proof.
  unfold Py.max0. destruct (Qle_bool 0 x) eqn:E.
  - now apply Qle_bool_iff.
  - apply Qle_refl.
Qed.

Lemma resolve_discount_inv (env : Env.t) (user_id : Z) (amount : Q)
  (req : PaymentCreate.t) (db db' : DB.t) (d : PaymentRoute.Discount) :
  PaymentRoute.resolve_discount env user_id amount req db = (db', inr d) ->
  match PaymentRoute.coupon_requested req with
  | None => d = PaymentRoute.mkDiscount 0%Q amount None None
  | Some code =>
      PaymentRoute.coupon_applied d = Some code
      /\ PaymentRoute.final_amount d
         = Py.max0 (amount - PaymentRoute.discount_amount d)%Q
  end.
Proof.
  unfold PaymentRoute.resolve_discount.
  destruct (PaymentRoute.coupon_requested req) as [code|].
  - intros H. apply bind_inr in H. destruct H as [n [d1 [_ H]]].
    destruct (_ && _)%bool.
    { unfold Handler.ret in H. injection H as _ <-. now split. }
    destruct (_ && _)%bool.
    { unfold Handler.ret in H. injection H as _ <-. now split. }
    destruct (_ || _)%bool; [discriminate|].
    apply bind_inr in H. destruct H as [r [d2 [_ H]]].
    destruct r as [[err | disc cpn]|]; try discriminate.
    unfold Handler.ret in H. injection H as _ <-. now split.
  - unfold Handler.ret. intros H. now injection H as _ <-.
Qed.

(** X7. The payment row written before the gateway is called is PENDING,
    without transaction id, for the requested booking, the payer and the
    requested method, and its amount is the booking's total price. When no
    coupon is to be applied, it records no code and no discount and the
    final amount is the amount; otherwise it records the code and the final
    amount is max(0, amount - discount). A non-negative amount never gives a
    negative final amount. *)
Theorem payment_row_records_the_charge
  (env : Env.t) (user_id : Z) (req : PaymentCreate.t) (db db1 : DB.t)
  (bk : Booking.t) (p : Payment.t) :
  PaymentRoute.prepare_payment env user_id req db = (db1, inr (bk, p)) ->
  Payment.booking_id p = PaymentCreate.booking_id req
  /\ Payment.user_id p = user_id
  /\ Payment.method p = PaymentCreate.payment_method req
  /\ Payment.status p = PAY_PENDING
  /\ Payment.transaction_id p = None
  /\ Payment.amount p = Booking.total_price bk
  /\ match PaymentRoute.coupon_requested req with
     | None =>
         Payment.coupon_code p = None
         /\ Payment.discount_amount p = 0%Q
         /\ Payment.final_amount p = Payment.amount p
     | Some code =>
         Payment.coupon_code p = Some code
         /\ Payment.final_amount p
            = Py.max0 (Payment.amount p - Payment.discount_amount p)%Q
     end
  /\ ((0 <= Payment.amount p)%Q -> (0 <= Payment.final_amount p)%Q).
Proof.
  intros Hprep.
  pose proof (prepare_payment_spec env user_id req db db eq_refl) as Hspec.
  rewrite Hprep in Hspec. destruct Hspec as [b0 [Hget0 [_ [Htrip _]]]].
  pose proof (get_booking_id _ _ _ Hget0) as Hid0.
  pose proof (same_trip_id _ _ Htrip) as Hid. cbn [fst] in Hid.
  destruct (prepare_payment_inv _ _ _ _ _ _ _ Hprep)
    as [b [d [db2 [db3 [_ [_ [_ [_ [Hres Hp]]]]]]]]].
  apply resolve_discount_inv in Hres.
  rewrite Hp. cbn [Payment.booking_id Payment.user_id Payment.method
                   Payment.status Payment.transaction_id Payment.amount
                   Payment.coupon_code Payment.discount_amount
                   Payment.final_amount].
  split; [congruence|]. do 5 (split; [reflexivity|]).
  destruct (PaymentRoute.coupon_requested req) as [code|].
  - destruct Hres as [Hc Hf]. split; [now split|].
    intros _. rewrite Hf. apply max0_nonneg.
  - subst d. cbn. split; [now repeat split|]. auto.
Qed.

Lemma payment_row_records_the_charge_witness :
  Payment.amount
    (Payment.mk 1 4 14 800 0 800 CARD PAY_PENDING None None None None None None)
  = 800%Q.
Proof.
  exact (proj1 (proj2 (proj2 (proj2 (proj2 (proj2
           (payment_row_records_the_charge example_env 14
              (PaymentCreate.mk 4 CARD None (Some true)) Example.store
              _ _ _ eq_refl))))))).
Defined.

Lemma prepare_rechecked (env : Env.t) (user_id : Z) (req : PaymentCreate.t)
  (db : DB.t) (b bk : Booking.t) :
  DB.get_booking db (PaymentCreate.booking_id req) = Some b ->
  Booking.user_id b = user_id ->
  Booking.status b = CART \/ Booking.status b = PENDING ->
  PaymentRoute.recheck_cart env b db = (db, inr bk) ->
  PaymentRoute.prepare_payment env user_id req db
  = (PaymentRoute.reject_existing_payment bk ;;;
     PaymentRoute.reject_expired env bk ;;;
     d <- PaymentRoute.resolve_discount env user_id (Booking.total_price bk) req ;;
     payment <- PaymentRoute.create_payment_record user_id req bk d ;;
     Handler.ret (bk, payment)) (DB.update_booking bk db).
Proof.
  intros Hget Hu Hst Hre. unfold PaymentRoute.prepare_payment.
  unfold Handler.bind at 1. unfold Handler.query at 1. rewrite Hget.
  rewrite Hu, Z.eqb_refl.
  assert (Hin : status_in (Booking.status b) [CART; PENDING] = true).
  { apply status_in_In. simpl. intuition. }
  rewrite Hin. cbn [negb].
  unfold Handler.bind at 1. rewrite Hre.
  unfold Handler.bind at 1. unfold Handler.commit at 1. reflexivity.
Qed.



(** X9. When a CART booking is paid, the price charged is the one
    [check_availability] quotes at payment time, not the one stored at
    creation: the booking is stored PENDING with the quoted total, the
    payment's amount is that total, and the total is the price per seat
    times the number of seats. *)
Theorem cart_price_is_recomputed_at_payment
  (env : Env.t) (user_id : Z) (req : PaymentCreate.t) (db db1 : DB.t)
  (b bk : Booking.t) (p : Payment.t) (sid : Z) (pps tot : Q) (vid : Z) :
  DB.get_booking db (PaymentCreate.booking_id req) = Some b ->
  Booking.status b = CART ->
  Booking.schedule_id b = Some sid ->
  BookingService.check_availability db (Env.now env) sid (Booking.seats b)
    (Booking.seat_class b) (option_map date_of (Booking.travel_date b))
  = Available pps tot vid ->
  PaymentRoute.prepare_payment env user_id req db = (db1, inr (bk, p)) ->
  bk = Booking.set_total_price tot (Booking.set_status PENDING b)
  /\ DB.get_booking db1 (PaymentCreate.booking_id req) = Some bk
  /\ Payment.amount p = tot
  /\ tot = (pps * inject_Z (Py.len (Booking.seats b)))%Q.
Proof.
  intros Hget Hst Hsid Hcheck Hprep.
  destruct (prepare_payment_inv _ _ _ _ _ _ _ Hprep)
    as [b' [d [db2 [db3 [Hget' [_ [_ [Hre [_ Hp]]]]]]]]].
  rewrite Hget in Hget'. injection Hget' as <-.
  unfold PaymentRoute.recheck_cart in Hre. rewrite Hst, Hsid in Hre.
  cbn [BookingStatus_eqb] in Hre.
  unfold Handler.bind, Handler.query in Hre. rewrite Hcheck in Hre.
  unfold Handler.ret in Hre. injection Hre as Hbk.
  pose proof (prepare_payment_spec env user_id req db db eq_refl) as Hspec.
  rewrite Hprep in Hspec. destruct Hspec as [b0 [Hget0 [_ Hprepd]]].
  rewrite Hget in Hget0. injection Hget0 as <-.
  destruct Hprepd as [Htrip [_ [_ [_ [_ [Hrows _]]]]]]. cbn [fst] in *.
  split; [now symmetry|]. split; [|split].
  - unfold DB.get_booking. rewrite Hrows.
    apply find_replace_row with (b0 := b); [exact Hget|].
    rewrite (same_trip_id _ _ Htrip). now apply get_booking_id with (db := db).
  - rewrite Hp. cbn [Payment.amount]. now rewrite <- Hbk.
  - unfold BookingService.check_availability in Hcheck.
    destruct (DB.get_schedule_vehicle db sid) as [[s v]|]; [|discriminate].
    destruct (Schedule.is_active s =? 0); [discriminate|].
    destruct (match option_map date_of (Booking.travel_date b) with
              | Some d0 => d0 <? date_of (Env.now env) | None => false end);
      [discriminate|].
    destruct (Py.set_inter _ _); [|discriminate].
    destruct (filter _ _); [|discriminate].
    destruct (BookingService._get_price_for_class v _ _); [|discriminate].
    now injection Hcheck as <- <- _.
Qed.

Lemma cart_price_is_recomputed_at_payment_witness :
  Payment.amount
    (Payment.mk 1 2 12 800 0 800 CARD PAY_PENDING None None None None None None)
  = (800 * inject_Z 1)%Q.
Proof.
  exact (proj1 (proj2 (proj2
           (cart_price_is_recomputed_at_payment example_env 12
              (PaymentCreate.mk 2 CARD None (Some true))
              (DB.mk [Example.bus] [Example.trip]
                 [Booking.mk 2 12 7 (Some 3) [3] "ECONOMY" 500%Q CART None
                    (Some (midnight Example.day)) None None None] [] [])
              _ _ _ _ 3 800%Q _ 7 eq_refl eq_refl eq_refl eq_refl eq_refl)))).
Defined.

Lemma find_payment_none (i : Z) (ps : list Payment.t) :
  (forall x, In x ps -> Payment.booking_id x <> i) ->
  find (fun x => Payment.booking_id x =? i) ps = None.
Proof.
  intros H. induction ps as [|x r IH]; simpl; [reflexivity|].
  destruct (Payment.booking_id x =? i) eqn:E.
  - apply Z.eqb_eq in E. exfalso. apply (H x); [now left | assumption].
  - apply IH. intros y Hy. apply H. now right.
Qed.

(** X10. A PENDING booking whose only payment row is FAILED can be paid again.
    When its deadline has not passed, no coupon is to be applied and the
    gateway accepts, the failed row is deleted, one new row is appended and
    ends COMPLETED with the booking's total price as amount and final
    amount, and the booking is CONFIRMED with the generated PNR. *)
Theorem failed_payment_can_be_retried
  (env : Env.t) (user_id : Z) (req : PaymentCreate.t) (db : DB.t)
  (b : Booking.t) (p0 : Payment.t) :
  DB.get_booking db (PaymentCreate.booking_id req) = Some b ->
  Booking.user_id b = user_id ->
  Booking.status b = PENDING ->
  PaymentRoute.find_payment db (Booking.id b) = Some p0 ->
  Payment.status p0 = PAY_FAILED ->
  (forall x, In x (DB.payments db) ->
             Payment.booking_id x = Booking.id b -> Payment.id x = Payment.id p0) ->
  (forall e, Booking.expires_at b = Some e -> Env.now env <= e) ->
  PaymentRoute.coupon_requested req = None ->
  Gateway.success (Env.gateway env) = true ->
  let out := PaymentRoute.process_booking_payment env user_id req db in
  let kept := filter (fun x => negb (Payment.id x =? Payment.id p0)) (DB.payments db) in
  let paid :=
    Payment.mk (DB.next_id (map Payment.id kept)) (Booking.id b) user_id
      (Booking.total_price b) 0%Q (Booking.total_price b)
      (PaymentCreate.payment_method req) PAY_COMPLETED
      (Gateway.transaction_id (Env.gateway env))
      (Some (Text match Gateway.gateway_response (Env.gateway env) with
                  | Some g => g
                  | None => ""
                  end))
      None None None None in
  snd out = inr (mkPaymentResponse (Payment.id paid)
                   (Gateway.transaction_id (Env.gateway env)))
  /\ DB.payments (fst out) = (kept ++ [paid])%list
  /\ ~ In p0 (DB.payments (fst out))
  /\ PaymentRoute.find_payment (fst out) (Booking.id b) = Some paid
  /\ DB.get_booking (fst out) (PaymentCreate.booking_id req)
     = Some (Booking.set_pnr (Some (Env.pnr env)) (Booking.set_status CONFIRMED b)).
Proof.
  intros Hget Hu Hst Hpay Hfailed Hone Hfresh Hcoupon Hgw out kept paid.
  set (confirmed := Booking.set_pnr (Some (Env.pnr env))
                      (Booking.set_status CONFIRMED b)).
  set (pnew := Payment.mk (DB.next_id (map Payment.id kept)) (Booking.id b) user_id
                 (Booking.total_price b) 0%Q (Booking.total_price b)
                 (PaymentCreate.payment_method req) PAY_PENDING None None
                 None None None None).
  assert (Hkept : find (fun x => Payment.booking_id x =? Booking.id b) kept = None).
  { apply find_payment_none. intros x Hx Hb. unfold kept in Hx.
    apply filter_In in Hx. destruct Hx as [Hin Hne].
    apply negb_true_iff, Z.eqb_neq in Hne. apply Hne. now apply Hone. }
  assert (Hre : PaymentRoute.recheck_cart env b db = (db, inr b)).
  { unfold PaymentRoute.recheck_cart. now rewrite Hst. }
  assert (Hprep : PaymentRoute.prepare_payment env user_id req db
                  = (DB.set_payments (kept ++ [pnew])%list (DB.update_booking b db),
                     inr (b, pnew))).
  { rewrite (prepare_rechecked env user_id req db b b Hget Hu (or_intror Hst) Hre).
    unfold Handler.bind at 1. unfold PaymentRoute.reject_existing_payment.
    unfold Handler.bind at 1. unfold Handler.query at 1.
    change (PaymentRoute.find_payment (DB.update_booking b db) (Booking.id b))
      with (PaymentRoute.find_payment db (Booking.id b)).
    rewrite Hpay, Hfailed. unfold Handler.commit at 1.
    unfold Handler.bind at 1. unfold PaymentRoute.reject_expired.
    assert (Hexp : match Booking.expires_at b with
                   | Some e => e <? Env.now env
                   | None => false
                   end = false).
    { destruct (Booking.expires_at b) as [e|]; [|reflexivity].
      apply Z.ltb_ge. now apply Hfresh. }
    rewrite Hexp. unfold Handler.ret at 1.
    unfold Handler.bind at 1. unfold PaymentRoute.resolve_discount.
    rewrite Hcoupon. unfold Handler.ret at 1.
    unfold Handler.bind at 1. unfold PaymentRoute.create_payment_record.
    unfold Handler.bind at 1. unfold Handler.query at 1.
    change (PaymentRoute.find_payment
              (PaymentRoute.delete_payment (Payment.id p0) (DB.update_booking b db))
              (Booking.id b))
      with (find (fun x => Payment.booking_id x =? Booking.id b) kept).
    rewrite Hkept. reflexivity. }
  assert (Hout : out = (DB.update_payment paid
                          (DB.update_booking confirmed
                             (DB.set_payments (kept ++ [pnew])%list
                                (DB.update_booking b db))),
                        inr (mkPaymentResponse (Payment.id paid)
                               (Gateway.transaction_id (Env.gateway env))))).
  { unfold out, PaymentRoute.process_booking_payment, Handler.bind.
    rewrite Hprep. unfold Handler.try_except, PaymentRoute.settle.
    rewrite Hgw. reflexivity. }
  assert (Hps : DB.payments (fst out) = (kept ++ [paid])%list).
  { rewrite Hout. cbn [fst].
    change (DB.payments (DB.update_payment paid _))
      with (map (fun x => if Payment.id x =? Payment.id paid then paid else x)
                (kept ++ [pnew])%list).
    rewrite map_app. cbn [map].
    change (Payment.id pnew) with (Payment.id paid). rewrite Z.eqb_refl.
    rewrite (map_other_ids (fun _ => paid) (Payment.id paid) kept
               (new_payment_fresh kept paid eq_refl)).
    reflexivity. }
  split; [now rewrite Hout|]. split; [exact Hps|]. split; [|split].
  - rewrite Hps. intros Hin. apply in_app_or in Hin. destruct Hin as [Hin | Hin].
    + unfold kept in Hin. apply filter_In in Hin. destruct Hin as [_ Hne].
      now rewrite Z.eqb_refl in Hne.
    + destruct Hin as [Heq | []]. rewrite <- Heq in Hfailed. discriminate.
  - unfold PaymentRoute.find_payment. rewrite Hps.
    rewrite (find_app_none _ _ _ Hkept). cbn [find Payment.booking_id paid].
    now rewrite Z.eqb_refl.
  - rewrite Hout. cbn [fst]. unfold DB.get_booking.
    change (DB.bookings (DB.update_payment paid _))
      with (map (replace_row confirmed) (map (replace_row b) (DB.bookings db))).
    rewrite replace_row_twice by reflexivity.
    apply find_replace_row with (b0 := b); [exact Hget|].
    change (Booking.id confirmed) with (Booking.id b).
    now apply get_booking_id with (db := db).
Qed.

Lemma failed_payment_can_be_retried_witness :
  DB.get_booking
    (fst (PaymentRoute.process_booking_payment example_env 14
            (PaymentCreate.mk 4 CARD None (Some true))
            (fst (PaymentRoute.process_booking_payment declined_env 14
                    (PaymentCreate.mk 4 CARD None (Some true)) Example.store)))) 4
  = Some (Booking.set_pnr (Some "A1B2C3")
            (Booking.set_status CONFIRMED (Example.booking 4 14 [5] PENDING))).
Proof.
  refine (proj2 (proj2 (proj2 (proj2
            (failed_payment_can_be_retried example_env 14
               (PaymentCreate.mk 4 CARD None (Some true))
               (fst (PaymentRoute.process_booking_payment declined_env 14
                       (PaymentCreate.mk 4 CARD None (Some true)) Example.store))
               (Example.booking 4 14 [5] PENDING)
               (Payment.mk 1 4 14 800 0 800 CARD PAY_FAILED None
                  (Some (DetailStr (PaymentFailed
                     (Gateway.failure_text (Env.gateway declined_env)))))
                  None None None None)
               eq_refl eq_refl eq_refl eq_refl eq_refl _ _ eq_refl eq_refl))))).
  - intros x [<- | []] _. reflexivity.
  - intros e He. discriminate He.
Defined.

(** ** Coupons at checkout *)

Lemma is_valid_inv (c : Coupon.t) (now : datetime) :
  fst (Coupon.is_valid c now) = true ->
  Coupon.is_active c = true
  /\ (forall f, Coupon.valid_from c = Some f -> f <= now)
  /\ (forall u, Coupon.valid_until c = Some u -> now <= u)
  /\ (forall l, Coupon.usage_limit c = Some l -> l <> 0 -> Coupon.usage_count c < l).
Proof.
  unfold Coupon.is_valid.
  destruct (Coupon.is_active c); [|discriminate]. cbn [negb].
  destruct (Coupon.valid_from c) as [f|] eqn:Ef.
  - destruct (now <? f) eqn:E1; [discriminate|]. apply Z.ltb_ge in E1.
    destruct (Coupon.valid_until c) as [u|] eqn:Eu.
    + destruct (u <? now) eqn:E2; [discriminate|]. apply Z.ltb_ge in E2.
      destruct (Coupon.usage_limit c) as [l|] eqn:El.
      * destruct (negb (l =? 0) && (l <=? Coupon.usage_count c))%bool eqn:E3;
          [discriminate|].
        intros _. split; [reflexivity|]. split; [congruence|]. split; [congruence|].
        intros l' Hl Hne. injection Hl as <-.
        apply andb_false_iff in E3. destruct E3 as [E3 | E3].
        -- apply negb_false_iff, Z.eqb_eq in E3. contradiction.
        -- apply Z.leb_gt in E3. exact E3.
      * intros _. repeat split; congruence.
    + destruct (Coupon.usage_limit c) as [l|] eqn:El.
      * destruct (negb (l =? 0) && (l <=? Coupon.usage_count c))%bool eqn:E3;
          [discriminate|].
        intros _. split; [reflexivity|]. split; [congruence|]. split; [congruence|].
        intros l' Hl Hne. injection Hl as <-.
        apply andb_false_iff in E3. destruct E3 as [E3 | E3].
        -- apply negb_false_iff, Z.eqb_eq in E3. contradiction.
        -- apply Z.leb_gt in E3. exact E3.
      * intros _. repeat split; congruence.
  - destruct (Coupon.valid_until c) as [u|] eqn:Eu.
    + destruct (u <? now) eqn:E2; [discriminate|]. apply Z.ltb_ge in E2.
      destruct (Coupon.usage_limit c) as [l|] eqn:El.
      * destruct (negb (l =? 0) && (l <=? Coupon.usage_count c))%bool eqn:E3;
          [discriminate|].
        intros _. split; [reflexivity|]. split; [congruence|]. split; [congruence|].
        intros l' Hl Hne. injection Hl as <-.
        apply andb_false_iff in E3. destruct E3 as [E3 | E3].
        -- apply negb_false_iff, Z.eqb_eq in E3. contradiction.
        -- apply Z.leb_gt in E3. exact E3.
      * intros _. repeat split; congruence.
    + destruct (Coupon.usage_limit c) as [l|] eqn:El.
      * destruct (negb (l =? 0) && (l <=? Coupon.usage_count c))%bool eqn:E3;
          [discriminate|].
        intros _. split; [reflexivity|]. split; [congruence|]. split; [congruence|].
        intros l' Hl Hne. injection Hl as <-.
        apply andb_false_iff in E3. destruct E3 as [E3 | E3].
        -- apply negb_false_iff, Z.eqb_eq in E3. contradiction.
        -- apply Z.leb_gt in E3. exact E3.
      * intros _. repeat split; congruence.
Qed.

Lemma calculate_discount_inv (c : Coupon.t) (now : datetime) (amount d : Q)
  (msg : CouponMsg) :
  Coupon.calculate_discount c now amount = Value (Some d, msg) ->
  (d = 0%Q /\ msg <> DiscountApplied)
  \/ (msg = DiscountApplied
      /\ fst (Coupon.is_valid c now) = true
      /\ (Coupon.min_order_value c <= amount)%Q
      /\ (forall m, Coupon.max_discount c = Some m -> ~ (m == 0)%Q -> (d <= m)%Q)
      /\ match Coupon.coupon_type c with
         | FIXED_AMOUNT =>
             exists a, Coupon.discount_amount c = Some a /\ (d <= a)%Q
         | _ =>
             exists p, Coupon.discount_percent c = Some p
                       /\ (d <= amount * p / 100)%Q
         end).
Proof.
  unfold Coupon.calculate_discount.
  destruct (fst (Coupon.is_valid c now)) eqn:Hv; cbn [negb].
  2:{ intros H. injection H as <- <-. left. split; [reflexivity|].
      unfold Coupon.is_valid in *.
      repeat match goal with
             | H : context [if ?b then _ else _] |- _ => destruct b; simpl in H
             | |- context [if ?b then _ else _] => destruct b; simpl
             end; try discriminate. }
  destruct (Qlt_le_dec amount (Coupon.min_order_value c)) as [Hlt | Hle].
  { intros H. injection H as <- <-. left. split; [reflexivity | discriminate]. }
  assert (Hbase :
    forall disc,
      match Coupon.coupon_type c with
      | PERCENTAGE => Coupon.percent_of c amount
      | FIXED_AMOUNT => Value (Coupon.discount_amount c)
      | FIRST_TIME => Coupon.percent_of c amount
      | SEASONAL => Coupon.percent_of c amount
      end = Value (Some disc) ->
      match Coupon.coupon_type c with
      | FIXED_AMOUNT => exists a, Coupon.discount_amount c = Some a /\ disc = a
      | _ => exists p, Coupon.discount_percent c = Some p
                       /\ disc = (amount * p / 100)%Q
      end).
  { intros disc. unfold Coupon.percent_of.
    destruct (Coupon.coupon_type c);
      try (destruct (Coupon.discount_percent c) as [p|]; [|discriminate];
           intros H; injection H as <-; now exists p).
    intros H. injection H as H. now exists disc. }
  destruct (match Coupon.coupon_type c with
            | PERCENTAGE => Coupon.percent_of c amount
            | FIXED_AMOUNT => Value (Coupon.discount_amount c)
            | FIRST_TIME => Coupon.percent_of c amount
            | SEASONAL => Coupon.percent_of c amount
            end) as [disc|] eqn:Hd; [|discriminate].
  assert (Hfinish :
    forall d0, disc = Some d0 -> (d <= d0)%Q ->
      match Coupon.coupon_type c with
      | FIXED_AMOUNT => exists a, Coupon.discount_amount c = Some a /\ (d <= a)%Q
      | _ => exists p, Coupon.discount_percent c = Some p
                       /\ (d <= amount * p / 100)%Q
      end).
  { intros d0 -> Hd0. specialize (Hbase d0 eq_refl).
    destruct (Coupon.coupon_type c); destruct Hbase as [x [Hx ->]];
      exists x; split; assumption. }
  destruct (Coupon.max_discount c) as [m|] eqn:Hm.
  - destruct (Qeq_bool m 0) eqn:Hz.
    + intros H. injection H as -> <-. right.
      split; [reflexivity|]. split; [reflexivity|]. split; [exact Hle|]. split.
      * intros m' Hm' Hne. injection Hm' as <-.
        apply Qeq_bool_iff in Hz. contradiction.
      * apply (Hfinish d eq_refl). apply Qle_refl.
    + destruct disc as [d0|]; [|discriminate].
      destruct (Qlt_le_dec m d0) as [Hcap | Hcap]; intros H;
        injection H as <- <-; right;
        (split; [reflexivity|]; split; [reflexivity|]; split; [exact Hle|]; split).
      * intros m' Hm' _. injection Hm' as <-. apply Qle_refl.
      * apply (Hfinish d0 eq_refl). now apply Qlt_le_weak.
      * intros m' Hm' _. injection Hm' as <-. exact Hcap.
      * apply (Hfinish d0 eq_refl). apply Qle_refl.
  - intros H. injection H as -> <-. right.
    split; [reflexivity|]. split; [reflexivity|]. split; [exact Hle|]. split.
    + intros m' Hm'. discriminate.
    + apply (Hfinish d eq_refl). apply Qle_refl.
Qed.

Lemma validate_coupon_valid_inv (db : DB.t) (env : Env.t) (c : Coupon.t)
  (amount : Q) (user_id : Z) (d : Q) (ty : CouponType) :
  PaymentRoute.validate_coupon db env c amount user_id = Value (CouponValid d ty) ->
  ty = Coupon.coupon_type c
  /\ fst (Coupon.is_valid c (Env.utcnow env)) = true
  /\ (Coupon.min_order_value c <= amount)%Q
  /\ (forall l, Coupon.user_usage_limit c = Some l -> l <> 0 ->
                PaymentRoute.user_usage_count db user_id (Coupon.code c) < l)
  /\ (0 < d)%Q
  /\ (forall m, Coupon.max_discount c = Some m -> ~ (m == 0)%Q -> (d <= m)%Q)
  /\ match Coupon.coupon_type c with
     | FIXED_AMOUNT => exists a, Coupon.discount_amount c = Some a /\ (d <= a)%Q
     | _ => exists p, Coupon.discount_percent c = Some p
                      /\ (d <= amount * p / 100)%Q
     end.
Proof.
  unfold PaymentRoute.validate_coupon.
  destruct (Coupon.is_valid c (Env.utcnow env)) as [v reason] eqn:Hv.
  destruct v; cbn [negb]; [|discriminate].
  destruct (_ && _)%bool; [discriminate|].
  destruct (Coupon.truthy_Z (Coupon.user_usage_limit c)
            && match Coupon.user_usage_limit c with
               | Some l => l <=? PaymentRoute.user_usage_count db user_id (Coupon.code c)
               | None => false
               end)%bool eqn:Hu; [discriminate|].
  destruct (Coupon.calculate_discount c (Env.utcnow env) amount)
    as [[[disc|] msg]|] eqn:Hc; try discriminate.
  destruct (Qle_bool disc 0) eqn:Hpos; [discriminate|].
  intros H. injection H as <- <-.
  assert (Hd : (0 < disc)%Q).
  { apply Qnot_le_lt. intros Hle. apply Qle_bool_iff in Hle. congruence. }
  apply calculate_discount_inv in Hc.
  destruct Hc as [[H0 _] | [_ [Hvalid [Hmin [Hcap Hty]]]]].
  { subst disc. exfalso. revert Hd. apply Qlt_irrefl. }
  split; [reflexivity|]. split; [reflexivity|]. split; [exact Hmin|].
  split; [|split; [exact Hd|split; [exact Hcap | exact Hty]]].
  intros l Hl Hne. unfold Coupon.truthy_Z in Hu. rewrite Hl in Hu.
  apply andb_false_iff in Hu. destruct Hu as [Hu | Hu].
  - apply negb_false_iff, Z.eqb_eq in Hu. contradiction.
  - now apply Z.leb_gt in Hu.
Qed.

Lemma seed_result (env : Env.t) (code : string) (db : DB.t) :
  let key := Str.upper (Str.strip code) in
  (PaymentRoute._seed_default_coupon_if_known env code db = (db, inr false)
   /\ (PaymentRoute.find_coupon db key <> None
       \/ PaymentRoute.default_coupon env key = None))
  \/ (exists c,
        PaymentRoute.find_coupon db key = None
        /\ PaymentRoute.default_coupon env key = Some c
        /\ PaymentRoute._seed_default_coupon_if_known env code db
           = (DB.set_coupons (DB.coupons db ++ [c])%list db, inr true)).
Proof.
  intros key. unfold PaymentRoute._seed_default_coupon_if_known.
  fold key. unfold Handler.bind, Handler.query, Handler.ret, Handler.commit.
  destruct (PaymentRoute.find_coupon db key) as [c0|] eqn:Hf.
  - left. split; [reflexivity|]. left. discriminate.
  - destruct (PaymentRoute.default_coupon env key) as [c|] eqn:Hd.
    + right. exists c. repeat split.
    + left. split; [reflexivity|]. now right.
Qed.

Lemma apply_coupon_inv (env : Env.t) (code : string) (amount : Q) (user_id : Z)
  (db : DB.t) :
  let out := PaymentRoute.apply_coupon env code amount user_id db in
  snd out
  = inr match PaymentRoute.find_coupon (fst out) (Str.upper code) with
        | Some c => PaymentRoute.validate_coupon (fst out) env c amount user_id
        | None => Value (CouponInvalid InvalidCouponCode)
        end.
Proof.
  unfold PaymentRoute.apply_coupon, Handler.bind, Handler.query, Handler.ret.
  destruct (PaymentRoute.find_coupon db (Str.upper code)) as [c0|] eqn:Hf.
  - cbn [fst snd]. now rewrite Hf.
  - destruct (seed_result env code db) as [[Hs _] | [c [_ [_ Hs]]]]; rewrite Hs.
    + cbn [fst snd]. now rewrite Hf.
    + cbn [fst snd].
      destruct (PaymentRoute.find_coupon
                  (DB.set_coupons (DB.coupons db ++ [c])%list db) (Str.upper code))
        eqn:Hf1; cbn [fst snd]; now rewrite Hf1.
Qed.

(** X11. When [apply_coupon] accepts a code, the coupon is the stored row for
    the upper-cased code, of the type it reports; it is active, inside its
    validity window, under its global usage limit and under its per-user
    limit for this user; the order reaches its minimum order value; and the
    discount is positive, at most the coupon's cap (when it has a non-zero
    one) and at most the coupon's nominal value: its fixed amount, or its
    percentage of the order. *)
Theorem coupon_accepted_only_within_terms
  (env : Env.t) (code : string) (amount : Q) (user_id : Z) (db : DB.t)
  (d : Q) (ty : CouponType) :
  let out := PaymentRoute.apply_coupon env code amount user_id db in
  snd out = inr (Value (CouponValid d ty)) ->
  exists c,
    PaymentRoute.find_coupon (fst out) (Str.upper code) = Some c
    /\ Coupon.coupon_type c = ty
    /\ Coupon.is_active c = true
    /\ (forall f, Coupon.valid_from c = Some f -> f <= Env.utcnow env)
    /\ (forall u, Coupon.valid_until c = Some u -> Env.utcnow env <= u)
    /\ (forall l, Coupon.usage_limit c = Some l -> l <> 0 ->
                  Coupon.usage_count c < l)
    /\ (forall l, Coupon.user_usage_limit c = Some l -> l <> 0 ->
                  PaymentRoute.user_usage_count (fst out) user_id (Coupon.code c) < l)
    /\ (Coupon.min_order_value c <= amount)%Q
    /\ (0 < d)%Q
    /\ (forall m, Coupon.max_discount c = Some m -> ~ (m == 0)%Q -> (d <= m)%Q)
    /\ match Coupon.coupon_type c with
       | FIXED_AMOUNT => exists a, Coupon.discount_amount c = Some a /\ (d <= a)%Q
       | _ => exists p, Coupon.discount_percent c = Some p
                        /\ (d <= amount * p / 100)%Q
       end.
Proof.
  intros out Hout. pose proof (apply_coupon_inv env code amount user_id db) as H.
  fold out in H. cbv zeta in H. rewrite Hout in H. injection H as H.
  destruct (PaymentRoute.find_coupon (fst out) (Str.upper code)) as [c|];
    [|discriminate].
  symmetry in H. apply validate_coupon_valid_inv in H.
  destruct H as [Hty [Hv [Hmin [Hu [Hd [Hcap Hnom]]]]]].
  apply is_valid_inv in Hv. destruct Hv as [Ha [Hf [Hun Hl]]].
  exists c. repeat (split; [first [reflexivity | now symmetry | assumption]|]).
  exact Hnom.
Qed.

Lemma coupon_accepted_only_within_terms_witness :
  exists c,
    PaymentRoute.find_coupon
      (fst (PaymentRoute.apply_coupon example_env "welcome10" 1000 12 Example.store))
      (Str.upper "welcome10") = Some c
    /\ Coupon.coupon_type c = FIRST_TIME.
Proof.
  destruct (coupon_accepted_only_within_terms example_env "welcome10" 1000 12
              Example.store _ _ eq_refl) as [c [H1 [H2 _]]].
  exists c. split; assumption.
Defined.

Lemma default_coupon_code (env : Env.t) (key : string) (c : Coupon.t) :
  PaymentRoute.default_coupon env key = Some c -> Coupon.code c = key.
Proof.
  unfold PaymentRoute.default_coupon.
  destruct (key =? "WELCOME10")%string eqn:E1.
  { apply String.eqb_eq in E1. intros H. injection H as <-. now subst. }
  destruct (key =? "SUMMER25")%string eqn:E2.
  { apply String.eqb_eq in E2. intros H. injection H as <-. now subst. }
  destruct (key =? "FIXED100")%string eqn:E3; [|discriminate].
  apply String.eqb_eq in E3. intros H. injection H as <-. now subst.
Qed.

Lemma default_coupon_none_env (env env' : Env.t) (key : string) :
  PaymentRoute.default_coupon env key = None ->
  PaymentRoute.default_coupon env' key = None.
Proof.
  unfold PaymentRoute.default_coupon.
  repeat match goal with
         | |- context [if ?b then _ else _] => destruct b
         end; congruence.
Qed.

Lemma find_coupon_seeded (db : DB.t) (c : Coupon.t) :
  PaymentRoute.find_coupon (DB.set_coupons (DB.coupons db ++ [c])%list db)
    (Coupon.code c) <> None.
Proof.
  unfold PaymentRoute.find_coupon. cbn [DB.coupons DB.set_coupons].
  induction (DB.coupons db) as [|x r IH]; cbn [app find].
  - now rewrite String.eqb_refl.
  - destruct (Coupon.code x =? Coupon.code c)%string; [discriminate | exact IH].
Qed.

Lemma apply_coupon_store (env : Env.t) (code : string) (amount : Q)
  (user_id : Z) (db : DB.t) :
  fst (PaymentRoute.apply_coupon env code amount user_id db)
  = match PaymentRoute.find_coupon db (Str.upper code) with
    | Some _ => db
    | None => fst (PaymentRoute._seed_default_coupon_if_known env code db)
    end.
Proof.
  unfold PaymentRoute.apply_coupon, Handler.bind, Handler.query, Handler.ret.
  destruct (PaymentRoute.find_coupon db (Str.upper code)) as [c0|] eqn:Hf.
  - reflexivity.
  - destruct (seed_result env code db) as [[Hs _] | [c [_ [_ Hs]]]]; rewrite Hs;
      cbn [fst snd].
    + reflexivity.
    + destruct (PaymentRoute.find_coupon
                  (DB.set_coupons (DB.coupons db ++ [c])%list db) (Str.upper code));
        reflexivity.
Qed.

(** X12. [apply_coupon] writes to the coupons only: bookings and payments are
    as before, and the coupons are unchanged or extended by one default
    coupon that was not stored under its code. Applying the same code
    again, for any user, amount and clock, does not change the store a
    second time. *)
Theorem default_coupon_is_seeded_once
  (env env' : Env.t) (code : string) (amount amount' : Q) (user_id user_id' : Z)
  (db : DB.t) :
  let db1 := fst (PaymentRoute.apply_coupon env code amount user_id db) in
  (DB.coupons db1 = DB.coupons db
   \/ exists c,
        PaymentRoute.default_coupon env (Str.upper (Str.strip code)) = Some c
        /\ PaymentRoute.find_coupon db (Coupon.code c) = None
        /\ DB.coupons db1 = (DB.coupons db ++ [c])%list)
  /\ DB.bookings db1 = DB.bookings db
  /\ DB.payments db1 = DB.payments db
  /\ fst (PaymentRoute.apply_coupon env' code amount' user_id' db1) = db1.
Proof.
  intros db1.
  assert (Hdb1 : db1 = match PaymentRoute.find_coupon db (Str.upper code) with
                       | Some _ => db
                       | None => fst (PaymentRoute._seed_default_coupon_if_known
                                        env code db)
                       end) by apply apply_coupon_store.
  rewrite apply_coupon_store.
  destruct (PaymentRoute.find_coupon db (Str.upper code)) as [c0|] eqn:Hf.
  { rewrite Hdb1, Hf. repeat split. now left. }
  destruct (seed_result env code db) as [[Hs Hwhy] | [c [Hnone [Hdef Hs]]]];
    rewrite Hs in Hdb1; cbn [fst] in Hdb1; rewrite Hdb1.
  - split; [now left|]. split; [reflexivity|]. split; [reflexivity|].
    rewrite Hf.
    destruct (seed_result env' code db) as [[Hs' _] | [c [Hnone [Hdef _]]]].
    + now rewrite Hs'.
    + exfalso. destruct Hwhy as [Hw | Hw]; [now apply Hw|].
      apply (default_coupon_none_env env env') in Hw. congruence.
  - pose proof (default_coupon_code _ _ _ Hdef) as Hcode.
    split; [|split; [reflexivity|split; [reflexivity|]]].
    { right. exists c. rewrite Hcode. repeat split; assumption. }
    destruct (PaymentRoute.find_coupon
                (DB.set_coupons (DB.coupons db ++ [c])%list db) (Str.upper code));
      [reflexivity|].
    destruct (seed_result env' code
                (DB.set_coupons (DB.coupons db ++ [c])%list db))
      as [[Hs' _] | [c' [Hnone' _]]].
    + now rewrite Hs'.
    + exfalso. rewrite <- Hcode in Hnone'.
      now apply (find_coupon_seeded db c).
Qed.

(** X13. A stored coupon that is valid for the order and the user but lacks
    the value its type needs (no percentage on a percentage, first-time or
    seasonal coupon, no amount on a fixed-amount coupon) is not refused with
    a 400: the discount step of checkout ends in an unhandled error (500),
    and the store is unchanged. *)
Theorem coupon_without_value_fails_checkout
  (env : Env.t) (user_id : Z) (amount : Q) (req : PaymentCreate.t)
  (code : string) (c : Coupon.t) (db : DB.t) :
  PaymentRoute.coupon_requested req = Some code ->
  PaymentRoute.is_silver_code (Str.upper code) = false ->
  PaymentRoute.is_gold_code (Str.upper code) = false ->
  PaymentRoute.find_coupon db (Str.upper code) = Some c ->
  Coupon.is_valid c (Env.utcnow env) = (true, Valid) ->
  (Coupon.min_order_value c <= amount)%Q ->
  (forall l, Coupon.user_usage_limit c = Some l -> l <> 0 ->
             PaymentRoute.user_usage_count db user_id (Coupon.code c) < l) ->
  match Coupon.coupon_type c with
  | FIXED_AMOUNT => Coupon.discount_amount c = None
  | _ => Coupon.discount_percent c = None
  end ->
  PaymentRoute.resolve_discount env user_id amount req db
  = (db, inl (mkHTTPException 500 Unhandled)).
Proof.
  intros Hreq Hs Hg Hfind Hvalid Hmin Hlimit Hnone.
  unfold PaymentRoute.resolve_discount. rewrite Hreq.
  unfold Handler.bind at 1. unfold Handler.query at 1.
  rewrite Hs, Hg. cbn [andb orb].
  assert (Happly : PaymentRoute.apply_coupon env code amount user_id db
                   = (db, inr TypeError)).
  { unfold PaymentRoute.apply_coupon, Handler.bind, Handler.query, Handler.ret.
    rewrite Hfind. f_equal. f_equal.
    unfold PaymentRoute.validate_coupon. rewrite Hvalid. cbn [negb].
    assert (H1 : (negb (Qeq_bool (Coupon.min_order_value c) 0)
                  && (if Qlt_le_dec amount (Coupon.min_order_value c)
                      then true else false))%bool = false).
    { destruct (Qlt_le_dec amount (Coupon.min_order_value c)) as [Hlt|_].
      - exfalso. exact (Qlt_not_le _ _ Hlt Hmin).
      - apply andb_false_r. }
    rewrite H1.
    assert (H2 : (Coupon.truthy_Z (Coupon.user_usage_limit c)
                  && match Coupon.user_usage_limit c with
                     | Some l =>
                         l <=? PaymentRoute.user_usage_count db user_id (Coupon.code c)
                     | None => false
                     end)%bool = false).
    { destruct (Coupon.user_usage_limit c) as [l|] eqn:El; [|reflexivity].
      unfold Coupon.truthy_Z. destruct (l =? 0) eqn:E0; [reflexivity|].
      apply Z.eqb_neq in E0. cbn [negb andb]. apply Z.leb_gt.
      now apply Hlimit. }
    rewrite H2.
    unfold Coupon.calculate_discount. rewrite Hvalid. cbn [fst negb].
    destruct (Qlt_le_dec amount (Coupon.min_order_value c)) as [Hlt|_].
    { exfalso. exact (Qlt_not_le _ _ Hlt Hmin). }
    unfold Coupon.percent_of.
    destruct (Coupon.coupon_type c); try (now rewrite Hnone).
    rewrite Hnone. destruct (Coupon.max_discount c) as [m|]; [|reflexivity].
    now destruct (Qeq_bool m 0). }
  unfold Handler.bind. now rewrite Happly.
Qed.

Lemma coupon_without_value_fails_checkout_witness :
  PaymentRoute.resolve_discount example_env 12 1000
    (PaymentCreate.mk 2 CARD (Some "eid30") (Some true))
    (DB.set_coupons
       [Coupon.mk "EID30" PERCENTAGE None None 0 None None 0 None true None None]
       Example.store)
  = (DB.set_coupons
       [Coupon.mk "EID30" PERCENTAGE None None 0 None None 0 None true None None]
       Example.store,
     inl (mkHTTPException 500 Unhandled)).
Proof.
  apply (coupon_without_value_fails_checkout example_env 12 1000
           (PaymentCreate.mk 2 CARD (Some "eid30") (Some true)) "eid30"
           (Coupon.mk "EID30" PERCENTAGE None None 0 None None 0 None true None None));
    try reflexivity.
  - discriminate.
  - intros l Hl. discriminate Hl.
Defined.

(** ** The expiry sweep and seat occupancy *)

(** X14. After the expiry sweep at time [t], a seat is booked for a schedule
    and date exactly when a PENDING or CONFIRMED booking that was not
    overdue at [t] holds it; no row is left that a sweep at [t] would
    select; the rows keep their ids and order; the returned count is the
    number of logged events; and vehicles, schedules, payments and coupons
    are untouched. *)
Theorem sweep_releases_overdue_seats
  (db : DB.t) (t : datetime) (sid : Z) (td : option date) (seat : Z) :
  let run := BookingService.auto_cancel_expired_bookings db t in
  let db' := fst (fst run) in
  (In seat (BookingService.booked_seats db' sid td)
   <-> exists b,
         In b (DB.bookings db)
         /\ BookingService.blocks_seats sid td b = true
         /\ BookingService.expired_row t b = false
         /\ In seat (Booking.seats b))
  /\ (forall b', In b' (DB.bookings db') -> BookingService.expired_row t b' = false)
  /\ map Booking.id (DB.bookings db') = map Booking.id (DB.bookings db)
  /\ snd run = Py.len (snd (fst run))
  /\ DB.vehicles db' = DB.vehicles db
  /\ DB.schedules db' = DB.schedules db
  /\ DB.payments db' = DB.payments db
  /\ DB.coupons db' = DB.coupons db.
Proof.
  intros run db'.
  assert (Hrows : DB.bookings db' = map (swept t) (DB.bookings db))
    by apply sweep_bookings.
  split; [|split; [|split; [|split]]].
  - rewrite booked_seats_In. unfold BookingService.booked_seats_query.
    rewrite Hrows. split.
    + intros [b' [Hb' Hseat]]. apply filter_In in Hb'. destruct Hb' as [Hin Hblk].
      apply in_map_iff in Hin. destruct Hin as [b [Hsw Hb]]. subst b'.
      unfold swept in *. destruct (BookingService.expired_row t b) eqn:E.
      * apply blocks_seats_status in Hblk. cbn in Hblk.
        destruct Hblk; discriminate.
      * exists b. now repeat split.
    + intros [b [Hb [Hblk [Hexp Hseat]]]]. exists b. split; [|exact Hseat].
      apply filter_In. split; [|exact Hblk].
      apply in_map_iff. exists b. split; [|exact Hb].
      unfold swept. now rewrite Hexp.
  - intros b' Hb'. rewrite Hrows in Hb'. apply in_map_iff in Hb'.
    destruct Hb' as [b [Hsw _]]. subst b'. unfold swept.
    destruct (BookingService.expired_row t b) eqn:E; [|exact E].
    apply expired_row_needs_open_status, expire_closes.
  - rewrite Hrows, map_map. apply map_ext. intros b. apply swept_id.
  - unfold run, BookingService.auto_cancel_expired_bookings. cbn [fst snd].
    unfold Py.len. now rewrite length_map.
  - repeat split.
Qed.

Lemma changed_rows_are_expired (t : datetime) (f : Booking.t -> Booking.t)
  (l : list Booking.t) :
  (forall b, BookingService.expired_row t b = true ->
             Booking.status (f b) = EXPIRED) ->
  List.length
    (filter (fun r => negb (BookingStatus_eqb (Booking.status (fst r))
                              (Booking.status (snd r))))
       (combine l (map (fun b => if BookingService.expired_row t b
                                 then f b else b) l)))
  = List.length (filter (BookingService.expired_row t) l).
Proof.
  intros Hf. induction l as [|b r IH]; [reflexivity|].
  cbn [map combine filter fst snd].
  destruct (BookingService.expired_row t b) eqn:E.
  - rewrite (Hf b E).
    assert (Hopen : BookingStatus_eqb (Booking.status b) EXPIRED = false).
    { unfold BookingService.expired_row in E. apply andb_true_iff in E.
      destruct E as [E _]. destruct (Booking.status b); try discriminate E;
        reflexivity. }
    rewrite Hopen. cbn [negb List.length]. now rewrite IH.
  - assert (Hsame : BookingStatus_eqb (Booking.status b) (Booking.status b) = true)
      by (now apply BookingStatus_eqb_eq).
    rewrite Hsame. cbn [negb]. exact IH.
Qed.

(** X15. The sweep of the cancellation router, at the clock reading [t] of the
    service's sweep, leaves the same store as the service's sweep, but
    answers twice its count: twice the number of bookings whose status the
    sweep changed. The service's count is that number. The router's count
    is zero exactly when the store is unchanged. *)
Theorem router_sweep_counts_twice (db : DB.t) (t : datetime) :
  let routed := CancelRoute.auto_cancel_expired_bookings db t in
  let served := BookingService.auto_cancel_expired_bookings db t in
  let changed :=
    filter (fun r => negb (BookingStatus_eqb (Booking.status (fst r))
                             (Booking.status (snd r))))
           (combine (DB.bookings db) (DB.bookings (fst routed))) in
  fst routed = fst (fst served)
  /\ snd routed = 2 * snd served
  /\ snd routed = 2 * Py.len changed
  /\ snd served = Py.len changed
  /\ (snd routed = 0 <-> fst routed = db).
Proof.
  intros routed served changed.
  assert (Hlen : List.length changed
                 = List.length (filter (BookingService.expired_row t)
                                  (DB.bookings db))).
  { unfold changed, routed, CancelRoute.auto_cancel_expired_bookings.
    cbn [fst DB.bookings DB.set_bookings].
    apply (changed_rows_are_expired t
             (fun b => Booking.set_cancellation_reason
                         (Some "Auto-expired due to payment timeout")
                         (Booking.set_cancelled_at (Some t)
                            (BookingService.expire t b)))).
    reflexivity. }
  split; [reflexivity|]. split; [reflexivity|].
  split; [unfold routed, CancelRoute.auto_cancel_expired_bookings, Py.len;
          cbn [snd]; now rewrite Hlen|].
  split; [unfold served, BookingService.auto_cancel_expired_bookings, Py.len;
          cbn [snd]; now rewrite Hlen|].
  unfold routed, CancelRoute.auto_cancel_expired_bookings, Py.len.
  cbn [fst snd]. split.
  - intros Hzero.
    assert (Hnone : filter (BookingService.expired_row t) (DB.bookings db) = []).
    { destruct (filter (BookingService.expired_row t) (DB.bookings db));
        [reflexivity | cbn in Hzero; lia]. }
    assert (Hmap : map (fun b => if BookingService.expired_row t b
                                 then Booking.set_cancellation_reason
                                        (Some "Auto-expired due to payment timeout")
                                        (Booking.set_cancelled_at (Some t)
                                           (BookingService.expire t b))
                                 else b) (DB.bookings db) = DB.bookings db).
    { rewrite <- (map_id (DB.bookings db)) at 2. apply map_ext_in.
      intros b Hb. destruct (BookingService.expired_row t b) eqn:E; [|reflexivity].
      exfalso. assert (Hin : In b []).
      { rewrite <- Hnone. apply filter_In. now split. }
      contradiction. }
    rewrite Hmap. destruct db; reflexivity.
  - intros Hsame.
    destruct (filter (BookingService.expired_row t) (DB.bookings db))
      as [|b r] eqn:Hf; [reflexivity|].
    exfalso.
    assert (Hb : In b (filter (BookingService.expired_row t) (DB.bookings db))).
    { rewrite Hf. now left. }
    apply filter_In in Hb. destruct Hb as [Hin Hexp].
    apply (f_equal DB.bookings) in Hsame. cbn [DB.bookings DB.set_bookings] in Hsame.
    assert (Hrow : In (Booking.set_cancellation_reason
                         (Some "Auto-expired due to payment timeout")
                         (Booking.set_cancelled_at (Some t)
                            (BookingService.expire t b))) (DB.bookings db)).
    { rewrite <- Hsame at 1. apply in_map_iff. exists b. split; [|exact Hin].
      now rewrite Hexp. }
    clear Hf. revert Hrow Hsame Hexp Hin.
    generalize (DB.bookings db) as l. intros l Hrow Hsame Hexp Hin.
    induction l as [|x l IH]; [contradiction|].
    cbn [map] in Hsame. injection Hsame as Hx Hl.
    destruct (BookingService.expired_row t x) eqn:Ex.
    + apply (f_equal Booking.status) in Hx. cbn in Hx.
      unfold BookingService.expired_row in Ex. apply andb_true_iff in Ex.
      destruct Ex as [Ex _]. rewrite <- Hx in Ex. discriminate Ex.
    + destruct Hin as [-> | Hin]; [congruence|].
      apply IH; try assumption.
      rewrite <- Hl at 1. apply in_map_iff. exists b. split; [|exact Hin].
      now rewrite Hexp.
Qed.

(** ** Request validation and the creation route *)

Lemma invalid_passengers_nil (i : nat) (v : list PassengerDetails.t) :
  Validation.invalid_passengers i v = [] ->
  forall p, In p v -> Validation.valid_passenger p = true.
Proof.
  revert i. induction v as [|x r IH]; intros i H p Hp; [contradiction|].
  cbn [Validation.invalid_passengers] in H.
  destruct (Validation.valid_passenger x) eqn:E; [|discriminate].
  destruct Hp as [<- | Hp]; [exact E | now apply (IH (S i))].
Qed.

Lemma validate_inv (today : date) (m : option date) (body : BookingRequest.t)
  (data : BookingCreate.t) :
  Validation.validate today m body = inr data ->
  Validation.validate_seats (BookingRequest.seats body)
  = inr (BookingRequest.seats body)
  /\ Validation.validate_passenger_details (Some (BookingRequest.seats body))
       (BookingRequest.passenger_details body) = []
  /\ exists d,
       BookingRequest.travel_date body = Some d
       /\ Validation.validate_travel_date today m (Some d) = []
       /\ data = BookingCreate.mk (BookingRequest.schedule_id body)
                   (BookingRequest.seats body)
                   (Validation.normalize_seat_class (BookingRequest.seat_class body))
                   d.
Proof.
  unfold Validation.validate.
  destruct (Validation.validate_seats (BookingRequest.seats body)) as [e | v] eqn:Hs.
  { destruct (e ++ _)%list; discriminate. }
  assert (Hv : v = BookingRequest.seats body).
  { unfold Validation.validate_seats in Hs.
    repeat match type of Hs with
           | (if ?b then _ else _) = _ => destruct b; try discriminate Hs
           end.
    now injection Hs as <-. }
  subst v. cbn [app].
  destruct (Validation.validate_passenger_details _ _) as [|e1 r1] eqn:Hp.
  2:{ cbn [app]. discriminate. }
  cbn [app].
  destruct (BookingRequest.travel_date body) as [d|] eqn:Hd.
  2:{ cbn. discriminate. }
  destruct (Validation.validate_travel_date today m (Some d)) as [|e2 r2] eqn:Ht;
    [|discriminate].
  intros H. injection H as <-. split; [reflexivity|]. split; [reflexivity|].
  exists d. now repeat split.
Qed.

(** X16. A creation request that passes validation keeps its schedule, gets
    its seat class normalised, and has a well-formed travel date that is
    neither before today nor after the latest bookable day (which must
    exist); every passenger has a name of 2 to 100 characters that is not
    blank, an age from 1 to 120, a gender among Male, Female and Other, a
    seat number of at least 1 and, when given, a phone of at most 15
    characters. *)
Theorem validated_request_is_well_formed
  (today : date) (max_advance_date : option date) (body : BookingRequest.t)
  (data : BookingCreate.t) :
  Validation.validate today max_advance_date body = inr data ->
  BookingCreate.schedule_id data = BookingRequest.schedule_id body
  /\ BookingCreate.seat_class data
     = Validation.normalize_seat_class (BookingRequest.seat_class body)
  /\ BookingRequest.travel_date body = Some (BookingCreate.travel_date data)
  /\ today <= BookingCreate.travel_date data
  /\ (exists latest, max_advance_date = Some latest
                     /\ BookingCreate.travel_date data <= latest)
  /\ forall p, In p (BookingRequest.passenger_details body) ->
       2 <= Validation.str_len (PassengerDetails.name p) <= 100
       /\ Str.strip (PassengerDetails.name p) <> ""%string
       /\ 1 <= PassengerDetails.age p <= 120
       /\ In (PassengerDetails.gender p) ["Male"; "Female"; "Other"]%string
       /\ 1 <= PassengerDetails.seat_number p
       /\ (forall ph, PassengerDetails.phone p = Some ph ->
                      Validation.str_len ph <= 15).
Proof.
  intros H. apply validate_inv in H.
  destruct H as [_ [Hp [d [Hd [Ht ->]]]]]. cbn [BookingCreate.schedule_id
    BookingCreate.seat_class BookingCreate.travel_date].
  split; [reflexivity|]. split; [reflexivity|]. split; [exact Hd|].
  unfold Validation.validate_travel_date in Ht.
  destruct (d <? today) eqn:E1; [discriminate|]. apply Z.ltb_ge in E1.
  destruct max_advance_date as [latest|]; [|discriminate].
  destruct (latest <? d) eqn:E2; [discriminate|]. apply Z.ltb_ge in E2.
  split; [exact E1|]. split; [now exists latest|].
  intros p Hin. unfold Validation.validate_passenger_details in Hp.
  destruct (Validation.invalid_passengers 0 (BookingRequest.passenger_details body))
    eqn:Hinv; [|discriminate].
  pose proof (invalid_passengers_nil _ _ Hinv p Hin) as Hvalid.
  unfold Validation.valid_passenger in Hvalid.
  repeat rewrite andb_true_iff in Hvalid.
  destruct Hvalid as [[[[[[[H1 H2] H3] H4] H5] H6] H7] H8].
  apply Z.leb_le in H1, H2, H4, H5, H7.
  apply negb_true_iff in H3.
  repeat split; try assumption.
  - intros Hempty. rewrite Hempty in H3. discriminate.
  - apply existsb_exists in H6. destruct H6 as [g [Hg Heq]].
    apply String.eqb_eq in Heq. now subst.
  - intros ph Hph. rewrite Hph in H8. now apply Z.leb_le.
Qed.

Lemma validated_request_is_well_formed_witness :
  BookingCreate.seat_class
    (BookingCreate.mk 3 [1; 2] "ECONOMY" Example.day)
  = Validation.normalize_seat_class (BookingRequest.seat_class example_request).
Proof.
  exact (proj1 (proj2
           (validated_request_is_well_formed Example.day (Some (Example.day + 365))
              example_request _ eq_refl))).
Defined.


(** ** Prices, confirmation and seat checks *)

(** X18. Whenever [check_availability] quotes a total for some seats,
    [compute_price] gives the same total for that many seats of the class;
    it is the quoted price per seat times the seat count for every count;
    and it does not depend on the letter case of the class name. *)
Theorem compute_price_matches_availability
  (db : DB.t) (now : datetime) (sid : Z) (seats : list Z) (cls : string)
  (td : option date) (pps tot : Q) (vid : Z) :
  BookingService.check_availability db now sid seats cls td
  = Available pps tot vid ->
  BookingConfirmation.compute_price db sid cls (Py.len seats) = tot
  /\ (forall n, BookingConfirmation.compute_price db sid cls n
                = (pps * inject_Z n)%Q)
  /\ forall cls', Str.upper cls' = Str.upper cls ->
       BookingConfirmation.compute_price db sid cls' (Py.len seats) = tot.
Proof.
  unfold BookingService.check_availability, BookingConfirmation.compute_price.
  destruct (DB.get_schedule_vehicle db sid) as [[s v]|]; [|discriminate].
  destruct (Schedule.is_active s =? 0); [discriminate|].
  destruct (match td with Some d => d <? date_of now | None => false end);
    [discriminate|].
  destruct (Py.set_inter _ _); [|discriminate].
  destruct (filter _ seats); [|discriminate].
  destruct (BookingService._get_price_for_class v cls (Some s)) as [p|] eqn:Hp;
    [|discriminate].
  intros H. injection H as <- <- _. split; [reflexivity|]. split; [reflexivity|].
  intros cls' Hcls.
  assert (Hp' : BookingService._get_price_for_class v cls' (Some s) = Some p).
  { rewrite <- Hp. unfold BookingService._get_price_for_class. now rewrite Hcls. }
  now rewrite Hp'.
Qed.

Lemma compute_price_matches_availability_witness :
  BookingConfirmation.compute_price open_store 3 "economy" (Py.len [1; 2])
  = (800 * inject_Z (Py.len [1; 2]))%Q.
Proof.
  exact (proj1 (compute_price_matches_availability open_store
                  (midnight Example.day) 3 [1; 2] "economy" (Some Example.day)
                  _ _ _ eq_refl)).
Defined.

Lemma booked_seats_map (f : Booking.t -> Booking.t) (l : list Booking.t)
  (sid : Z) (td : option date) :
  (forall x, In x l ->
     BookingService.blocks_seats sid td (f x) = BookingService.blocks_seats sid td x
     /\ Booking.seats (f x) = Booking.seats x) ->
  map Booking.seats (filter (BookingService.blocks_seats sid td) (map f l))
  = map Booking.seats (filter (BookingService.blocks_seats sid td) l).
Proof.
  induction l as [|x r IH]; intros H; [reflexivity|].
  cbn [map filter]. destruct (H x (or_introl eq_refl)) as [Hb Hs].
  rewrite Hb. assert (IH' := IH (fun y Hy => H y (or_intror Hy))).
  destruct (BookingService.blocks_seats sid td x); cbn [map]; now rewrite ?Hs, IH'.
Qed.

Lemma get_booking_In (db : DB.t) (i : Z) (b : Booking.t) :
  DB.get_booking db i = Some b -> In b (DB.bookings db).
Proof. unfold DB.get_booking. intros H. now apply find_some in H. Qed.

(** X19. [confirm_booking] of the service, with unique booking ids. It fails
    without writing or logging when the booking is missing (booking not
    found, and only then) or not PENDING. Otherwise it answers the PNR,
    stores the booking CONFIRMED with it and logs one event; the booked
    seats of every schedule and date are what they were, since the booking
    held its seats as PENDING already; and a second confirmation is refused
    as not pending, without a write. *)
Theorem confirmation_keeps_occupancy
  (db : DB.t) (pnr : string) (booking_id payment_id : Z) :
  NoDup (map Booking.id (DB.bookings db)) ->
  let out := BookingConfirmation.confirm_booking db pnr booking_id payment_id in
  let db' := fst (fst out) in
  match snd out with
  | ConfirmFailed m =>
      fst out = (db, [])
      /\ (m = ConfirmBookingNotFound <-> DB.get_booking db booking_id = None)
  | ConfirmOk p =>
      p = pnr
      /\ (exists b,
            DB.get_booking db booking_id = Some b
            /\ Booking.status b = PENDING
            /\ DB.get_booking db' booking_id
               = Some (Booking.set_pnr (Some pnr) (Booking.set_status CONFIRMED b))
            /\ snd (fst out)
               = [BOOKING_CONFIRMED booking_id (Booking.user_id b) pnr payment_id])
      /\ (forall sid td,
            BookingService.booked_seats db' sid td
            = BookingService.booked_seats db sid td)
      /\ (forall pnr' payment_id',
            BookingConfirmation.confirm_booking db' pnr' booking_id payment_id'
            = (db', [], ConfirmFailed BookingNotPending))
  end.
Proof.
  intros Hnd out db'. subst db' out. unfold BookingConfirmation.confirm_booking.
  destruct (DB.get_booking db booking_id) as [b|] eqn:Hget.
  2:{ cbn [fst snd]. split; [reflexivity|]. now split. }
  destruct (BookingStatus_eqb (Booking.status b) PENDING) eqn:Hst; cbn [negb fst snd].
  2:{ split; [reflexivity|]. split; discriminate. }
  apply BookingStatus_eqb_eq in Hst.
  set (b' := Booking.set_pnr (Some pnr) (Booking.set_status CONFIRMED b)).
  pose proof (get_booking_id _ _ _ Hget) as Hid.
  assert (Hget' : DB.get_booking (DB.update_booking b' db) booking_id = Some b').
  { unfold DB.get_booking. rewrite update_booking_bookings.
    now apply find_replace_row with (b0 := b). }
  split; [reflexivity|]. split; [|split].
  - exists b. now repeat split.
  - intros sid td. unfold BookingService.booked_seats,
      BookingService.booked_seats_query.
    rewrite update_booking_bookings. f_equal. apply booked_seats_map.
    intros x Hx. unfold replace_row.
    destruct (Booking.id x =? Booking.id b') eqn:E; [|now split].
    apply Z.eqb_eq in E.
    assert (x = b) as ->.
    { apply (NoDup_map_injective Booking.id (DB.bookings db)); try assumption.
      now apply get_booking_In with (i := booking_id). }
    split; [|reflexivity].
    unfold BookingService.blocks_seats. cbn. now rewrite Hst.
  - intros pnr' payment_id'. now rewrite Hget'.
Qed.

Lemma confirmation_keeps_occupancy_witness :
  BookingService.booked_seats
    (fst (fst (BookingConfirmation.confirm_booking Example.store "TSYA1B2C3" 4 1)))
    3 (Some Example.day)
  = BookingService.booked_seats Example.store 3 (Some Example.day).
Proof.
  pose proof (confirmation_keeps_occupancy Example.store "TSYA1B2C3" 4 1) as H.
  assert (Hnd : NoDup (map Booking.id (DB.bookings Example.store))).
  { cbn. repeat constructor; cbn; intuition discriminate. }
  specialize (H Hnd). cbv zeta in H.
  change (snd (BookingConfirmation.confirm_booking Example.store "TSYA1B2C3" 4 1))
    with (ConfirmOk "TSYA1B2C3") in H.
  cbv iota in H.
  exact (proj1 (proj2 (proj2 H)) 3 (Some Example.day)).
Defined.

Lemma collect_conflicts_In (seat_numbers : list Z) (rows : list Booking.t)
  (c : SeatCheck.conflict) :
  In c (SeatCheck.collect_conflicts seat_numbers rows)
  <-> exists b,
        In b rows
        /\ Py.set_inter seat_numbers (Booking.seats b) <> []
        /\ c = SeatCheck.mkConflict
                 (Py.set_inter seat_numbers (Booking.seats b))
                 (Booking.id b) (Booking.status b).
Proof.
  unfold SeatCheck.collect_conflicts. rewrite in_flat_map. split.
  - intros [b [Hb Hc]]. exists b. split; [exact Hb|].
    destruct (Booking.seats b) as [|s0 sl] eqn:Hs; [contradiction|].
    destruct (Py.set_inter seat_numbers (s0 :: sl)) as [|x xs] eqn:Hi;
      [contradiction|].
    destruct Hc as [<- | []]. split; [discriminate | reflexivity].
  - intros [b [Hb [Hne ->]]]. exists b. split; [exact Hb|].
    destruct (Booking.seats b) as [|s0 sl] eqn:Hs.
    + exfalso. apply Hne. unfold Py.set_inter.
      assert (Hnil : filter (fun x => Py.mem x []) seat_numbers = []).
      { clear. induction seat_numbers as [|y r IH]; [reflexivity | exact IH]. }
      now rewrite Hnil.
    + destruct (Py.set_inter seat_numbers (s0 :: sl)) as [|x xs] eqn:Hi;
        [contradiction | now left].
Qed.

(** X20. The seat check route answers 404 only when the schedule with its
    vehicle is missing; its 400 lists exactly the requested seats outside 1
    to [total_seats]; otherwise every requested seat is a seat of the
    vehicle, the answer is available exactly when there is no conflict,
    which is exactly when no requested seat is booked for the schedule and
    date (the test [check_availability] applies), and every conflict names a
    PENDING or CONFIRMED booking of the store with exactly the requested
    seats that booking holds, at least one. *)
Theorem seat_check_agrees_with_occupancy
  (db : DB.t) (sid : Z) (seat_numbers : list Z) (td : option date) :
  match SeatCheck.check_specific_seats db sid seat_numbers td with
  | SeatCheck.CheckScheduleNotFound =>
      DB.get_schedule_vehicle db sid = None
  | SeatCheck.CheckInvalidSeats invalid total =>
      invalid <> []
      /\ (exists s v, DB.get_schedule_vehicle db sid = Some (s, v)
                      /\ Vehicle.total_seats v = total)
      /\ forall seat, In seat invalid
                      <-> In seat seat_numbers /\ (seat < 1 \/ total < seat)
  | SeatCheck.Checked requested available conflicts =>
      requested = seat_numbers
      /\ (exists s v, DB.get_schedule_vehicle db sid = Some (s, v)
                      /\ forall seat, In seat seat_numbers ->
                                      1 <= seat <= Vehicle.total_seats v)
      /\ (available = true <-> conflicts = [])
      /\ (available = true
          <-> forall seat, In seat seat_numbers ->
                           ~ In seat (BookingService.booked_seats db sid td))
      /\ (available = true
          <-> Py.set_inter seat_numbers (BookingService.booked_seats db sid td) = [])
      /\ forall c, In c conflicts ->
           SeatCheck.conflict_seats c <> []
           /\ (SeatCheck.conflict_status c = PENDING
               \/ SeatCheck.conflict_status c = CONFIRMED)
           /\ exists b,
                In b (DB.bookings db)
                /\ Booking.id b = SeatCheck.conflict_booking_id c
                /\ Booking.status b = SeatCheck.conflict_status c
                /\ forall seat, In seat (SeatCheck.conflict_seats c)
                                <-> In seat seat_numbers /\ In seat (Booking.seats b)
  end.
Proof.
  unfold SeatCheck.check_specific_seats.
  destruct (DB.get_schedule_vehicle db sid) as [[s v]|] eqn:Hsv; [|reflexivity].
  destruct (filter _ seat_numbers) as [|i0 ir] eqn:Hinv.
  - set (rows := filter (BookingService.blocks_seats sid td) (DB.bookings db)).
    set (conflicts := SeatCheck.collect_conflicts seat_numbers rows).
    assert (Hfree : conflicts = []
                    <-> forall seat, In seat seat_numbers ->
                          ~ In seat (BookingService.booked_seats db sid td)).
    { split.
      - intros Hnil seat Hseat Hbooked. apply booked_seats_In in Hbooked.
        destruct Hbooked as [b [Hb Hin]].
        assert (Hc : In (SeatCheck.mkConflict
                           (Py.set_inter seat_numbers (Booking.seats b))
                           (Booking.id b) (Booking.status b)) conflicts).
        { apply collect_conflicts_In. exists b. split; [exact Hb|].
          split; [|reflexivity]. intros Hempty.
          assert (Hx : In seat (Py.set_inter seat_numbers (Booking.seats b))).
          { apply set_inter_In. now split. }
          rewrite Hempty in Hx. contradiction. }
        rewrite Hnil in Hc. contradiction.
      - intros Hno. destruct conflicts as [|c cs] eqn:Hcs; [reflexivity|].
        exfalso.
        assert (Hc : In c (SeatCheck.collect_conflicts seat_numbers rows)).
        { fold conflicts. rewrite Hcs. now left. }
        apply collect_conflicts_In in Hc. destruct Hc as [b [Hb [Hne _]]].
        destruct (Py.set_inter seat_numbers (Booking.seats b)) as [|x xs] eqn:Hi;
          [now apply Hne|].
        assert (Hx : In x (Py.set_inter seat_numbers (Booking.seats b))).
        { rewrite Hi. now left. }
        apply set_inter_In in Hx. destruct Hx as [Hx1 Hx2].
        apply (Hno x Hx1). apply booked_seats_In. now exists b. }
    assert (Havail : (Py.len conflicts =? 0) = true <-> conflicts = []).
    { unfold Py.len. rewrite Z.eqb_eq. destruct conflicts; cbn; split;
        intros H; try reflexivity; try discriminate; lia. }
    split; [reflexivity|]. split; [|split; [exact Havail|split; [|split]]].
    + exists s, v. split; [reflexivity|]. intros seat Hseat.
      assert (Hnot : ~ In seat (filter (fun seat0 => (seat0 <? 1)
                                        || (Vehicle.total_seats v <? seat0))%bool
                                  seat_numbers)).
      { rewrite Hinv. intros []. }
      rewrite filter_In in Hnot.
      assert (Hb : ((seat <? 1) || (Vehicle.total_seats v <? seat))%bool = false).
      { destruct ((seat <? 1) || (Vehicle.total_seats v <? seat))%bool eqn:E;
          [|reflexivity].
        exfalso. apply Hnot. now split. }
      apply orb_false_iff in Hb. destruct Hb as [Elo Ehi].
      apply Z.ltb_ge in Elo, Ehi. lia.
    + rewrite Havail. exact Hfree.
    + rewrite Havail, Hfree. split.
      * intros Hno.
        destruct (Py.set_inter seat_numbers
                    (BookingService.booked_seats db sid td)) as [|x xs] eqn:Hi;
          [reflexivity|].
        exfalso.
        assert (Hx : In x (Py.set_inter seat_numbers
                             (BookingService.booked_seats db sid td))).
        { rewrite Hi. now left. }
        apply set_inter_In in Hx. destruct Hx as [Hx1 Hx2]. now apply (Hno x).
      * intros Hempty seat Hseat Hbooked.
        assert (Hx : In seat (Py.set_inter seat_numbers
                                (BookingService.booked_seats db sid td))).
        { apply set_inter_In. now split. }
        rewrite Hempty in Hx. contradiction.
    + intros c Hc. apply collect_conflicts_In in Hc.
      destruct Hc as [b [Hb [Hne ->]]]. cbn [SeatCheck.conflict_seats
        SeatCheck.conflict_status SeatCheck.conflict_booking_id].
      unfold rows in Hb. apply filter_In in Hb. destruct Hb as [Hin Hblk].
      split; [exact Hne|]. split; [now apply blocks_seats_status in Hblk|].
      exists b. repeat split; try assumption.
      * now apply set_inter_In in H.
      * now apply set_inter_In in H.
      * intros [H1 H2]. apply set_inter_In. now split.
  - split; [discriminate|]. split; [now exists s, v|].
    intros seat. rewrite <- Hinv, filter_In, orb_true_iff, !Z.ltb_lt. reflexivity.
Qed.

(** ** Cancellation and refunds *)











(** ** Rounding and the refund policy *)

Lemma round_half_even_floor (x : Q) :
  (Qfloor x <= Py.round_half_even x <= Qfloor x + 1)%Z.
Proof.
  unfold Py.round_half_even.
  destruct (x - inject_Z (Qfloor x) ?= 1 # 2)%Q; [|lia|lia].
  destruct (Z.even (Qfloor x)); lia.
Qed.

Lemma round_half_even_upper (x : Q) :
  (inject_Z (Py.round_half_even x) <= x + (1 # 2))%Q.
Proof.
  unfold Py.round_half_even.
  pose proof (Qfloor_le x) as Hf.
  destruct (x - inject_Z (Qfloor x) ?= 1 # 2)%Q eqn:E.
  - rewrite <- Qeq_alt in E.
    destruct (Z.even (Qfloor x)); [lra|]. rewrite inject_Z_plus.
    change (inject_Z 1) with 1%Q. lra.
  - lra.
  - rewrite <- Qgt_alt in E. rewrite inject_Z_plus.
    change (inject_Z 1) with 1%Q. lra.
Qed.

Lemma round2_upper (x : Q) : (Py.round2 x <= x + (1 # 200))%Q.
Proof.
  unfold Py.round2.
  pose proof (round_half_even_upper (x * 100)) as H.
  rewrite (Qmake_Qdiv (Py.round_half_even (x * 100)) 100).
  change (inject_Z (Z.pos 100)) with 100%Q.
  apply Qle_shift_div_r; [reflexivity|]. lra.
Qed.

Lemma round2_at_least (x : Q) (n : Z) :
  (inject_Z n <= x * 100)%Q -> (n # 100 <= Py.round2 x)%Q.
Proof.
  intros H. unfold Py.round2.
  pose proof (round_half_even_floor (x * 100)) as [Hlo _].
  pose proof (Qfloor_resp_le _ _ H) as Hfl. rewrite Qfloor_Z in Hfl.
  unfold Qle. cbn [Qnum Qden]. lia.
Qed.

Lemma round2_zero (x : Q) : (x == 0)%Q -> Py.round2 x = 0 # 100.
Proof.
  intros Hx. unfold Py.round2, Py.round_half_even.
  assert (Hf : Qfloor (x * 100) = 0%Z).
  { pose proof (Qfloor_le (x * 100)) as H1.
    pose proof (Qlt_floor (x * 100)) as H2.
    assert (H3 : (inject_Z (Qfloor (x * 100)) <= inject_Z 0)%Q).
    { change (inject_Z 0) with 0%Q. lra. }
    assert (H4 : (inject_Z 0 < inject_Z (Qfloor (x * 100) + 1))%Q).
    { change (inject_Z 0) with 0%Q. lra. }
    rewrite <- Zle_Qle in H3. rewrite <- Zlt_Qlt in H4. lia. }
  rewrite Hf. change (inject_Z 0) with 0%Q.
  assert (Hlt : (x * 100 - 0 ?= 1 # 2)%Q = Lt).
  { rewrite <- Qlt_alt. lra. }
  now rewrite Hlt.
Qed.

(** X24. For a non-negative paid amount the refund of the refund route is
    zero or at least 50, never more than the paid amount, and at most 90%
    of it up to the rounding to two places. *)
Theorem refund_is_nothing_or_at_least_fifty
  (original_amount : Q) (booking_date cancellation_date : datetime) :
  (0 <= original_amount)%Q ->
  let refund :=
    PaymentRoute.calculate_refund_amount original_amount booking_date
      cancellation_date in
  (refund == 0 \/ 50 <= refund)%Q
  /\ (refund <= original_amount)%Q
  /\ (refund <= original_amount * (90 # 100) + (1 # 200))%Q.
Proof.
  intros Hpos refund. subst refund. unfold PaymentRoute.calculate_refund_amount.
  set (pct := if Qle_bool 48 _ then _ else _).
  assert (Hpct : (0 <= pct)%Q /\ (pct <= 90 # 100)%Q).
  { unfold pct.
    repeat match goal with
           | |- context [if ?b then _ else _] => destruct b
           end; split; unfold Qle; cbn; lia. }
  destruct Hpct as [Hp0 Hp1].
  assert (Ha0 : (0 <= original_amount * pct)%Q) by (now apply Qmult_le_0_compat).
  assert (Ha1 : (original_amount * pct <= original_amount * (90 # 100))%Q).
  { rewrite (Qmult_comm original_amount pct),
      (Qmult_comm original_amount (90 # 100)).
    now apply Qmult_le_compat_r. }
  cbv zeta.
  destruct (negb (Qle_bool (original_amount * pct) 0)
            && negb (Qle_bool 50 (original_amount * pct)))%bool eqn:Hmin.
  - change (Py.round2 0) with (0 # 100).
    split; [left; reflexivity|]. split; unfold Qle in *; cbn in *; lia.
  - apply andb_false_iff in Hmin. destruct Hmin as [Hm | Hm];
      apply negb_false_iff, Qle_bool_iff in Hm.
    + assert (Hz : (original_amount * pct == 0)%Q) by lra.
      rewrite (round2_zero _ Hz).
      split; [left; reflexivity|]. split; unfold Qle in *; cbn in *; lia.
    + pose proof (round2_upper (original_amount * pct)) as Hup.
      assert (Hlow : (5000 # 100 <= Py.round2 (original_amount * pct))%Q).
      { apply round2_at_least. change (inject_Z 5000) with 5000%Q. lra. }
      split; [right|split]; lra.
Qed.

Lemma refund_is_nothing_or_at_least_fifty_witness :
  Qle (PaymentRoute.calculate_refund_amount 1000%Q (midnight 20002)
         (midnight 20000)) 1000%Q.
Proof.
  refine (proj1 (proj2 (refund_is_nothing_or_at_least_fifty 1000%Q
                          (midnight 20002) (midnight 20000) _))).
  unfold Qle. cbn. lia.
Defined.

(** ** Quotes, passes and the simulated gateway *)




(** X26. The pass status reports the user's count of CONFIRMED and COMPLETED
    bookings; it lists no code exactly below 20 bookings; every code it
    lists is honoured at checkout with the percentage of the reported tier
    (5% Silver, 8% Gold); there is no next tier exactly from 40 bookings on;
    and progress plus remaining bookings is the target. *)
Theorem listed_pass_codes_are_honoured (db : DB.t) (u : Z) :
  let st := PassStatus.get_user_pass_status db u in
  let n := PaymentRoute._compute_user_total_bookings db u in
  PassStatus.total_bookings st = n
  /\ (PassStatus.available_coupon_codes st = [] <-> n < 20)
  /\ (forall code env amount req,
        In code (PassStatus.available_coupon_codes st) ->
        PaymentRoute.coupon_requested req = Some code ->
        exists pct,
          PaymentRoute.resolve_discount env u amount req db
          = (db, inr (PaymentRoute.pass_discount amount pct code))
          /\ (pct = 5%Q /\ PassStatus.discount_rate st = "5%"
                        /\ PassStatus.current_tier st = "Silver"
              \/ pct = 8%Q /\ PassStatus.discount_rate st = "8%"
                           /\ PassStatus.current_tier st = "Gold"))
  /\ (PassStatus.name (PassStatus.next_tier st) = None <-> 40 <= n)
  /\ PassStatus.current_progress (PassStatus.next_tier st)
     + PassStatus.remaining (PassStatus.next_tier st)
     = PassStatus.target (PassStatus.next_tier st).
Proof.
  intros st n. subst st. unfold PassStatus.get_user_pass_status. fold n.
  assert (Hn0 : 0 <= n) by (unfold n, PaymentRoute._compute_user_total_bookings,
                             Py.len; lia).
  pose proof (fun env amount req code Hreq =>
                pass_code_by_booking_count env u amount req code db Hreq) as Hpass.
  cbv zeta in Hpass. fold n in Hpass. clearbody n.
  destruct (40 <=? n) eqn:H40; [apply Z.leb_le in H40 | apply Z.leb_gt in H40].
  - assert (H20 : (n <? 20) = false) by (apply Z.ltb_ge; lia).
    assert (H40' : (n <? 40) = false) by (apply Z.ltb_ge; lia).
    rewrite H20, H40'. cbn -[Z.max Z.sub Z.add]. split; [reflexivity|]. split.
    { split; [discriminate | intros; exfalso; lia]. }
    split.
    { intros code env amount req Hin Hreq. exists 8%Q. split; [|right; now repeat split].
      assert (Hg : PaymentRoute.is_gold_code (Str.upper code) = true).
      { destruct Hin as [<- | [<- | []]]; reflexivity. }
      destruct (Hpass env amount req code Hreq) as [_ Hgold].
      destruct (Hgold Hg) as [Hok _]. now apply Hok. }
    split; [split; [intros _; lia | reflexivity] | lia].
  - destruct (20 <=? n) eqn:H20; [apply Z.leb_le in H20 | apply Z.leb_gt in H20].
    + assert (H20' : (n <? 20) = false) by (apply Z.ltb_ge; lia).
      assert (H40' : (n <? 40) = true) by (apply Z.ltb_lt; lia).
      rewrite H20', H40'. cbn -[Z.max Z.sub Z.add]. split; [reflexivity|]. split.
      { split; [discriminate | lia]. }
      split.
      { intros code env amount req Hin Hreq. exists 5%Q.
        split; [|left; now repeat split].
        assert (Hs : PaymentRoute.is_silver_code (Str.upper code) = true).
        { destruct Hin as [<- | [<- | []]]; reflexivity. }
        destruct (Hpass env amount req code Hreq) as [Hsilver _].
        destruct (Hsilver Hs) as [Hok _]. now apply Hok. }
      split; [split; [discriminate | intros; exfalso; lia] | lia].
    + assert (H20' : (n <? 20) = true) by (apply Z.ltb_lt; lia).
      rewrite H20'. cbn -[Z.max Z.sub Z.add]. split; [reflexivity|]. split.
      { split; [intros _; lia | reflexivity]. }
      split; [intros code env amount req []|].
      split; [split; [discriminate | intros; exfalso; lia] | lia].
Qed.

Ltac gateway_approved prefix message :=
  cbn;
  split; [discriminate|];
  split; [intros H; discriminate H|];
  split; [intros [H | H]; discriminate H|];
  split; [split; [intros _; eexists; reflexivity | intros _; reflexivity]|];
  split; [intros _; split; [reflexivity|]; split; [reflexivity|];
          exists prefix, message; split; [reflexivity|]; split; reflexivity|];
  split; [intros H; discriminate H|];
  intros _ _; reflexivity.

Ltac gateway_declined :=
  cbn;
  split; [discriminate|];
  split; [intros H; discriminate H|];
  split; [intros [H | H]; discriminate H|];
  split; [split; [intros H; discriminate H | intros [t H]; discriminate H]|];
  split; [intros H; discriminate H|];
  split; [intros _; eexists; reflexivity|];
  intros H; discriminate H.

(** X27. The simulated gateway never answers that the payment method is not
    supported: details that do not validate are answered with invalid
    payment details before the method is looked at, and UPAY and
    BANK_TRANSFER never validate. An answer is a success exactly when it
    carries a transaction id; a success has no error, validated details, a
    transaction id made of the method's prefix, the reference and the random
    suffix, a gateway transaction id prefixed GW- and the code SUCCESS; a
    failure carries an error text; and NAGAD with valid details always
    succeeds. *)
Theorem gateway_answer_shape
  (m : PaymentMethod) (details : list string) (ref : string) (draw : Q)
  (suffix : string) :
  let r := PaymentService.process_payment m details ref draw suffix in
  PaymentService.error r <> Some "Payment method not supported"
  /\ (PaymentService.validate_payment_details m details = false ->
      r = PaymentService.mk false (Some "Invalid payment details") None None None)
  /\ (m = UPAY \/ m = BANK_TRANSFER ->
      PaymentService.validate_payment_details m details = false)
  /\ (PaymentService.success r = true <->
      exists t, PaymentService.transaction_id r = Some t)
  /\ (PaymentService.success r = true ->
      PaymentService.error r = None
      /\ PaymentService.validate_payment_details m details = true
      /\ exists prefix message,
           PaymentService.transaction_id r
           = Some (prefix ++ "-" ++ ref ++ "-" ++ suffix)%string
           /\ PaymentService.gateway_transaction_id r
              = Some ("GW-" ++ prefix ++ "-" ++ ref ++ "-" ++ suffix)%string
           /\ PaymentService.gateway_response r = Some ("SUCCESS", message))
  /\ (PaymentService.success r = false ->
      exists e, PaymentService.error r = Some e)
  /\ (m = NAGAD ->
      PaymentService.validate_payment_details m details = true ->
      PaymentService.success r = true).
Proof.
  intros r. subst r. unfold PaymentService.process_payment.
  destruct (PaymentService.validate_payment_details m details) eqn:Hv; cbn [negb].
  - destruct m; try discriminate Hv.
    + unfold PaymentService.process_card_payment.
      destruct (Qlt_le_dec draw (1 # 10));
        [gateway_declined | gateway_approved "CARD" "Payment approved"].
    + unfold PaymentService.process_bkash_payment.
      destruct (Qlt_le_dec draw (5 # 100));
        [gateway_declined | gateway_approved "BKASH" "Payment completed"].
    + unfold PaymentService.process_nagad_payment.
      gateway_approved "NAGAD" "Payment completed".
    + unfold PaymentService.process_rocket_payment.
      destruct (Qlt_le_dec draw (7 # 100));
        [gateway_declined | gateway_approved "ROCKET" "Payment completed"].
  - cbn. split; [discriminate|]. split; [reflexivity|].
    split; [reflexivity|].
    split; [split; [discriminate | intros [t H]; discriminate H]|].
    split; [discriminate|]. split; [intros _; eexists; reflexivity|].
    intros _ H. discriminate H.
Qed.

(** ** Seat maps *)

Lemma rows_from_concat (fuel i k : nat) (l : list Z) :
  (1 <= k)%nat -> (List.length l - i <= fuel)%nat ->
  List.concat (SeatMap.rows_from fuel i k l) = skipn i l.
Proof.
  intros Hk. revert i. induction fuel as [|f IH]; intros i Hfuel.
  - cbn. symmetry. apply skipn_all2. lia.
  - cbn [SeatMap.rows_from].
    destruct (i <? List.length l)%nat eqn:Hi.
    + apply Nat.ltb_lt in Hi.
      assert (Hrest : List.concat (SeatMap.rows_from f (i + k) k l)
                      = skipn k (skipn i l)).
      { rewrite IH by lia. now rewrite skipn_skipn, Nat.add_comm. }
      assert (Hrow : SeatMap.slice i (i + k) l = firstn k (skipn i l)).
      { unfold SeatMap.slice. f_equal. lia. }
      rewrite Hrow.
      destruct (firstn k (skipn i l)) as [|x row] eqn:Hfirst.
      * rewrite Hrest. rewrite <- (firstn_skipn k (skipn i l)) at 2.
        now rewrite Hfirst.
      * cbn [List.concat]. rewrite Hrest, <- Hfirst. apply firstn_skipn.
    + apply Nat.ltb_ge in Hi. cbn. symmetry. now apply skipn_all2.
Qed.

Lemma rows_from_rows (fuel i k : nat) (l : list Z) :
  Forall (fun row => row <> [] /\ (List.length row <= k)%nat)
         (SeatMap.rows_from fuel i k l).
Proof.
  revert i. induction fuel as [|f IH]; intros i; [constructor|].
  cbn [SeatMap.rows_from].
  destruct (i <? List.length l)%nat; [|constructor].
  destruct (SeatMap.slice i (i + k) l) as [|x row] eqn:Hrow; [apply IH|].
  constructor; [|apply IH]. split; [discriminate|].
  rewrite <- Hrow. unfold SeatMap.slice.
  replace (i + k - i)%nat with k by lia. apply firstn_le_length.
Qed.

Lemma seats_per_row_positive (layout : string) :
  (3 <= SeatMap.seats_per_row layout <= 7)%nat.
Proof.
  unfold SeatMap.seats_per_row.
  repeat match goal with
         | |- context [if ?b then _ else _] => destruct b
         end; lia.
Qed.

(** X28. The rows shown for a stored seat map are, read in order, the sorted
    seats of all classes; no row is empty or longer than the layout's seats
    per row; and a seat is in some row exactly when some class holds it. *)
Theorem seat_rows_cover_all_seats
  (seat_classes : SeatMap.classes_dict) (total_seats : Z) (layout : string) :
  let rows := SeatMap.convert_1d_to_2d_seat_map seat_classes total_seats layout in
  List.concat rows = Py.sorted (flat_map snd seat_classes)
  /\ Forall (fun row =>
               row <> []
               /\ (List.length row <= SeatMap.seats_per_row layout)%nat) rows
  /\ (forall seat,
        (exists row, In row rows /\ In seat row)
        <-> exists c, In c seat_classes /\ In seat (snd c)).
Proof.
  intros rows. subst rows. unfold SeatMap.convert_1d_to_2d_seat_map.
  pose proof (seats_per_row_positive layout) as Hk.
  assert (Hcat : List.concat
                   (SeatMap.rows_from
                      (List.length (Py.sorted (flat_map snd seat_classes))) 0
                      (SeatMap.seats_per_row layout)
                      (Py.sorted (flat_map snd seat_classes)))
                 = Py.sorted (flat_map snd seat_classes)).
  { rewrite rows_from_concat by lia. reflexivity. }
  split; [exact Hcat|]. split; [apply rows_from_rows|].
  intros seat. rewrite <- in_concat, Hcat, sorted_In, in_flat_map. reflexivity.
Qed.

Lemma insert_sorted_head (x : Z) (l : list Z) :
  HdRel Z.le x l -> Py.insert_sorted x l = x :: l.
Proof.
  intros H. destruct l as [|y r]; [reflexivity|].
  inversion H; subst. cbn. apply Z.leb_le in H1. now rewrite H1.
Qed.

Lemma sorted_of_sorted (l : list Z) : Sorted Z.le l -> Py.sorted l = l.
Proof.
  induction 1 as [|x l Hs IH Hd]; [reflexivity|].
  unfold Py.sorted in *. cbn [fold_right]. rewrite IH.
  now apply insert_sorted_head.
Qed.

Lemma insert_sorted_Sorted (x : Z) (l : list Z) :
  Sorted Z.le l -> Sorted Z.le (Py.insert_sorted x l).
Proof.
  induction 1 as [|y l Hs IH Hd]; cbn.
  - repeat constructor.
  - destruct (x <=? y) eqn:E.
    + apply Z.leb_le in E. repeat constructor; assumption.
    + apply Z.leb_gt in E. constructor; [exact IH|].
      destruct l as [|z r]; cbn.
      * constructor. lia.
      * inversion Hd; subst. destruct (x <=? z); constructor; lia.
Qed.

Lemma sorted_Sorted (l : list Z) : Sorted Z.le (Py.sorted l).
Proof.
  unfold Py.sorted. induction l as [|x r IH]; cbn; [constructor|].
  now apply insert_sorted_Sorted.
Qed.

Lemma insert_sorted_NoDup (x : Z) (l : list Z) :
  ~ In x l -> NoDup l -> NoDup (Py.insert_sorted x l).
Proof.
  intros Hx Hnd. induction l as [|y r IH]; cbn.
  - repeat constructor. intros [].
  - destruct (x <=? y).
    + now constructor.
    + inversion Hnd; subst. constructor.
      * rewrite insert_sorted_In. intros [-> | H]; [apply Hx; now left | contradiction].
      * apply IH; [|assumption]. intros H. apply Hx. now right.
Qed.

Lemma sorted_NoDup (l : list Z) : NoDup l -> NoDup (Py.sorted l).
Proof.
  unfold Py.sorted. induction 1 as [|x r Hx Hnd IH]; cbn; [constructor|].
  apply insert_sorted_NoDup; [|exact IH].
  fold (Py.sorted r). now rewrite sorted_In.
Qed.

Lemma dict_set_fresh (k : string) (v : list Z) (d : SeatMap.classes_dict) :
  ~ In k (map fst d) -> SeatMap.dict_set k v d = (d ++ [(k, v)])%list.
Proof.
  induction d as [|[k' v'] r IH]; intros H; [reflexivity|].
  cbn [SeatMap.dict_set]. destruct (k' =? k)%string eqn:E.
  - apply String.eqb_eq in E. exfalso. apply H. now left.
  - cbn [app]. f_equal. apply IH. intros Hin. apply H. now right.
Qed.

Lemma slice_then_rest (a b : nat) (l : list Z) :
  (a <= b)%nat -> (SeatMap.slice a b l ++ skipn b l)%list = skipn a l.
Proof.
  intros H. unfold SeatMap.slice.
  replace (skipn b l) with (skipn (b - a) (skipn a l)).
  - apply firstn_skipn.
  - rewrite skipn_skipn. f_equal. lia.
Qed.

Lemma distribute_seats (cps : list ClassPricing.t) (i n s spc : nat)
  (all : list Z) (acc : SeatMap.classes_dict) :
  NoDup (map fst acc ++ map ClassPricing.class_name cps)%list ->
  (i + List.length cps = n)%nat ->
  (s <= List.length all)%nat ->
  cps <> [] \/ s = List.length all ->
  let d := SeatMap.distribute cps i n s spc (List.length all) all acc in
  flat_map snd d = (flat_map snd acc ++ skipn s all)%list
  /\ map fst d = (map fst acc ++ map ClassPricing.class_name cps)%list.
Proof.
  revert i s acc. induction cps as [|c rest IH]; intros i s acc Hnd Hn Hs Hne.
  - destruct Hne as [Hne | ->]; [contradiction|]. cbn.
    rewrite skipn_all, !app_nil_r. now split.
  - cbn [SeatMap.distribute]. cbn [List.length map] in *.
    set (e := if (i <? n - 1)%nat
              then Nat.min (s + spc) (List.length all) else List.length all).
    assert (He : (s <= e <= List.length all)%nat).
    { unfold e. destruct (i <? n - 1)%nat; lia. }
    assert (Hfresh : ~ In (ClassPricing.class_name c) (map fst acc)).
    { intros Hin. apply NoDup_remove_2 in Hnd. apply Hnd.
      apply in_or_app. now left. }
    rewrite (dict_set_fresh _ _ _ Hfresh).
    assert (Hlast : rest <> [] \/ e = List.length all).
    { destruct rest as [|c' r']; [right | left; discriminate].
      unfold e. cbn in Hn.
      replace (i <? n - 1)%nat with false; [reflexivity|].
      symmetry. apply Nat.ltb_ge. lia. }
    specialize (IH (S i) e (acc ++ [(ClassPricing.class_name c,
                                     SeatMap.slice s e all)])%list).
    cbv zeta in IH. rewrite map_app, flat_map_app in IH. cbn [map flat_map fst snd] in IH.
    rewrite <- !app_assoc in IH. cbn [app] in IH.
    destruct IH as [IH1 IH2]; [exact Hnd | lia | lia | exact Hlast |].
    split; [|exact IH2].
    rewrite IH1. f_equal. apply slice_then_rest. lia.
Qed.

Lemma convert_2d_to_1d_seats (seat_map_2d : list (list Z))
  (class_prices : list ClassPricing.t) :
  NoDup (map ClassPricing.class_name class_prices) ->
  flat_map snd (SeatMap.classes
                  (SeatMap.convert_2d_to_1d_seat_map seat_map_2d class_prices))
  = Py.sorted (nodup Z.eq_dec (List.concat seat_map_2d)).
Proof.
  intros Hnd. unfold SeatMap.convert_2d_to_1d_seat_map.
  destruct class_prices as [|c rest] eqn:Hcps.
  - cbn. apply app_nil_r.
  - rewrite <- Hcps in *. cbn [SeatMap.classes].
    pose proof (distribute_seats class_prices 0 (List.length class_prices) 0
                  (List.length (Py.sorted (nodup Z.eq_dec (List.concat seat_map_2d)))
                   / Nat.max 1 (List.length class_prices))
                  (Py.sorted (nodup Z.eq_dec (List.concat seat_map_2d))) []) as H.
    cbv zeta in H.
    destruct H as [H _];
      [exact Hnd | reflexivity | lia | left; rewrite Hcps; discriminate | exact H].
Qed.

(** X29. Storing a seat map for classes with pairwise distinct names: the
    stored total is the number of stored seats; the seats of the classes,
    read in order, are increasing without repetition; they are exactly the
    seat numbers of the rows given; and the classes are the given ones in
    order, or ECONOMY alone when none is given. *)
Theorem class_split_keeps_every_seat
  (seat_map_2d : list (list Z)) (class_prices : list ClassPricing.t) :
  NoDup (map ClassPricing.class_name class_prices) ->
  let r := SeatMap.convert_2d_to_1d_seat_map seat_map_2d class_prices in
  let seats := flat_map snd (SeatMap.classes r) in
  SeatMap.total_seats r = List.length seats
  /\ NoDup seats
  /\ Sorted Z.le seats
  /\ (forall seat, In seat seats <-> exists row, In row seat_map_2d /\ In seat row)
  /\ map fst (SeatMap.classes r)
     = match class_prices with
       | [] => ["ECONOMY"]
       | _ => map ClassPricing.class_name class_prices
       end.
Proof.
  intros Hnd r seats. subst seats.
  assert (Hseats : flat_map snd (SeatMap.classes r)
                   = Py.sorted (nodup Z.eq_dec (List.concat seat_map_2d)))
    by (now apply convert_2d_to_1d_seats).
  rewrite Hseats. split; [|split; [|split; [|split]]].
  - unfold r, SeatMap.convert_2d_to_1d_seat_map.
    now destruct class_prices.
  - apply sorted_NoDup, NoDup_nodup.
  - apply sorted_Sorted.
  - intros seat. rewrite sorted_In, nodup_In, in_concat. reflexivity.
  - unfold r, SeatMap.convert_2d_to_1d_seat_map.
    destruct class_prices as [|c rest] eqn:Hcps; [reflexivity|].
    rewrite <- Hcps in *. cbn [SeatMap.classes].
    pose proof (distribute_seats class_prices 0 (List.length class_prices) 0
                  (List.length (Py.sorted (nodup Z.eq_dec (List.concat seat_map_2d)))
                   / Nat.max 1 (List.length class_prices))
                  (Py.sorted (nodup Z.eq_dec (List.concat seat_map_2d))) []) as H.
    cbv zeta in H.
    destruct H as [_ H];
      [exact Hnd | reflexivity | lia | left; rewrite Hcps; discriminate |].
    rewrite H, Hcps. reflexivity.
Qed.

Lemma class_split_keeps_every_seat_witness :
  NoDup (flat_map snd
           (SeatMap.classes
              (SeatMap.convert_2d_to_1d_seat_map [[4; 3]; [2; 1]; [3; 5]]
                 [ClassPricing.mk "BUSINESS" 1200; ClassPricing.mk "ECONOMY" 800]))).
Proof.
  refine (proj1 (proj2 (class_split_keeps_every_seat [[4; 3]; [2; 1]; [3; 5]]
                          [ClassPricing.mk "BUSINESS" 1200;
                           ClassPricing.mk "ECONOMY" 800] _))).
  repeat constructor; cbn; intuition discriminate.
Defined.

(** X30. Round trip of a seat map (class names pairwise distinct): storing
    rows and showing them again, for any layout, gives rows that read in
    order are the sorted distinct seat numbers of the original rows; and
    storing what is shown gives the same classes again. *)
Theorem seat_map_round_trip
  (seat_map_2d : list (list Z)) (class_prices : list ClassPricing.t)
  (total_seats : Z) (layout : string) :
  NoDup (map ClassPricing.class_name class_prices) ->
  let stored := SeatMap.convert_2d_to_1d_seat_map seat_map_2d class_prices in
  let shown :=
    SeatMap.convert_1d_to_2d_seat_map (SeatMap.classes stored) total_seats layout in
  List.concat shown = Py.sorted (nodup Z.eq_dec (List.concat seat_map_2d))
  /\ SeatMap.classes
       (SeatMap.convert_2d_to_1d_seat_map shown class_prices)
     = SeatMap.classes stored.
Proof.
  intros Hnd stored shown.
  assert (Hseats : flat_map snd (SeatMap.classes stored)
                   = Py.sorted (nodup Z.eq_dec (List.concat seat_map_2d)))
    by (now apply convert_2d_to_1d_seats).
  assert (Hshown : List.concat shown
                   = Py.sorted (nodup Z.eq_dec (List.concat seat_map_2d))).
  { unfold shown, SeatMap.convert_1d_to_2d_seat_map. rewrite Hseats.
    pose proof (seats_per_row_positive layout) as Hk.
    rewrite rows_from_concat by lia. cbn [skipn].
    apply sorted_of_sorted, sorted_Sorted. }
  split; [exact Hshown|].
  unfold stored at 1. unfold SeatMap.convert_2d_to_1d_seat_map.
  rewrite Hshown.
  assert (Hsame : Py.sorted (nodup Z.eq_dec
                    (Py.sorted (nodup Z.eq_dec (List.concat seat_map_2d))))
                  = Py.sorted (nodup Z.eq_dec (List.concat seat_map_2d))).
  { rewrite (nodup_fixed_point Z.eq_dec).
    - apply sorted_of_sorted, sorted_Sorted.
    - apply sorted_NoDup, NoDup_nodup. }
  rewrite Hsame. reflexivity.
Qed.

Lemma seat_map_round_trip_witness :
  List.concat
    (SeatMap.convert_1d_to_2d_seat_map
       (SeatMap.classes
          (SeatMap.convert_2d_to_1d_seat_map [[4; 3]; [2; 1]; [3; 5]]
             [ClassPricing.mk "BUSINESS" 1200; ClassPricing.mk "ECONOMY" 800]))
       5 "2-1")
  = Py.sorted (nodup Z.eq_dec (List.concat [[4; 3]; [2; 1]; [3; 5]])).
Proof.
  refine (proj1 (seat_map_round_trip [[4; 3]; [2; 1]; [3; 5]]
                   [ClassPricing.mk "BUSINESS" 1200; ClassPricing.mk "ECONOMY" 800]
                   5 "2-1" _)).
  repeat constructor; cbn; intuition discriminate.
Defined.
